(** * Market sentiment dashboard: scorer, adapters and aggregation service

    A shallow embedding of the Python sources

      - [src/sentiment_analyzer.py]   (the sentiment scorer),
      - [script/build_silver_dataset.py] ([normalize_label]),
      - [src/data_ingestion.py]       (market data and news adapters),
      - [sentiment/services.py]       (the aggregation service),

    followed by the properties of these functions.

    Python values are modelled by the inductive type [pyval]; floats are
    IEEE binary64 numbers (the primitive type [float]); exceptions are
    explicit, carried by the error monad [result], and [try]/[except] is the
    combinator [try_except].  External collaborators (the classifier, the
    quote provider, the news feed, pandas' timestamp rendering) are inputs
    of the functions that call them. *)

From Stdlib Require Import ZArith List String Ascii Bool Lia.
From Stdlib Require Import Floats DecimalString DecimalN.
Import ListNotations.

Set Implicit Arguments.
Set Warnings "-register-all".

Local Open Scope string_scope.
Local Open Scope list_scope.
Local Open Scope Z_scope.

(* ================================================================== *)
(** * Python runtime model *)
(* ================================================================== *)

(** ** Exceptions and the error monad *)

Inductive exn_kind : Type :=
| TypeError
| ValueError
| KeyError
| IndexError
| AttributeError
| OverflowError
| ZeroDivisionError
| ExternalError.

(** An exception carries its class and its message; [str(e)] is the
    message. *)
Record exn : Type := Exn { exn_class : exn_kind; exn_message : string }.

Definition py_str_exn (e : exn) : string := exn_message e.

Inductive result (A : Type) : Type :=
| Ok (a : A)
| Raise (e : exn).

Arguments Ok {A} a.
Arguments Raise {A} e.

Definition bind {A B : Type} (m : result A) (k : A -> result B) : result B :=
  match m with
  | Ok a => k a
  | Raise e => Raise e
  end.

Notation "x <- m ;; k" := (bind m (fun x => k))
  (at level 61, m at next level, right associativity).

(** [try: body / except Exception as e: handler e]. *)
Definition try_except {A : Type} (body : result A) (handler : exn -> result A)
  : result A :=
  match body with
  | Ok a => Ok a
  | Raise e => handler e
  end.

Definition raises {A : Type} (m : result A) : bool :=
  match m with
  | Ok _ => false
  | Raise _ => true
  end.

(** ** Values *)

(** Dictionaries are string-keyed (JSON objects, classifier results) and
    kept in insertion order. *)
Inductive pyval : Type :=
| PNone
| PBool (b : bool)
| PInt (z : Z)
| PFloat (f : float)
| PStr (s : string)
| PList (l : list pyval)
| PDict (d : list (string * pyval)).

Definition is_none (v : pyval) : bool :=
  match v with
  | PNone => true
  | _ => false
  end.

(** Truth value testing ([bool(v)]): [None], [False], zero, the empty
    string and empty containers are false.  NaN is true. *)
Definition py_truthy (v : pyval) : bool :=
  match v with
  | PNone => false
  | PBool b => b
  | PInt z => negb (z =? 0)
  | PFloat f => negb (PrimFloat.eqb f 0)
  | PStr s => negb (String.eqb s "")
  | PList l => match l with [] => false | _ :: _ => true end
  | PDict d => match d with [] => false | _ :: _ => true end
  end.

(** [a or b]. *)
Definition py_or (a b : pyval) : pyval :=
  if py_truthy a then a else b.

(** ** Dictionaries *)

Fixpoint dict_lookup (d : list (string * pyval)) (k : string) : option pyval :=
  match d with
  | [] => None
  | (k', v) :: d' => if String.eqb k' k then Some v else dict_lookup d' k
  end.

(** [d[k] = v]: an existing key keeps its position. *)
Fixpoint dict_set (d : list (string * pyval)) (k : string) (v : pyval)
  : list (string * pyval) :=
  match d with
  | [] => [(k, v)]
  | (k', v') :: d' =>
      if String.eqb k' k then (k, v) :: d' else (k', v') :: dict_set d' k v
  end.

(** [o.get(k, default)]: only dictionaries have the method. *)
Definition py_get (o : pyval) (k : string) (default : pyval) : result pyval :=
  match o with
  | PDict d =>
      match dict_lookup d k with
      | Some v => Ok v
      | None => Ok default
      end
  | _ => Raise (Exn AttributeError "object has no attribute 'get'")
  end.

(** [o[k]] for a string literal [k]. *)
Definition py_item (o : pyval) (k : string) : result pyval :=
  match o with
  | PDict d =>
      match dict_lookup d k with
      | Some v => Ok v
      | None => Raise (Exn KeyError k)
      end
  | PList _ => Raise (Exn TypeError "list indices must be integers or slices, not str")
  | PStr _ => Raise (Exn TypeError "string indices must be integers, not 'str'")
  | _ => Raise (Exn TypeError "object is not subscriptable")
  end.

(** [o[k] = v] for a string literal [k]. *)
Definition py_set_item (o : pyval) (k : string) (v : pyval) : result pyval :=
  match o with
  | PDict d => Ok (PDict (dict_set d k v))
  | PList _ => Raise (Exn TypeError "list indices must be integers or slices, not str")
  | _ => Raise (Exn TypeError "object does not support item assignment")
  end.

(** Position [i] of a sequence of length [n], negative indices counting
    from the end. *)
Definition seq_index {A : Type} (l : list A) (i : Z) : option A :=
  let n := Z.of_nat (List.length l) in
  let j := if i <? 0 then i + n else i in
  if (0 <=? j) && (j <? n) then nth_error l (Z.to_nat j) else None.

Fixpoint string_nth (s : string) (n : nat) : option ascii :=
  match s, n with
  | EmptyString, _ => None
  | String c _, O => Some c
  | String _ s', S n' => string_nth s' n'
  end.

(** [o[i]] for an integer literal [i]. *)
Definition py_index (o : pyval) (i : Z) : result pyval :=
  match o with
  | PList l =>
      match seq_index l i with
      | Some v => Ok v
      | None => Raise (Exn IndexError "list index out of range")
      end
  | PStr s =>
      let n := Z.of_nat (String.length s) in
      let j := if i <? 0 then i + n else i in
      if (0 <=? j) && (j <? n) then
        match string_nth s (Z.to_nat j) with
        | Some c => Ok (PStr (String c EmptyString))
        | None => Raise (Exn IndexError "string index out of range")
        end
      else Raise (Exn IndexError "string index out of range")
  | PDict _ => Raise (Exn KeyError "0")
  | _ => Raise (Exn TypeError "object is not subscriptable")
  end.

(** [for x in o]: the items the loop visits. *)
Fixpoint chars_of (s : string) : list pyval :=
  match s with
  | EmptyString => []
  | String c s' => PStr (String c EmptyString) :: chars_of s'
  end.

Definition py_iter (o : pyval) : result (list pyval) :=
  match o with
  | PList l => Ok l
  | PStr s => Ok (chars_of s)
  | PDict d => Ok (map (fun kv => PStr (fst kv)) d)
  | _ => Raise (Exn TypeError "object is not iterable")
  end.

(** A literal dictionary used as a lookup table: [table.get(key, default)].
    Lists and dictionaries are unhashable; a key that is not a string is
    not in a string-keyed table. *)
Definition py_table_get (table : list (string * pyval)) (key default : pyval)
  : result pyval :=
  match key with
  | PList _ => Raise (Exn TypeError "unhashable type: 'list'")
  | PDict _ => Raise (Exn TypeError "unhashable type: 'dict'")
  | PStr s =>
      match dict_lookup table s with
      | Some v => Ok v
      | None => Ok default
      end
  | _ => Ok default
  end.

(** ** Numbers *)

(** What the interpreter and pandas do and this repository only calls:
    parsing a number from a string, rendering a float with thousands
    separators, rendering the calendar fields of a naive timestamp
    (nanoseconds since the epoch), and the UTC offset in minutes of a time
    zone at an instant. *)
Class Runtime : Type := {
  float_of_str : string -> result float;
  int_of_str : string -> result Z;
  format_float_grouped : float -> string;
  naive_isoformat : Z -> string;
  zone_offset : string -> Z -> Z
}.

(** The integer [z] rounded to the nearest binary64 number, ties to even. *)
Definition spec_of_Z (z : Z) : spec_float :=
  binary_normalize prec emax z 0 false.

(** [float(v)]. An integer beyond the binary64 range raises
    [OverflowError]. *)
Definition py_float `{Runtime} (v : pyval) : result float :=
  match v with
  | PFloat f => Ok f
  | PInt z =>
      match spec_of_Z z with
      | S754_infinity _ => Raise (Exn OverflowError "int too large to convert to float")
      | sf => Ok (SF2Prim sf)
      end
  | PBool b => Ok (if b then 1%float else 0%float)
  | PStr s => float_of_str s
  | _ => Raise (Exn TypeError "float() argument must be a string or a real number")
  end.

(** [a / b] on floats: division by zero raises. *)
Definition py_truediv (a b : float) : result float :=
  if PrimFloat.eqb b 0 then Raise (Exn ZeroDivisionError "float division by zero")
  else Ok (PrimFloat.div a b).

(** The integer part of the finite number [(-1)^s * m * 2^e]. *)
Definition trunc_finite (s : bool) (m : positive) (e : Z) : Z :=
  let magnitude := if 0 <=? e then Z.pos m * 2 ^ e else Z.pos m / 2 ^ (- e) in
  if s then - magnitude else magnitude.

(** [int(f)] for a float [f]: truncation towards zero; NaN and the
    infinities raise. *)
Definition py_int_of_float (f : float) : result Z :=
  match Prim2SF f with
  | S754_nan => Raise (Exn ValueError "cannot convert float NaN to integer")
  | S754_infinity _ => Raise (Exn OverflowError "cannot convert float infinity to integer")
  | S754_zero _ => Ok 0
  | S754_finite s m e => Ok (trunc_finite s m e)
  end.

(** [int(v)]. *)
Definition py_int `{Runtime} (v : pyval) : result Z :=
  match v with
  | PInt z => Ok z
  | PBool b => Ok (if b then 1 else 0)
  | PFloat f => py_int_of_float f
  | PStr s => int_of_str s
  | _ => Raise (Exn TypeError "int() argument must be a string or a real number")
  end.

(** ** Strings *)

(** Characters are the code points below 256. *)
Definition code (c : ascii) : N := N_of_ascii c.

(** [str.lower] on one character: the upper-case letters are A-Z and the
    Latin-1 capitals U+00C0-U+00DE without the multiplication sign. *)
Definition is_upper (c : ascii) : bool :=
  let n := code c in
  ((65 <=? n) && (n <=? 90) || (192 <=? n) && (n <=? 222) && negb (n =? 215))%N.

Definition lower_char (c : ascii) : ascii :=
  if is_upper c then ascii_of_N (code c + 32) else c.

Fixpoint lower (s : string) : string :=
  match s with
  | EmptyString => EmptyString
  | String c s' => String (lower_char c) (lower s')
  end.

(** The characters [str.strip()] removes: tab to carriage return, the
    separators U+001C-U+001F, the space, NEL and the no-break space. *)
Definition is_space (c : ascii) : bool :=
  let n := code c in
  ((9 <=? n) && (n <=? 13) || (28 <=? n) && (n <=? 32) || (n =? 133) || (n =? 160))%N.

Fixpoint lstrip (s : string) : string :=
  match s with
  | EmptyString => EmptyString
  | String c s' => if is_space c then lstrip s' else s
  end.

Fixpoint rstrip (s : string) : string :=
  match s with
  | EmptyString => EmptyString
  | String c s' =>
      let r := rstrip s' in
      if is_space c && String.eqb r "" then EmptyString else String c r
  end.

Definition strip (s : string) : string := rstrip (lstrip s).

(** [needle in s]. *)
Fixpoint contains (needle s : string) : bool :=
  String.prefix needle s ||
  match s with
  | EmptyString => false
  | String _ s' => contains needle s'
  end.

(** Digits in groups of three, from the right. *)
Fixpoint group_thousands (digits : string) : string :=
  match digits with
  | EmptyString => EmptyString
  | String c rest =>
      let n := String.length rest in
      String c (if (Nat.eqb (n mod 3) 0 && negb (Nat.eqb n 0))%nat
                then String "," (group_thousands rest)
                else group_thousands rest)
  end.

(** [format(z, ",")] for an integer. *)
Definition format_int_grouped (z : Z) : string :=
  let digits := NilZero.string_of_uint (N.to_uint (Z.abs_N z)) in
  String.append (if Z.ltb z 0 then "-" else "") (group_thousands digits).

(** [format(v, ",")]: [bool] formats as the integer it is; [None], strings
    and containers reject the format. *)
Definition py_format_grouped `{Runtime} (v : pyval) : result string :=
  match v with
  | PInt z => Ok (format_int_grouped z)
  | PBool b => Ok (if b then "1" else "0")
  | PFloat f => Ok (format_float_grouped f)
  | PStr _ => Raise (Exn ValueError "Cannot specify ',' with 's'.")
  | _ => Raise (Exn TypeError "unsupported format string passed to __format__")
  end.

(* ================================================================== *)
(** * src/sentiment_analyzer.py *)
(* ================================================================== *)

(** A loaded classifier: called on a batch, it returns a value or raises. *)
Definition classifier : Type := pyval -> result pyval.

(** [load_sentiment_model]: the pipeline constructor's failure is reported
    and becomes [None]. *)
Definition load_sentiment_model (pipeline : result classifier) : option classifier :=
  match pipeline with
  | Ok model => Some model
  | Raise _ => None
  end.

(** The literal [{'label': 'neutral', 'score': 0.0}] of both early
    returns. *)
Definition neutral_default : pyval :=
  PDict [("label", PStr "neutral"); ("score", PFloat 0)].

Definition sentiment_map : list (string * pyval) :=
  [("positive", PStr "Positive");
   ("negative", PStr "Negative");
   ("neutral", PStr "Neutral")].

(** The body of the [try] block. *)
Definition classify (text : pyval) (clf : classifier) : result pyval :=
  results <- clf (PList [text]) ;;
  result <- py_index results 0 ;;
  raw <- py_item result "label" ;;
  label <- py_table_get sentiment_map raw (PStr "Neutral") ;;
  py_set_item result "label" label.

Definition analyze_sentiment (text : pyval) (clf : option classifier)
  : result pyval :=
  match clf with
  | None => Ok neutral_default
  | Some c =>
      if negb (py_truthy text) then Ok neutral_default
      else try_except (classify text c) (fun _ => Ok neutral_default)
  end.

(** The three canonical labels. *)
Definition canonical_labels : list pyval :=
  [PStr "Positive"; PStr "Negative"; PStr "Neutral"].

Definition is_canonical (v : pyval) : bool :=
  match v with
  | PStr s => String.eqb s "Positive" || String.eqb s "Negative" || String.eqb s "Neutral"
  | _ => false
  end.

(** The label of a result dictionary. *)
Definition label_of (r : pyval) : option pyval :=
  match r with
  | PDict d => dict_lookup d "label"
  | _ => None
  end.

Definition score_of (r : pyval) : option pyval :=
  match r with
  | PDict d => dict_lookup d "score"
  | _ => None
  end.

(* ================================================================== *)
(** * script/build_silver_dataset.py *)
(* ================================================================== *)

Definition normalize_label (raw : string) : string :=
  if String.eqb raw "" then "neutral"
  else
    let r := lower (strip raw) in
    if contains "pos" r then "positive"
    else if contains "neg" r then "negative"
    else if contains "neu" r then "neutral"
    else "neutral".

(* ================================================================== *)
(** * The external collaborators *)
(* ================================================================== *)

(** A price history as pandas holds it: the time zone of the index
    ([None] for a naive index), the column labels, and one row per
    trading day: the instant (nanoseconds since the epoch) and its cells,
    binary64 numbers with NaN for a missing value.  A cell is read only
    under a label that [columns] has once: pandas allows a label on
    several columns, and what is read under such a label is no number
    but all the cells under it. *)
Record frame : Type := Frame {
  index_zone : option string;
  columns : list string;
  rows : list (Z * (string -> float))
}.

Definition frame_len (h : frame) : Z := Z.of_nat (List.length (rows h)).

(** [h.empty]: one of the two axes has length zero. *)
Definition frame_empty (h : frame) : bool :=
  match rows h, columns h with
  | [], _ => true
  | _, [] => true
  | _, _ => false
  end.

Definition has_column (h : frame) (c : string) : bool :=
  existsb (String.eqb c) (columns h).

(** On how many columns the label [c] is. *)
Definition label_count (h : frame) (c : string) : nat :=
  List.length (filter (String.eqb c) (columns h)).

(** What [h[c]] selects: the column of a label that is there once, or,
    for a repeated label, the frame of the columns under it, of which
    only the index is kept. *)
Inductive selection : Type :=
| Column (cells : list float)
| Columns (index : list Z).

(** [h[c]], or [KeyError]. *)
Definition frame_column (h : frame) (c : string) : result selection :=
  match label_count h c with
  | O => Raise (Exn KeyError c)
  | 1%nat => Ok (Column (map (fun r => snd r c) (rows h)))
  | _ => Ok (Columns (map fst (rows h)))
  end.

(** [column.iloc[i]]. *)
Definition iloc (column : list float) (i : Z) : result float :=
  match seq_index column i with
  | Some x => Ok x
  | None => Raise (Exn IndexError "single positional indexer is out-of-bounds")
  end.

(** [float(selected.iloc[i])]: the cell of a column; of a frame of
    several columns [iloc] gives a row, a Series of their cells, which
    [float] does not convert. *)
Definition float_iloc (selected : selection) (i : Z) : result float :=
  match selected with
  | Column cells => iloc cells i
  | Columns index =>
      match seq_index index i with
      | Some _ => Raise (Exn TypeError "cannot convert the series to <class 'float'>")
      | None => Raise (Exn IndexError "single positional indexer is out-of-bounds")
      end
  end.

(** [h.tail(n)] and [h.head(n)]. *)
Definition frame_tail (n : nat) (h : frame) : frame :=
  Frame (index_zone h) (columns h) (skipn (List.length (rows h) - n) (rows h)).

Definition frame_head (n : nat) (h : frame) : frame :=
  Frame (index_zone h) (columns h) (firstn n (rows h)).

(** [h.index = h.index.tz_convert(None)]: a naive index cannot be
    converted; an aware one becomes naive UTC. *)
Definition tz_convert_none (h : frame) : result frame :=
  match index_zone h with
  | None => Raise (Exn TypeError "Cannot convert tz-naive timestamps, use tz_localize to localize")
  | Some _ => Ok (Frame None (columns h) (rows h))
  end.

Definition two_digits (n : Z) : string :=
  String.append (if n <? 10 then "0" else "")
                (NilZero.string_of_uint (N.to_uint (Z.to_N n))).

(** The [+HH:MM] that [isoformat] appends for an aware timestamp. *)
Definition offset_suffix (minutes : Z) : string :=
  let m := Z.abs minutes in
  String.append (if minutes <? 0 then "-" else "+")
    (String.append (two_digits (m / 60)) (String.append ":" (two_digits (m mod 60)))).

(** [idx.isoformat()] for a timestamp of an index in [zone]. *)
Definition isoformat `{Runtime} (zone : option string) (instant : Z) : string :=
  match zone with
  | None => naive_isoformat instant
  | Some z =>
      let off := zone_offset z instant in
      String.append (naive_isoformat (instant + off * 60000000000)) (offset_suffix off)
  end.

(** [row.get(c, default)] on a row of [h]: the cell, [default] for a
    label the frame does not have, and for a repeated label the Series of
    the cells under it, which is [None] here. *)
Definition row_get (h : frame) (row : Z * (string -> float)) (c : string)
  (default : pyval) : option pyval :=
  match label_count h c with
  | O => Some default
  | 1%nat => Some (PFloat (snd row c))
  | _ => None
  end.

(** The error of [bool(series)]. *)
Definition series_truth_value : exn :=
  Exn ValueError
      "The truth value of a Series is ambiguous. Use a.empty, a.bool(), a.item(), a.any() or a.all().".

(** [cell or fallback] for what [row.get] gave: a Series has no truth
    value. *)
Definition cell_or (cell : option pyval) (fallback : pyval) : result pyval :=
  match cell with
  | Some v => Ok (py_or v fallback)
  | None => Raise series_truth_value
  end.

(** A [yfinance.Ticker]: its [info] property and its [history] method,
    each of which may raise; [history] may hand back [None]. *)
Record stock : Type := Stock {
  stock_info : result pyval;
  stock_history : string -> result (option frame)
}.

(** Everything outside the repository that the adapters call. *)
Record provider : Type := Provider {
  yf_Ticker : string -> result stock;
  get_yf_rss : string -> result pyval;
  pipeline : result classifier
}.

(* ================================================================== *)
(** * src/data_ingestion.py *)
(* ================================================================== *)

Definition get_stock_data (P : provider) (ticker period : string)
  : result (option frame) :=
  try_except
    (stock <- yf_Ticker P ticker ;;
     hist_data <- stock_history stock period ;;
     match hist_data with
     | None => Raise (Exn AttributeError "'NoneType' object has no attribute 'empty'")
     | Some h => Ok (if negb (frame_empty h) then Some h else None)
     end)
    (fun _ => Ok None).

(** The profile dictionary, or [None] when anything raised. *)
Definition get_company_info `{Runtime} (P : provider) (ticker : string)
  : result pyval :=
  try_except
    (stock <- yf_Ticker P ticker ;;
     info <- stock_info stock ;;
     name <- py_get info "longName" (PStr "N/A") ;;
     sector <- py_get info "sector" (PStr "N/A") ;;
     cap <- py_get info "marketCap" (PInt 0) ;;
     cap_text <- py_format_grouped cap ;;
     summary <- py_get info "longBusinessSummary" (PStr "N/A") ;;
     Ok (PDict [("Company Name", name);
                ("Sector", sector);
                ("Market Cap", PStr (String.append "$" cap_text));
                ("Business Summary", summary)]))
    (fun _ => Ok PNone).

Record price_snapshot : Type := Snapshot {
  current_price : option float;
  previous_close : option float;
  change : option float;
  change_pct : option float
}.

Definition all_null : price_snapshot := Snapshot None None None None.

(** [info.get(k1) or info.get(k2)]: the second field is read only when the
    first is false. *)
Definition live_field (info : pyval) (k1 k2 : string) : result pyval :=
  a <- py_get info k1 PNone ;;
  if py_truthy a then Ok a else py_get info k2 PNone.

(** [float(hist['Close'].iloc[i]) if v is None else v]. *)
Definition close_unless_set (hist : frame) (i : Z) (v : pyval) : result pyval :=
  if is_none v then
    (column <- frame_column hist "Close" ;;
     x <- float_iloc column i ;;
     Ok (PFloat x))
  else Ok v.

(** The fallback to the history: the pair [(prev, current)] after it. *)
Definition history_fallback (hist : option frame) (prev current : pyval)
  : result (pyval * pyval) :=
  match hist with
  | None => Ok (prev, current)
  | Some h =>
      if 2 <=? frame_len h then
        (prev' <- close_unless_set h (-2) prev ;;
         current' <- close_unless_set h (-1) current ;;
         Ok (prev', current'))
      else if frame_len h =? 1 then
        (prev' <- close_unless_set h 0 prev ;;
         current' <- close_unless_set h 0 current ;;
         Ok (prev', current'))
      else Ok (prev, current)
  end.

(** [pct]: the guarded division, inside its own [try]. *)
Definition percent_change (change prev : float) : result (option float) :=
  try_except
    (if negb (PrimFloat.eqb prev 0) then
       (q <- py_truediv change prev ;;
        Ok (Some (PrimFloat.mul q 100)))
     else Ok None)
    (fun _ => Ok None).

(** The statements after the fallback: the snapshot of the resolved
    [prev] and [current]. *)
Definition snapshot_of `{Runtime} (prev current : pyval) : result price_snapshot :=
  if is_none current then Ok all_null
  else
    (current <- py_float current ;;
     prev <- (if is_none prev then Ok None
              else (p <- py_float prev ;; Ok (Some p))) ;;
     match prev with
     | None => Ok (Snapshot (Some current) None None None)
     | Some p =>
         let change := PrimFloat.sub current p in
         pct <- percent_change change p ;;
         Ok (Snapshot (Some current) (Some p) (Some change) pct)
     end).

(** The body of the outer [try] of [get_price_and_change]. *)
Definition price_and_change_body `{Runtime} (P : provider) (ticker : string)
  : result price_snapshot :=
  stock <- yf_Ticker P ticker ;;
  info0 <- stock_info stock ;;
  let info := py_or info0 (PDict []) in
  current <- live_field info "regularMarketPrice" "currentPrice" ;;
  prev <- live_field info "regularMarketPreviousClose" "previousClose" ;;
  resolved <-
    (if is_none current || is_none prev then
       (hist <- stock_history stock "3d" ;;
        history_fallback hist prev current)
     else Ok (prev, current)) ;;
  snapshot_of (fst resolved) (snd resolved).

Definition get_price_and_change `{Runtime} (P : provider) (ticker : string)
  : result price_snapshot :=
  try_except (price_and_change_body P ticker) (fun _ => Ok all_null).

(** One iteration of the loop of [get_stock_news]. *)
Definition analyze_item (clf : classifier) (item : pyval) : result pyval :=
  title <- py_get item "title" (PStr "No Title") ;;
  sentiment <- analyze_sentiment title (Some clf) ;;
  link <- py_get item "link" (PStr "#") ;;
  published <- py_get item "published" (PStr "N/A") ;;
  label <- py_item sentiment "label" ;;
  score <- py_item sentiment "score" ;;
  Ok (PDict [("title", title);
             ("link", link);
             ("published", published);
             ("sentiment_label", label);
             ("sentiment_score", score)]).

Fixpoint analyze_items (clf : classifier) (items : list pyval)
  : result (list pyval) :=
  match items with
  | [] => Ok []
  | item :: rest =>
      news_item <- analyze_item clf item ;;
      analyzed <- analyze_items clf rest ;;
      Ok (news_item :: analyzed)
  end.

Definition get_stock_news (P : provider) (ticker : string) : result (list pyval) :=
  match load_sentiment_model (pipeline P) with
  | None => Ok []
  | Some clf =>
      try_except
        (news_list <- get_yf_rss P ticker ;;
         items <- py_iter news_list ;;
         analyze_items clf items)
        (fun _ => Ok [])
  end.

(* ================================================================== *)
(** * sentiment/services.py *)
(* ================================================================== *)

Record history_point : Type := HistoryPoint {
  date : string;
  open : float;
  high : float;
  low : float;
  close : float;
  volume : Z
}.

(** What [get_company_data] returns: [{'name': None}] when the adapters
    could not be imported, the four-key dictionary, or [{'error': ...}]. *)
Inductive company_data : Type :=
| NameNone
| CompanyData (profile : pyval) (history_head : option frame)
    (history : option (list history_point)) (price : option price_snapshot)
| ErrorDict (message : string).

(** One iteration of the loop over [hist2.iterrows()]. *)
Definition serialize_row `{Runtime} (h : frame) (row : Z * (string -> float))
  : result history_point :=
  let date := isoformat (index_zone h) (fst row) in
  o <- (cell <- cell_or (row_get h row "Open" PNone) (PFloat 0) ;; py_float cell) ;;
  hi <- (cell <- cell_or (row_get h row "High" PNone) (PFloat 0) ;; py_float cell) ;;
  lo <- (cell <- cell_or (row_get h row "Low" PNone) (PFloat 0) ;; py_float cell) ;;
  c <- (cell <- cell_or (row_get h row "Close" PNone) (PFloat 0) ;; py_float cell) ;;
  v <- (cell <- cell_or (row_get h row "Volume" (PInt 0)) (PInt 0) ;; py_int cell) ;;
  Ok (HistoryPoint date o hi lo c v).

Fixpoint serialize_rows `{Runtime} (h : frame) (rs : list (Z * (string -> float)))
  : result (list history_point) :=
  match rs with
  | [] => Ok []
  | row :: rest =>
      point <- serialize_row h row ;;
      points <- serialize_rows h rest ;;
      Ok (point :: points)
  end.

(** The serialization of a fetched history: the last 180 rows, on a
    naive index. *)
Definition serialize_history `{Runtime} (hist : frame) : result (list history_point) :=
  hist2 <- tz_convert_none (frame_tail 180 hist) ;;
  serialize_rows hist2 (rows hist2).

(** The body of the [try] block of [get_company_data]. *)
Definition company_data_body `{Runtime} (P : provider) (ticker : string)
  : result company_data :=
  profile <- get_company_info P ticker ;;
  hist <- get_stock_data P ticker "5y" ;;
  history_serialized <-
    match hist with
    | Some h =>
        if negb (frame_empty h) then
          (points <- serialize_history h ;; Ok (Some points))
        else Ok None
    | None => Ok None
    end ;;
  price_info <-
    try_except (s <- get_price_and_change P ticker ;; Ok (Some s))
               (fun _ => Ok None) ;;
  Ok (CompanyData profile
        (match hist with Some h => Some (frame_head 5 h) | None => None end)
        history_serialized price_info).

(** [data_ingestion] is the imported adapter module, [None] when the
    import failed. *)
Definition get_company_data `{Runtime} (data_ingestion : option provider)
  (ticker : string) : result company_data :=
  match data_ingestion with
  | None => Ok NameNone
  | Some P =>
      try_except (company_data_body P ticker)
                 (fun e => Ok (ErrorDict (py_str_exn e)))
  end.

(* ================================================================== *)
(** * Label normalization as the specification words it *)
(* ================================================================== *)

(** A classifier that answers every batch with one result of raw label
    [raw] and confidence [score]. *)
Definition classifier_returning (raw : string) (score : float) : classifier :=
  fun _ => Ok (PList [PDict [("label", PStr raw); ("score", PFloat score)]]).

(** The label the scorer attaches when the classifier says [raw]. *)
Definition scored_label (raw : string) : option pyval :=
  match analyze_sentiment (PStr "headline") (Some (classifier_returning raw 1)) with
  | Ok r => label_of r
  | Raise _ => None
  end.

(** The specification's rule, read in the order it is written: a
    case-insensitive substring match, "pos" first, then "neg", everything
    else neutral. *)
Definition substring_rule (positive negative neutral : pyval)
  (normalize : string -> option pyval) : Prop :=
  forall raw : string,
    (contains "pos" (lower raw) = true -> normalize raw = Some positive) /\
    (contains "pos" (lower raw) = false -> contains "neg" (lower raw) = true ->
     normalize raw = Some negative) /\
    (contains "pos" (lower raw) = false -> contains "neg" (lower raw) = false ->
     normalize raw = Some neutral).

(** The scorer's own rule: the three lower-case words, matched exactly. *)
Definition exact_label (raw : string) : string :=
  if String.eqb raw "positive" then "Positive"
  else if String.eqb raw "negative" then "Negative"
  else "Neutral".

(** No character of the string is stripped by [str.strip]. *)
Fixpoint no_space (s : string) : bool :=
  match s with
  | EmptyString => true
  | String c s' => negb (is_space c) && no_space s'
  end.

(* ================================================================== *)
(** * The price fallback chain, declaratively *)
(* ================================================================== *)

(** The closes a history offers to the fallback.  No history and a
    history without rows offer none, and no column is read; of a history
    with rows the Close column is read, which raises when the label is
    missing and gives no numbers when it is repeated. *)
Definition history_closes (hist : option frame) : result (list float) :=
  match hist with
  | None => Ok []
  | Some h =>
      match rows h with
      | [] => Ok []
      | _ :: _ =>
          selected <- frame_column h "Close" ;;
          match selected with
          | Column closes => Ok closes
          | Columns _ =>
              Raise (Exn TypeError "cannot convert the series to <class 'float'>")
          end
      end
  end.

(** What a quote is made of: the live current and previous price as the
    two [or] expressions give them, and, when one of them is null, the
    closes of the three-day history. *)
Definition quote_of `{Runtime} (P : provider) (ticker : string)
  (live_prev live_current : pyval) (closes : list float) : Prop :=
  exists (s : stock) (info : pyval),
    yf_Ticker P ticker = Ok s /\
    stock_info s = Ok info /\
    live_field (py_or info (PDict [])) "regularMarketPrice" "currentPrice"
      = Ok live_current /\
    live_field (py_or info (PDict [])) "regularMarketPreviousClose" "previousClose"
      = Ok live_prev /\
    (is_none live_current || is_none live_prev = true ->
     exists hist, stock_history s "3d" = Ok hist /\ history_closes hist = Ok closes).

(** What keeps a quote from being made: the provider refuses the ticker
    or its info; the info is true and no dictionary; or, a live price
    being null, the three-day history cannot be fetched or its closes
    cannot be read. *)
Definition quote_fails `{Runtime} (P : provider) (ticker : string) : Prop :=
  (exists e, yf_Ticker P ticker = Raise e) \/
  exists s : stock,
    yf_Ticker P ticker = Ok s /\
    ((exists e, stock_info s = Raise e) \/
     exists info : pyval,
       stock_info s = Ok info /\
       ((forall d, py_or info (PDict []) <> PDict d) \/
        exists live_prev live_current : pyval,
          live_field (py_or info (PDict [])) "regularMarketPrice" "currentPrice"
            = Ok live_current /\
          live_field (py_or info (PDict [])) "regularMarketPreviousClose" "previousClose"
            = Ok live_prev /\
          is_none live_current || is_none live_prev = true /\
          ((exists e, stock_history s "3d" = Raise e) \/
           exists hist e,
             stock_history s "3d" = Ok hist /\ history_closes hist = Raise e))).

(** A null price takes the close on offer, a live one is kept. *)
Definition fill (v : pyval) (offer : option float) : pyval :=
  if is_none v then
    match offer with
    | Some x => PFloat x
    | None => PNone
    end
  else v.

(** The pair (previous, current) a list of closes offers, as the
    specification words it: the second-to-last and the last close. *)
Definition last_two_closes (closes : list float) : option (float * float) :=
  match rev closes with
  | last :: before :: _ => Some (before, last)
  | _ => None
  end.

(** The same as the code has it: a single close stands for both. *)
Definition last_closes (closes : list float) : option (float * float) :=
  match rev closes with
  | last :: before :: _ => Some (before, last)
  | [only] => Some (only, only)
  | [] => None
  end.

(** The resolved pair (previous, current). *)
Definition resolve (offer : option (float * float)) (live_prev live_current : pyval)
  : pyval * pyval :=
  (fill live_prev (option_map fst offer), fill live_current (option_map snd offer)).

(** The chain as the specification words it: live fields, the two-day
    backfill, and all four fields null when a price is still
    unresolved. *)
Definition chain_as_stated `{Runtime} (P : provider) (ticker : string) : Prop :=
  forall (live_prev live_current : pyval) (closes : list float),
    quote_of P ticker live_prev live_current closes ->
    let r := resolve (last_two_closes closes) live_prev live_current in
    get_price_and_change P ticker =
      if is_none (fst r) || is_none (snd r) then Ok all_null
      else try_except (snapshot_of (fst r) (snd r)) (fun _ => Ok all_null).

(** The single-row case as it is claimed: no live field, one close [c]
    that is not zero, and a snapshot with both prices [c], a zero change
    and a zero percentage. *)
Definition single_row_as_stated `{Runtime} (P : provider) (ticker : string) : Prop :=
  forall c : float,
    quote_of P ticker PNone PNone [c] ->
    PrimFloat.eqb c 0 = false ->
    exists (snap : price_snapshot) (d pct : float),
      get_price_and_change P ticker = Ok snap /\
      current_price snap = Some c /\
      previous_close snap = Some c /\
      change snap = Some d /\ PrimFloat.eqb d 0 = true /\
      change_pct snap = Some pct /\ PrimFloat.eqb pct 0 = true.

(** A runtime for the examples: strings are not numbers, and the
    renderings are fixed texts. *)
Definition example_runtime : Runtime := {|
  float_of_str := fun _ => Raise (Exn ValueError "could not convert string to float");
  int_of_str := fun _ => Raise (Exn ValueError "invalid literal for int()");
  format_float_grouped := fun _ => "1,234.5";
  naive_isoformat := fun _ => "2024-01-02T05:00:00";
  zone_offset := fun _ _ => -300
|}.

(** A three-day history with the given closes, on a New York index. *)
Definition closes_frame (closes : list float) : frame :=
  Frame (Some "America/New_York") ["Open"; "High"; "Low"; "Close"; "Volume"]
        (map (fun c => (1704171600000000000, fun _ : string => c)) closes).

(** A provider with an empty quote and the given closes. *)
Definition history_only (closes : list float) : provider :=
  Provider
    (fun _ => Ok (Stock (Ok (PDict [])) (fun _ => Ok (Some (closes_frame closes)))))
    (fun _ => Ok (PList []))
    (Raise (Exn ExternalError "model not available")).

(** A provider with a live current price only and no history rows. *)
Definition live_current_only (price : float) : provider :=
  Provider
    (fun _ => Ok (Stock (Ok (PDict [("regularMarketPrice", PFloat price)]))
                        (fun _ => Ok (Some (closes_frame [])))))
    (fun _ => Ok (PList []))
    (Raise (Exn ExternalError "model not available")).

(* ================================================================== *)
(** * Profile and service claims as the specification words them *)
(* ================================================================== *)

(** The provider's field and the profile's key, for the four fields. *)
Definition profile_fields : list (string * string) :=
  [("longName", "Company Name");
   ("sector", "Sector");
   ("marketCap", "Market Cap");
   ("longBusinessSummary", "Business Summary")].

(** Every profile field the provider has no data for reads "N/A". *)
Definition not_available_as_stated `{Runtime} (P : provider) (ticker : string) : Prop :=
  forall (s : stock) (info profile : list (string * pyval)),
    yf_Ticker P ticker = Ok s ->
    stock_info s = Ok (PDict info) ->
    get_company_info P ticker = Ok (PDict profile) ->
    forall field key : string,
      In (field, key) profile_fields ->
      dict_lookup info field = None ->
      dict_lookup profile key = Some (PStr "N/A").

(** The service does not raise, and a failing step inside it, such as
    the provider's refusal of the ticker, shows as [{'error': message}]. *)
Definition error_dict_as_stated `{Runtime} (P : provider) (ticker : string) : Prop :=
  raises (get_company_data (Some P) ticker) = false /\
  forall e : exn,
    yf_Ticker P ticker = Raise e ->
    exists message : string,
      get_company_data (Some P) ticker = Ok (ErrorDict message).

(** A provider that raises on every call. *)
Definition unreachable : provider :=
  Provider (fun _ => Raise (Exn ExternalError "connection refused"))
           (fun _ => Raise (Exn ExternalError "connection refused"))
           (Raise (Exn ExternalError "model not available")).

(** The four price fields of a point and the labels of their columns. *)
Definition price_columns : list (string * (history_point -> float)) :=
  [("Open", open); ("High", high); ("Low", low); ("Close", close)].

(** What a serialized point owes to its row of the history [h]: the date
    is the rendering of the naive timestamp, without offset, and a column
    that [h] does not have reads 0.0, the volume 0. *)
Definition point_of_row `{Runtime} (h : frame) (row : Z * (string -> float))
  (point : history_point) : Prop :=
  date point = naive_isoformat (fst row) /\
  (has_column h "Open" = false -> open point = 0%float) /\
  (has_column h "High" = false -> high point = 0%float) /\
  (has_column h "Low" = false -> low point = 0%float) /\
  (has_column h "Close" = false -> close point = 0%float) /\
  (has_column h "Volume" = false -> volume point = 0).

(** A price the provider omits is a NaN cell of a column that is there;
    the point carries it as it is, and not as 0.0. *)
Definition missing_prices_kept (h : frame) (row : Z * (string -> float))
  (point : history_point) : Prop :=
  forall (label : string) (field : history_point -> float),
    In (label, field) price_columns ->
    has_column h label = true ->
    is_nan (snd row label) = true ->
    is_nan (field point) = true /\ field point <> 0%float.

(** A history of [n] daily rows on a New York index that has the columns
    [cols]; every cell reads 101.5. *)
Definition daily_history (cols : list string) (n : nat) : frame :=
  Frame (Some "America/New_York") cols
        (map (fun i => (1704171600000000000 + Z.of_nat i * 86400000000000,
                        fun _ : string => 101.5%float))
             (seq 0 n)).

(** A provider whose history is [h] and whose quote is empty. *)
Definition with_history (h : frame) : provider :=
  Provider (fun _ => Ok (Stock (Ok (PDict [])) (fun _ => Ok (Some h))))
           (fun _ => Ok (PList []))
           (Raise (Exn ExternalError "model not available")).

(* ================================================================== *)
(** * src/data_ingestion.py: the current price *)
(* ================================================================== *)

(** The [fast_info] attribute of a Ticker: a plain value ([None], a
    dictionary, ...) or an object of its own, true, whose [lastPrice]
    lookup answers or raises. *)
Inductive fast_info : Type :=
| FastValue (v : pyval)
| FastObject (lastPrice : result pyval).

(** [getattr(o, name, None)]: a missing attribute reads as the default,
    any other exception goes on. *)
Definition getattr_default {A : Type} (lookup : result A) (default : A) : result A :=
  match lookup with
  | Raise (Exn AttributeError _) => Ok default
  | r => r
  end.

(** [if fast:]. *)
Definition fast_truthy (fast : fast_info) : bool :=
  match fast with
  | FastValue v => py_truthy v
  | FastObject _ => true
  end.

(** [fast.get('lastPrice') if isinstance(fast, dict)
     else getattr(fast, 'lastPrice', None)]. *)
Definition fast_last_price (fast : fast_info) : result pyval :=
  match fast with
  | FastValue (PDict d) => py_get (PDict d) "lastPrice" PNone
  | FastValue _ => Ok PNone
  | FastObject lookup => getattr_default lookup PNone
  end.

(** The body of the [try] block of [get_current_price]; [fast_info_of]
    reads the attribute [fast_info] of a Ticker. *)
Definition current_price_body `{Runtime} (P : provider)
  (fast_info_of : stock -> result fast_info) (ticker : string)
  : result (option float) :=
  stock <- yf_Ticker P ticker ;;
  info0 <- stock_info stock ;;
  let info := py_or info0 (PDict []) in
  price <- live_field info "regularMarketPrice" "currentPrice" ;;
  price <-
    (if is_none price then
       (fast <- getattr_default (fast_info_of stock) (FastValue PNone) ;;
        if fast_truthy fast then fast_last_price fast else Ok price)
     else Ok price) ;;
  if negb (is_none price) then
    (f <- py_float price ;; Ok (Some f))
  else
    (hist <- stock_history stock "2d" ;;
     match hist with
     | Some h =>
         if negb (frame_empty h) then
           (column <- frame_column h "Close" ;;
            x <- float_iloc column (-1) ;;
            Ok (Some x))
         else Ok None
     | None => Ok None
     end).

Definition get_current_price `{Runtime} (P : provider)
  (fast_info_of : stock -> result fast_info) (ticker : string)
  : result (option float) :=
  try_except (current_price_body P fast_info_of ticker) (fun _ => Ok None).

(* ================================================================== *)
(** * sentiment/services.py: the news *)
(* ================================================================== *)

(** One iteration of the loop of [analyze_news_for_ticker]. *)
Definition simplify_item (n : pyval) : result pyval :=
  title <- py_get n "title" PNone ;;
  link <- py_get n "link" PNone ;;
  published <- py_get n "published" PNone ;;
  label <- py_get n "sentiment_label" PNone ;;
  score <- py_get n "sentiment_score" PNone ;;
  Ok (PDict [("title", title);
             ("link", link);
             ("published", published);
             ("sentiment_label", label);
             ("sentiment_score", score)]).

Fixpoint simplify_items (news_items : list pyval) : result (list pyval) :=
  match news_items with
  | [] => Ok []
  | n :: rest =>
      item <- simplify_item n ;;
      simplified <- simplify_items rest ;;
      Ok (item :: simplified)
  end.

(** [sentiment_analyzer] tells whether that module was imported. *)
Definition analyze_news_for_ticker (data_ingestion : option provider)
  (sentiment_analyzer : bool) (ticker : string) : result (list pyval) :=
  match data_ingestion with
  | None => Ok []
  | Some P =>
      if negb sentiment_analyzer then Ok []
      else
        try_except
          (news_items <- get_stock_news P ticker ;;
           simplify_items news_items)
          (fun _ => Ok [])
  end.

(* ================================================================== *)
(** * sentiment/views.py *)
(* ================================================================== *)

(** [company_data.get('profile')], [.get('price')], [.get('history')]. *)
Definition data_profile (cd : company_data) : pyval :=
  match cd with
  | CompanyData profile _ _ _ => profile
  | _ => PNone
  end.

Definition data_price (cd : company_data) : option price_snapshot :=
  match cd with
  | CompanyData _ _ _ price => price
  | _ => None
  end.

Definition data_history (cd : company_data) : option (list history_point) :=
  match cd with
  | CompanyData _ _ history _ => history
  | _ => None
  end.

(** [company_data.get('price') or {}] read at one of its four keys. *)
Definition price_field (price : option price_snapshot)
  (field : price_snapshot -> option float) : option float :=
  match price with
  | Some snap => field snap
  | None => None
  end.

(** The [company] object of the [/analyze] response. *)
Record company_fields : Type := CompanyFields {
  company_name : pyval;
  company_sector : pyval;
  company_market_cap : pyval;
  company_business_summary : pyval;
  company_current_price : option float;
  company_previous_close : option float;
  company_change : option float;
  company_change_pct : option float
}.

Record analyze_response : Type := AnalyzeResponse {
  analyze_ticker : string;
  analyze_company : company_fields;
  analyze_news : list pyval;
  news_available : bool;
  analyze_history : option (list history_point);
  history_available : bool
}.

Record price_response : Type := PriceResponse {
  price_ticker : string;
  price_current_price : option float;
  price_previous_close : option float;
  price_change : option float;
  price_change_pct : option float
}.

Section Views.

(** [str.upper].  It is not closed on the code points below 256 (the
    upper case of U+00FF is U+0178), so it is an input of the views. *)
Variable str_upper : string -> string.

Context {rt : Runtime}.

(** [request.GET.get('ticker', 'AAPL').upper()]. *)
Definition request_ticker (query : option string) : string :=
  str_upper match query with
            | Some t => t
            | None => "AAPL"
            end.

(** The view [analyze], up to the rendering of its dictionary. *)
Definition analyze (data_ingestion : option provider) (sentiment_analyzer : bool)
  (query : option string) : result analyze_response :=
  let ticker := request_ticker query in
  company_data <- get_company_data data_ingestion ticker ;;
  let profile := data_profile company_data in
  named <-
    (if py_truthy profile then
       (name <- py_get profile "Company Name" PNone ;;
        sector <- py_get profile "Sector" PNone ;;
        cap <- py_get profile "Market Cap" PNone ;;
        summary <- py_get profile "Business Summary" PNone ;;
        Ok (name, sector, cap, summary))
     else Ok (PNone, PNone, PNone, PNone)) ;;
  let '(name, sector, cap, summary) := named in
  let price_info := data_price company_data in
  let company :=
    CompanyFields name sector cap summary
      (price_field price_info current_price)
      (price_field price_info previous_close)
      (price_field price_info change)
      (price_field price_info change_pct) in
  news <- analyze_news_for_ticker data_ingestion sentiment_analyzer ticker ;;
  let history := data_history company_data in
  Ok (AnalyzeResponse ticker company news
        (match news with [] => false | _ :: _ => true end)
        history
        (match history with Some (_ :: _) => true | _ => false end)).

(** The view [price]. *)
Definition price (data_ingestion : option provider) (query : option string)
  : result price_response :=
  let ticker := request_ticker query in
  company_data <- get_company_data data_ingestion ticker ;;
  let price_info := data_price company_data in
  Ok (PriceResponse ticker
        (price_field price_info current_price)
        (price_field price_info previous_close)
        (price_field price_info change)
        (price_field price_info change_pct)).

End Views.

(* ================================================================== *)
(** * script/build_silver_dataset.py: the rows *)
(* ================================================================== *)

(** [v.strip()] and [v.lower()]: string methods. *)
Definition py_strip (v : pyval) : result string :=
  match v with
  | PStr s => Ok (strip s)
  | _ => Raise (Exn AttributeError "object has no attribute 'strip'")
  end.

Definition py_lower (v : pyval) : result string :=
  match v with
  | PStr s => Ok (lower s)
  | _ => Raise (Exn AttributeError "object has no attribute 'lower'")
  end.

Record dataset_row : Type := DatasetRow {
  headline : string;
  row_label : string;
  row_score : string;
  raw_label : string;
  row_source : pyval;
  row_published : pyval;
  row_link : pyval
}.

(** [items[: limit]] under [if args.limit and args.limit > 0]. *)
Definition limit_items (limit : Z) (items : list pyval) : list pyval :=
  if negb (limit =? 0) && (0 <? limit) then firstn (Z.to_nat limit) items
  else items.

Section Dataset.

(** The rendering [f"{score:.6f}"] of a float. *)
Variable format_score : float -> string.

Variable clf : option classifier.
Variable min_len : Z.
Variable unique : bool.

(** The scoring of one kept headline: the raw label, the score text and
    the normalized label. *)
Definition label_headline (title : string) : result (string * string * string) :=
  result0 <- analyze_sentiment (PStr title) clf ;;
  let result := py_or result0 (PDict []) in
  l <- py_get result "label" PNone ;;
  raw <- py_strip (py_or l (PStr "")) ;;
  score <- py_get result "score" PNone ;;
  let norm := normalize_label raw in
  Ok (raw,
      match score with
      | PFloat f => format_score f
      | _ => ""
      end,
      norm).

(** One iteration of the loop of [main] on the rows written so far and
    the keys seen so far. *)
Definition dataset_step (state : list dataset_row * list string) (it : pyval)
  : result (list dataset_row * list string) :=
  let '(rows, seen) := state in
  t <- py_get it "title" PNone ;;
  title <- py_strip (py_or t (PStr "")) ;;
  if String.eqb title "" || (Z.of_nat (String.length title) <? min_len)
  then Ok (rows, seen)
  else
    let key := lower title in
    if unique && existsb (String.eqb key) seen then Ok (rows, seen)
    else
      (labelled <- label_headline title ;;
       let '(raw, score, norm) := labelled in
       source <- py_get it "source" PNone ;;
       published <- py_get it "published" PNone ;;
       link <- py_get it "link" PNone ;;
       Ok (rows ++ [DatasetRow title norm score raw
                      (py_or source (PStr ""))
                      (py_or published (PStr ""))
                      (py_or link (PStr ""))],
           if unique then key :: seen else seen)).

Fixpoint dataset_loop (state : list dataset_row * list string) (items : list pyval)
  : result (list dataset_row * list string) :=
  match items with
  | [] => Ok state
  | it :: rest =>
      state' <- dataset_step state it ;;
      dataset_loop state' rest
  end.

(** The rows [main] writes for the fetched items. *)
Definition dataset_rows (limit : Z) (items : list pyval) : result (list dataset_row) :=
  final <- dataset_loop ([], []) (limit_items limit items) ;;
  Ok (fst final).

End Dataset.

(** [main] up to the writing of the file: the news of the ticker, cut to
    the limit, scored again with the loaded model. *)
Definition build_silver_dataset (format_score : float -> string) (P : provider)
  (ticker : string) (limit min_len : Z) (unique : bool) : result (list dataset_row) :=
  items <- get_stock_news P ticker ;;
  dataset_rows format_score (load_sentiment_model (pipeline P)) min_len unique
    limit items.

(* ================================================================== *)
(** * script/baseline_finbert_eval.py: the prediction *)
(* ================================================================== *)

Definition eval_norm : list (string * pyval) :=
  [("positive", PStr "positive");
   ("negative", PStr "negative");
   ("neutral", PStr "neutral")].

(** One iteration of the prediction loop of [main]. *)
Definition predict (text : string) (clf : option classifier) : result pyval :=
  res0 <- analyze_sentiment (PStr text) clf ;;
  let res := py_or res0 (PDict []) in
  l <- py_get res "label" PNone ;;
  raw <- py_lower (py_or l (PStr "")) ;;
  py_table_get eval_norm (PStr raw) (PStr "neutral").

(* ================================================================== *)
(** * What rows and news items owe to their inputs *)
(* ================================================================== *)

(** [d.get(k, default)] on the entries of a dictionary. *)
Definition dict_get (d : list (string * pyval)) (k : string) (default : pyval) : pyval :=
  match dict_lookup d k with
  | Some v => v
  | None => default
  end.

(** What an analyzed news item owes to its feed item: the three fields
    with their defaults, and the label and the score of the scorer's
    answer for the title. *)
Definition news_item_of (c : classifier) (item n : pyval) : Prop :=
  exists (d sentiment : list (string * pyval)) (label : string) (score : pyval),
    item = PDict d /\
    analyze_sentiment (dict_get d "title" (PStr "No Title")) (Some c)
      = Ok (PDict sentiment) /\
    dict_lookup sentiment "label" = Some (PStr label) /\
    dict_lookup sentiment "score" = Some score /\
    In label ["Positive"; "Negative"; "Neutral"; "neutral"] /\
    n = PDict [("title", dict_get d "title" (PStr "No Title"));
               ("link", dict_get d "link" (PStr "#"));
               ("published", dict_get d "published" (PStr "N/A"));
               ("sentiment_label", PStr label);
               ("sentiment_score", score)].

(** The feed items the loop of the news adapter fails on: what is no
    dictionary, and what the scorer answers without a score. *)
Definition item_fails (c : classifier) (item : pyval) : Prop :=
  match item with
  | PDict d =>
      exists sentiment : pyval,
        analyze_sentiment (dict_get d "title" (PStr "No Title")) (Some c)
          = Ok sentiment /\
        score_of sentiment = None
  | _ => True
  end.

(** What holds of a row of the dataset: the headline is not empty, has
    the minimum length and no white space around it; the raw label is
    one of the scorer's, and the label is its lower case. *)
Definition kept_row (min_len : Z) (r : dataset_row) : Prop :=
  headline r <> "" /\
  min_len <= Z.of_nat (String.length (headline r)) /\
  strip (headline r) = headline r /\
  In (raw_label r) ["Positive"; "Negative"; "Neutral"; "neutral"] /\
  row_label r = lower (raw_label r).

(** The key under which [--unique] remembers a row. *)
Definition row_key (r : dataset_row) : string := lower (headline r).

(** What the loop of the dataset builder keeps true of the rows written
    and of the keys seen. *)
Definition loop_invariant (min_len : Z) (unique : bool)
  (state : list dataset_row * list string) : Prop :=
  Forall (kept_row min_len) (fst state) /\
  (unique = true ->
   NoDup (map row_key (fst state)) /\
   forall r, In r (fst state) -> In (row_key r) (snd state)).

(** Four fetched items: a headline, the same headline in capitals, a
    headline that is too short, an item without title. *)
Definition example_items : list pyval :=
  [PDict [("title", PStr "  Acme beats estimates ")];
   PDict [("title", PStr "ACME BEATS ESTIMATES"); ("link", PStr "https://example.org/a")];
   PDict [("title", PStr "Hi")];
   PDict [("link", PStr "https://example.org/b")]].

Definition example_row : dataset_row :=
  DatasetRow "Acme beats estimates" "positive" "0.500000" "Positive"
    (PStr "") (PStr "") (PStr "").

(** A provider with a live current price of 12.0, a previous close of
    10.0 and the given history method. *)
Definition live_quote (history : string -> result (option frame)) : provider :=
  Provider
    (fun _ => Ok (Stock (Ok (PDict [("regularMarketPrice", PFloat 12);
                                    ("previousClose", PFloat 10)]))
                        history))
    (fun _ => Ok (PList []))
    (Raise (Exn ExternalError "model not available")).

(* ================================================================== *)
(** * What the serialized history owes to its rows *)
(* ================================================================== *)

(** The volume of a row can be read. *)
Definition volume_readable (h : frame) (row : Z * (string -> float)) : bool :=
  negb (has_column h "Volume") || is_finite (snd row "Volume").

(** One of the five labels the serialization reads is on several
    columns. *)
Definition label_repeated (h : frame) : bool :=
  existsb (fun c => 2 <=? label_count h c)%nat
          ["Open"; "High"; "Low"; "Close"; "Volume"].

(** One day on a New York index with five columns, whose opening price
    is missing. *)
Definition nan_open_history : frame :=
  Frame (Some "America/New_York") ["Open"; "High"; "Low"; "Close"; "Volume"]
        [(1704171600000000000,
          fun c => if String.eqb c "Open" then nan else 10%float)].

(** One day on a New York index, closing at 10.0, whose volume is
    missing. *)
Definition nan_volume_history : frame :=
  Frame (Some "America/New_York") ["Close"; "Volume"]
        [(1704171600000000000,
          fun c => if String.eqb c "Volume" then nan else 10%float)].

(** The price a point carries for the cell [x] of a column that is
    there: the cell as it is, NaN included, but 0.0 for a zero of either
    sign. *)
Definition served_price (x : float) : float :=
  if PrimFloat.eqb x 0 then 0%float else x.

(** The integer part of a finite number, towards zero. *)
Definition integer_part (x : float) : Z :=
  match Prim2SF x with
  | S754_finite s m e => trunc_finite s m e
  | _ => 0
  end.

(** What a serialized point carries for the columns its history has. *)
Definition point_serves_row (h : frame) (row : Z * (string -> float))
  (point : history_point) : Prop :=
  (has_column h "Open" = true -> open point = served_price (snd row "Open")) /\
  (has_column h "High" = true -> high point = served_price (snd row "High")) /\
  (has_column h "Low" = true -> low point = served_price (snd row "Low")) /\
  (has_column h "Close" = true -> close point = served_price (snd row "Close")) /\
  (has_column h "Volume" = true -> volume point = integer_part (snd row "Volume")).

(* ================================================================== *)
(** * Reading a grouped number *)
(* ================================================================== *)

(** A grouped number without its separators. *)
Fixpoint ungroup (text : string) : string :=
  match text with
  | EmptyString => EmptyString
  | String c rest =>
      if Ascii.eqb c "," then ungroup rest else String c (ungroup rest)
  end.

(** The natural number a grouped text denotes. *)
Definition read_grouped (text : string) : option N :=
  option_map N.of_uint (NilZero.uint_of_string (ungroup text)).

(** No separator among the characters. *)
Fixpoint no_comma (s : string) : bool :=
  match s with
  | EmptyString => true
  | String c rest => negb (Ascii.eqb c ",") && no_comma rest
  end.

(** A provider that knows a name and a market cap and has no history. *)
Definition named_provider : provider :=
  Provider
    (fun _ => Ok (Stock (Ok (PDict [("longName", PStr "Acme Corp");
                                    ("marketCap", PInt 1250000)]))
                        (fun _ => Ok None)))
    (fun _ => Ok (PList []))
    (Raise (Exn ExternalError "model not available")).

(* ================================================================== *)
(** * Properties *)
(* ================================================================== *)

(** ** The error monad *)

Lemma bind_ok {A B : Type} (m : result A) (k : A -> result B) (b : B) :
  bind m k = Ok b -> exists a, m = Ok a /\ k a = Ok b.
Proof.
  destruct m as [a | e]; simpl; intros Hb.
  - exists a. split; [reflexivity | exact Hb].
  - discriminate Hb.
Qed.

Lemma try_except_total {A : Type} (body : result A) (fallback : A) :
  raises (try_except body (fun _ => Ok fallback)) = false.
Proof. destruct body; reflexivity. Qed.


Ltac inv_bind H :=
  let x := fresh "x" in
  let Hx := fresh "Hx" in
  apply bind_ok in H; destruct H as (x & Hx & H).

(** ** Dictionaries *)

Lemma py_get_dict (d : list (string * pyval)) (k : string) (default : pyval) :
  py_get (PDict d) k default = Ok (dict_get d k default).
Proof. unfold py_get, dict_get. now destruct (dict_lookup d k). Qed.

Lemma dict_lookup_set_same (d : list (string * pyval)) (k : string) (v : pyval) :
  dict_lookup (dict_set d k v) k = Some v.
Proof.
  induction d as [| [k' v'] d IH]; simpl.
  - now rewrite String.eqb_refl.
  - destruct (String.eqb k' k) eqn:E; simpl.
    + now rewrite String.eqb_refl.
    + now rewrite E.
Qed.

Lemma dict_lookup_set_other (d : list (string * pyval)) (k k' : string) (v : pyval) :
  k <> k' -> dict_lookup (dict_set d k v) k' = dict_lookup d k'.
Proof.
  intros Hk. induction d as [| [k0 v0] d IH]; simpl.
  - apply String.eqb_neq in Hk. now rewrite Hk.
  - destruct (String.eqb k0 k) eqn:E; simpl.
    + apply String.eqb_eq in E. subst k0.
      apply String.eqb_neq in Hk. now rewrite Hk.
    + destruct (String.eqb k0 k'); [reflexivity | exact IH].
Qed.

(** ** Strings: [strip] and [lower] against the substring test *)

Lemma is_space_lower_char (c : ascii) : is_space (lower_char c) = is_space c.
Proof. destruct c as [[] [] [] [] [] [] [] []]; reflexivity. Qed.

Lemma lower_lstrip (s : string) : lower (lstrip s) = lstrip (lower s).
Proof.
  induction s as [| c s IH]; simpl; [reflexivity |].
  rewrite is_space_lower_char. destruct (is_space c); [exact IH | reflexivity].
Qed.

Lemma lower_rstrip (s : string) : lower (rstrip s) = rstrip (lower s).
Proof.
  induction s as [| c s IH]; simpl; [reflexivity |].
  rewrite is_space_lower_char, <- IH.
  assert (Hnil : String.eqb (lower (rstrip s)) "" = String.eqb (rstrip s) "")
    by (destruct (rstrip s); reflexivity).
  rewrite Hnil.
  destruct (is_space c && String.eqb (rstrip s) ""); reflexivity.
Qed.

Lemma lower_strip (s : string) : lower (strip s) = strip (lower s).
Proof. unfold strip. now rewrite lower_rstrip, lower_lstrip. Qed.

Lemma prefix_space_head (c : ascii) (n s : string) (a : ascii) :
  is_space a = true -> is_space c = false ->
  String.prefix (String c n) (String a s) = false.
Proof.
  intros Ha Hc. simpl. destruct (ascii_dec c a) as [-> | _]; [congruence | reflexivity].
Qed.

Lemma contains_lstrip (c : ascii) (n s : string) :
  is_space c = false ->
  contains (String c n) (lstrip s) = contains (String c n) s.
Proof.
  intros Hc. induction s as [| a s IH]; [reflexivity |].
  cbn [lstrip]. destruct (is_space a) eqn:Ha; [| reflexivity].
  rewrite IH. cbn [contains].
  now rewrite (@prefix_space_head c n s a Ha Hc).
Qed.

Lemma prefix_rstrip (n s : string) :
  no_space n = true -> String.prefix n (rstrip s) = String.prefix n s.
Proof.
  revert s. induction n as [| c n IH]; intros s Hn.
  - destruct s; simpl; [reflexivity |].
    destruct (is_space a && String.eqb (rstrip s) ""); reflexivity.
  - simpl in Hn. apply andb_true_iff in Hn. destruct Hn as [Hc Hn].
    apply negb_true_iff in Hc.
    destruct s as [| a s]; [reflexivity |].
    cbn [rstrip].
    destruct (is_space a && String.eqb (rstrip s) "") eqn:E.
    + apply andb_true_iff in E. destruct E as [Ha _].
      now rewrite (@prefix_space_head c n s a Ha Hc).
    + simpl. destruct (ascii_dec c a); [now apply IH | reflexivity].
Qed.

Lemma contains_rstrip (c : ascii) (n s : string) :
  no_space (String c n) = true ->
  contains (String c n) (rstrip s) = contains (String c n) s.
Proof.
  intros Hn. induction s as [| a s IH]; [reflexivity |].
  assert (Hc : is_space c = false).
  { simpl in Hn. apply andb_true_iff in Hn. now apply negb_true_iff. }
  cbn [rstrip].
  destruct (is_space a && String.eqb (rstrip s) "") eqn:E.
  - apply andb_true_iff in E. destruct E as [Ha Hr].
    apply String.eqb_eq in Hr. rewrite Hr in IH.
    cbn [contains]. rewrite <- IH, (@prefix_space_head c n s a Ha Hc).
    reflexivity.
  - cbn [contains]. rewrite IH. f_equal.
    change (String.prefix (String c n) (String a (rstrip s)) =
            String.prefix (String c n) (String a s)).
    simpl. destruct (ascii_dec c a); [| reflexivity].
    apply prefix_rstrip. simpl in Hn. now apply andb_true_iff in Hn.
Qed.

Lemma contains_strip (c : ascii) (n s : string) :
  no_space (String c n) = true ->
  contains (String c n) (strip s) = contains (String c n) s.
Proof.
  intros Hn. unfold strip. rewrite contains_rstrip by exact Hn.
  apply contains_lstrip.
  simpl in Hn. apply andb_true_iff in Hn. now apply negb_true_iff.
Qed.

Lemma contains_lower_strip (c : ascii) (n raw : string) :
  no_space (String c n) = true ->
  contains (String c n) (lower (strip raw)) = contains (String c n) (lower raw).
Proof. intros Hn. rewrite lower_strip. now apply contains_strip. Qed.

(** ** Label normalization *)

Lemma normalize_label_substring (raw : string) :
  normalize_label raw =
    if contains "pos" (lower raw) then "positive"
    else if contains "neg" (lower raw) then "negative"
    else "neutral".
Proof.
  unfold normalize_label.
  destruct (String.eqb raw "") eqn:E.
  - apply String.eqb_eq in E. subst raw. reflexivity.
  - rewrite !contains_lower_strip by reflexivity.
    destruct (contains "pos" (lower raw)); [reflexivity |].
    destruct (contains "neg" (lower raw)); [reflexivity |].
    destruct (contains "neu" (lower raw)); reflexivity.
Qed.

Lemma sentiment_map_exact (raw : string) :
  py_table_get sentiment_map (PStr raw) (PStr "Neutral") = Ok (PStr (exact_label raw)).
Proof.
  unfold py_table_get, sentiment_map, exact_label. cbn [dict_lookup].
  rewrite (String.eqb_sym "positive" raw), (String.eqb_sym "negative" raw),
    (String.eqb_sym "neutral" raw).
  destruct (String.eqb raw "positive"); [reflexivity |].
  destruct (String.eqb raw "negative"); [reflexivity |].
  destruct (String.eqb raw "neutral"); reflexivity.
Qed.

Lemma analyze_sentiment_returning (text : pyval) (raw : string) (score : float) :
  py_truthy text = true ->
  analyze_sentiment text (Some (classifier_returning raw score)) =
    Ok (PDict [("label", PStr (exact_label raw)); ("score", PFloat score)]).
Proof.
  intros Ht. unfold analyze_sentiment. rewrite Ht. cbn [negb].
  unfold classify, classifier_returning.
  cbn [bind py_index seq_index List.length Z.of_nat Z.ltb Z.compare Z.leb andb
       Z.to_nat nth_error py_item dict_lookup String.eqb Ascii.eqb Bool.eqb].
  rewrite sentiment_map_exact. reflexivity.
Qed.

(** C1 (as stated, refuted): the scorer does not match substrings.  A raw
    label "POSITIVE" contains "pos" in upper case, yet the scorer labels
    the headline Neutral, so the scorer does not follow the substring
    rule with the canonical labels. *)
Lemma scorer_not_substring_rule :
  contains "pos" (lower "POSITIVE") = true /\
  scored_label "POSITIVE" = Some (PStr "Neutral") /\
  ~ substring_rule (PStr "Positive") (PStr "Negative") (PStr "Neutral") scored_label.
Proof.
  split; [reflexivity |]. split; [reflexivity |].
  intros Hrule. destruct (Hrule "POSITIVE") as [Hpos _].
  specialize (Hpos eq_refl). discriminate Hpos.
Qed.

(** C1 (amended): the dataset builder's [normalize_label] is the
    case-insensitive substring match, "pos" before "neg" before the
    neutral default, and it answers with the lower-case words; the scorer
    maps the three lower-case words "positive", "negative", "neutral"
    exactly, and every other raw label to Neutral. *)
Theorem label_normalization_rules :
  substring_rule (PStr "positive") (PStr "negative") (PStr "neutral")
    (fun raw => Some (PStr (normalize_label raw))) /\
  (forall raw : string, scored_label raw = Some (PStr (exact_label raw))).
Proof.
  split.
  - intros raw. rewrite normalize_label_substring.
    repeat split; intros; repeat match goal with H : _ = _ |- _ => rewrite H end;
      reflexivity.
  - intros raw. unfold scored_label.
    rewrite analyze_sentiment_returning by reflexivity. reflexivity.
Qed.

Lemma label_normalization_rules_witness :
  normalize_label " Mostly NEGative " = "negative" /\
  scored_label "negative" = Some (PStr "Negative") /\
  scored_label "Negative" = Some (PStr "Neutral").
Proof.
  destruct label_normalization_rules as [Hsub Hexact].
  destruct (Hsub " Mostly NEGative ") as (_ & Hneg & _).
  specialize (Hneg eq_refl eq_refl).
  split; [congruence |].
  split; [exact (Hexact "negative") | exact (Hexact "Negative")].
Defined.

(** ** The scorer *)

Lemma table_get_canonical (raw v : pyval) :
  py_table_get sentiment_map raw (PStr "Neutral") = Ok v -> is_canonical v = true.
Proof.
  destruct raw as [| b | z | f | s | l | d]; intros Hv;
    try (injection Hv as <-; reflexivity); try discriminate Hv.
  rewrite sentiment_map_exact in Hv. injection Hv as <-.
  unfold exact_label.
  destruct (String.eqb s "positive"); [reflexivity |].
  destruct (String.eqb s "negative"); reflexivity.
Qed.

(** When scoring goes through, the label is one of the three canonical
    words. *)
Lemma classify_label_canonical (text : pyval) (c : classifier) (r : pyval) :
  classify text c = Ok r ->
  exists l, label_of r = Some l /\ is_canonical l = true.
Proof.
  unfold classify. intros H.
  inv_bind H. inv_bind H. inv_bind H. inv_bind H.
  destruct x0 as [| | | | | | d]; try discriminate H.
  simpl in H. injection H as <-.
  exists x2. split.
  - simpl. apply dict_lookup_set_same.
  - eapply table_get_canonical; eassumption.
Qed.

(** Whatever the inputs, the label is canonical or the lower-case
    "neutral" of the default. *)
Lemma analyze_sentiment_label_range (text : pyval) (clf : option classifier) (r : pyval) :
  analyze_sentiment text clf = Ok r ->
  exists l, label_of r = Some l /\ (is_canonical l = true \/ l = PStr "neutral").
Proof.
  assert (Hdef : forall r', Ok neutral_default = Ok r' ->
            exists l, label_of r' = Some l /\ (is_canonical l = true \/ l = PStr "neutral")).
  { intros r' [= <-]. exists (PStr "neutral"). split; [reflexivity | now right]. }
  unfold analyze_sentiment. destruct clf as [c |]; [| apply Hdef].
  destruct (py_truthy text); cbn [negb]; [| apply Hdef].
  destruct (classify text c) as [r0 |] eqn:Hc; cbn [try_except]; [| apply Hdef].
  intros [= <-]. destruct (classify_label_canonical _ _ Hc) as (l & Hl & Hcan).
  exists l. split; [exact Hl | now left].
Qed.

(** C3 (the code at the failing inputs): with a null handle, with the
    empty text and with a null text the scorer returns the literal
    [{'label': 'neutral', 'score': 0.0}], whose label is the lower-case
    word and not the canonical [Neutral]. *)
Theorem analyze_sentiment_skipped :
  forall (text : pyval) (clf : option classifier),
    analyze_sentiment text None = Ok neutral_default /\
    analyze_sentiment (PStr "") clf = Ok neutral_default /\
    analyze_sentiment PNone clf = Ok neutral_default /\
    label_of neutral_default = Some (PStr "neutral") /\
    score_of neutral_default = Some (PFloat 0) /\
    label_of neutral_default <> Some (PStr "Neutral").
Proof.
  intros text clf. repeat split.
  - destruct clf; reflexivity.
  - destruct clf; reflexivity.
  - discriminate.
Qed.

(** C4 (the code at the failing inputs): the label is not always
    canonical.  A headline with an empty title, and any headline when the
    classifier raises, gets the label "neutral", which is none of
    Positive, Negative, Neutral; the news adapter attaches it as it is. *)
Theorem label_not_always_canonical :
  forall (c : classifier) (text : pyval) (e : exn) (ticker : string)
         (quotes : string -> result stock),
    analyze_sentiment text (Some (fun _ => Raise e)) = Ok neutral_default /\
    analyze_item c (PDict [("title", PStr "")]) =
      Ok (PDict [("title", PStr "");
                 ("link", PStr "#");
                 ("published", PStr "N/A");
                 ("sentiment_label", PStr "neutral");
                 ("sentiment_score", PFloat 0)]) /\
    get_stock_news
      (Provider quotes (fun _ => Ok (PList [PDict [("title", PStr "")]])) (Ok c))
      ticker =
      Ok [PDict [("title", PStr "");
                 ("link", PStr "#");
                 ("published", PStr "N/A");
                 ("sentiment_label", PStr "neutral");
                 ("sentiment_score", PFloat 0)]] /\
    is_canonical (PStr "neutral") = false /\
    ~ In (PStr "neutral") canonical_labels.
Proof.
  intros c text e ticker quotes. repeat split.
  - unfold analyze_sentiment. destruct (py_truthy text); reflexivity.
  - simpl. intros [H | [H | [H | []]]]; discriminate H.
Qed.



(** ** Binary64 arithmetic *)

Lemma float_finite_nonzero (c : float) :
  is_finite c = true -> PrimFloat.eqb c 0 = false ->
  exists s m e, Prim2SF c = S754_finite s m e.
Proof.
  intros Hfin Hnz.
  destruct (Prim2SF c) as [s | s | | s m e] eqn:E.
  - exfalso. rewrite <- (SF2Prim_Prim2SF c), E in Hnz. destruct s; discriminate Hnz.
  - exfalso. rewrite <- (SF2Prim_Prim2SF c), E in Hfin. destruct s; discriminate Hfin.
  - exfalso. rewrite <- (SF2Prim_Prim2SF c), E in Hfin. discriminate Hfin.
  - now exists s, m, e.
Qed.

Lemma float_sub_diag (c : float) :
  is_finite c = true -> PrimFloat.sub c c = 0%float.
Proof.
  intros Hfin. apply Prim2SF_inj. rewrite sub_spec.
  destruct (Prim2SF c) as [s | s | | s m e] eqn:E.
  - destruct s; reflexivity.
  - exfalso. rewrite <- (SF2Prim_Prim2SF c), E in Hfin. destruct s; discriminate Hfin.
  - exfalso. rewrite <- (SF2Prim_Prim2SF c), E in Hfin. discriminate Hfin.
  - unfold SF64sub, SFsub. cbv zeta. rewrite Z.sub_diag. reflexivity.
Qed.

Lemma float_zero_div (c : float) :
  is_finite c = true -> PrimFloat.eqb c 0 = false ->
  PrimFloat.eqb (PrimFloat.mul (PrimFloat.div 0 c) 100) 0 = true.
Proof.
  intros Hfin Hnz.
  destruct (@float_finite_nonzero c Hfin Hnz) as (s & m & e & E).
  assert (Hq : PrimFloat.div 0 c = SF2Prim (S754_zero s)).
  { rewrite <- (SF2Prim_Prim2SF (PrimFloat.div 0 c)). f_equal.
    rewrite div_spec, E. destruct s; reflexivity. }
  rewrite Hq. destruct s; reflexivity.
Qed.

(** ** Positions counted from the end *)

Lemma seq_index_last {A : Type} (init : list A) (x : A) :
  seq_index (init ++ [x]) (-1) = Some x.
Proof.
  unfold seq_index. rewrite length_app. cbn [List.length].
  replace (-1 <? 0) with true by reflexivity.
  replace (0 <=? -1 + Z.of_nat (List.length init + 1)) with true
    by (symmetry; apply Z.leb_le; lia).
  replace (-1 + Z.of_nat (List.length init + 1) <? Z.of_nat (List.length init + 1))
    with true by (symmetry; apply Z.ltb_lt; lia).
  cbn [andb].
  replace (Z.to_nat (-1 + Z.of_nat (List.length init + 1))) with (List.length init) by lia.
  rewrite nth_error_app2 by lia. now rewrite Nat.sub_diag.
Qed.

Lemma seq_index_before_last {A : Type} (init : list A) (x y : A) :
  seq_index (init ++ [x; y]) (-2) = Some x.
Proof.
  unfold seq_index. rewrite length_app. cbn [List.length].
  replace (-2 <? 0) with true by reflexivity.
  replace (0 <=? -2 + Z.of_nat (List.length init + 2)) with true
    by (symmetry; apply Z.leb_le; lia).
  replace (-2 + Z.of_nat (List.length init + 2) <? Z.of_nat (List.length init + 2))
    with true by (symmetry; apply Z.ltb_lt; lia).
  cbn [andb].
  replace (Z.to_nat (-2 + Z.of_nat (List.length init + 2))) with (List.length init) by lia.
  rewrite nth_error_app2 by lia. now rewrite Nat.sub_diag.
Qed.

Lemma rev_two {A : Type} (l rest : list A) (x y : A) :
  rev l = y :: x :: rest -> l = rev rest ++ [x; y].
Proof.
  intros Hr. rewrite <- (rev_involutive l), Hr. cbn [rev].
  now rewrite <- app_assoc.
Qed.

Lemma rev_one {A : Type} (l : list A) (x : A) : rev l = [x] -> l = [x].
Proof. intros Hr. now rewrite <- (rev_involutive l), Hr. Qed.

(** ** The fallback to the history *)

Lemma has_column_count (h : frame) (c : string) :
  has_column h c = negb (label_count h c =? 0)%nat.
Proof.
  unfold has_column, label_count.
  induction (columns h) as [| c0 cs IH]; [reflexivity |].
  cbn [existsb filter]. destruct (String.eqb c c0); [reflexivity | exact IH].
Qed.

Lemma frame_column_cases (h : frame) (c : string) :
  (has_column h c = false /\ frame_column h c = Raise (Exn KeyError c)) \/
  (has_column h c = true /\ label_count h c = 1%nat /\
   frame_column h c = Ok (Column (map (fun r => snd r c) (rows h)))) \/
  (has_column h c = true /\ (2 <= label_count h c)%nat /\
   frame_column h c = Ok (Columns (map fst (rows h)))).
Proof.
  rewrite has_column_count. unfold frame_column.
  destruct (label_count h c) as [| [| n]]; cbn.
  - now left.
  - right. left. now repeat split.
  - right. right. repeat split. lia.
Qed.

Lemma frame_column_length (h : frame) (c : string) (column : list float) :
  frame_column h c = Ok (Column column) ->
  Z.of_nat (List.length column) = frame_len h.
Proof.
  unfold frame_len.
  destruct (frame_column_cases h c) as [[_ H] | [(_ & _ & H) | (_ & _ & H)]];
    rewrite H; intros [= <-]. now rewrite length_map.
Qed.

Lemma close_unless_set_fill (h : frame) (column : list float) (i : Z) (x : float)
  (v : pyval) :
  frame_column h "Close" = Ok (Column column) -> seq_index column i = Some x ->
  close_unless_set h i v = Ok (fill v (Some x)).
Proof.
  intros Hc Hi. unfold close_unless_set, fill, float_iloc, iloc.
  destruct (is_none v); [| reflexivity].
  rewrite Hc. cbn [bind]. now rewrite Hi.
Qed.

(** A live price is kept without a look at the history. *)
Lemma close_unless_set_live (h : frame) (i : Z) (v : pyval) :
  is_none v = false -> close_unless_set h i v = Ok v.
Proof. unfold close_unless_set. now intros ->. Qed.

(** No close can be read from a history without the label or with the
    label repeated. *)
Lemma close_unless_set_fails (h : frame) (i : Z) (v : pyval) :
  (forall column, frame_column h "Close" <> Ok (Column column)) ->
  is_none v = true ->
  exists e, close_unless_set h i v = Raise e.
Proof.
  intros Hno Hv. unfold close_unless_set. rewrite Hv.
  destruct (frame_column h "Close") as [[column | index] | e] eqn:Hc; cbn [bind].
  - now contradiction (Hno column).
  - unfold float_iloc. destruct (seq_index index i); cbn [bind]; eauto.
  - eauto.
Qed.

Lemma fill_none (v : pyval) : fill v None = v.
Proof. destruct v; reflexivity. Qed.

(** The index arithmetic of the code picks what [last_closes] offers. *)
Lemma history_fallback_resolve (hist : option frame) (closes : list float)
  (prev current : pyval) :
  history_closes hist = Ok closes ->
  history_fallback hist prev current = Ok (resolve (last_closes closes) prev current).
Proof.
  intros Hc. unfold resolve, last_closes.
  destruct hist as [h |]; cbn [history_closes] in Hc.
  - destruct (rows h) as [| r rs] eqn:Hrows.
    { injection Hc as <-. unfold history_fallback, frame_len. rewrite Hrows.
      cbn. now rewrite !fill_none. }
    destruct (frame_column h "Close") as [[column | index] | e] eqn:Hcol;
      cbn [bind] in Hc; try discriminate Hc.
    injection Hc as ->. clear r rs Hrows. rename Hcol into Hc.
    pose proof (@frame_column_length _ _ _ Hc) as Hlen.
    unfold history_fallback.
    destruct (rev closes) as [| last [| before rest]] eqn:Hr.
    + apply (f_equal (@List.length float)) in Hr. rewrite length_rev in Hr.
      cbn [List.length] in Hr.
      replace (2 <=? frame_len h) with false by (symmetry; apply Z.leb_gt; lia).
      replace (frame_len h =? 1) with false by (symmetry; apply Z.eqb_neq; lia).
      cbn [option_map]. now rewrite !fill_none.
    + apply rev_one in Hr. subst closes. cbn [List.length] in Hlen.
      replace (2 <=? frame_len h) with false by (symmetry; apply Z.leb_gt; lia).
      replace (frame_len h =? 1) with true by (symmetry; apply Z.eqb_eq; lia).
      rewrite !(@close_unless_set_fill h _ 0 last _ Hc) by reflexivity.
      reflexivity.
    + apply rev_two in Hr. subst closes.
      rewrite length_app in Hlen. cbn [List.length] in Hlen.
      replace (2 <=? frame_len h) with true by (symmetry; apply Z.leb_le; lia).
      rewrite (@close_unless_set_fill h _ (-2) before _ Hc)
        by apply seq_index_before_last.
      rewrite (@close_unless_set_fill h _ (-1) last _ Hc)
        by (change [before; last] with ([before] ++ [last]); rewrite app_assoc;
            apply seq_index_last).
      reflexivity.
  - injection Hc as <-. cbn. now rewrite !fill_none.
Qed.

Lemma fill_live (v : pyval) (offer : option float) : is_none v = false -> fill v offer = v.
Proof. unfold fill. now intros ->. Qed.

(** When the closes cannot be read and a price is null, the fallback
    raises. *)
Lemma history_fallback_fails (hist : option frame) (e : exn) (prev current : pyval) :
  history_closes hist = Raise e ->
  is_none current || is_none prev = true ->
  exists e', history_fallback hist prev current = Raise e'.
Proof.
  intros Hc Hnull.
  destruct hist as [h |]; cbn [history_closes] in Hc; [| discriminate Hc].
  destruct (rows h) as [| r rs] eqn:Hrows; [discriminate Hc |].
  assert (Hno : forall column, frame_column h "Close" <> Ok (Column column)).
  { intros column Hcol. rewrite Hcol in Hc. discriminate Hc. }
  assert (Hstep : forall i j,
            exists e',
              (prev' <- close_unless_set h i prev ;;
               current' <- close_unless_set h j current ;;
               Ok (prev', current')) = Raise e').
  { intros i j. destruct (is_none prev) eqn:Hp.
    - destruct (@close_unless_set_fails h i prev Hno Hp) as [e' ->]. cbn [bind]. eauto.
    - rewrite (@close_unless_set_live h i prev Hp). cbn [bind].
      rewrite orb_false_r in Hnull.
      destruct (@close_unless_set_fails h j current Hno Hnull) as [e' ->]. cbn [bind]. eauto. }
  unfold history_fallback, frame_len. rewrite Hrows.
  destruct (2 <=? Z.of_nat (List.length (r :: rs))) eqn:E2; [apply Hstep |].
  replace (Z.of_nat (List.length (r :: rs)) =? 1) with true; [apply Hstep |].
  symmetry. apply Z.eqb_eq. apply Z.leb_gt in E2. cbn [List.length] in *. lia.
Qed.

(** ** Prices *)

Section Price.
Context {rt : Runtime}.

(** The resolved prices decide the snapshot. *)
Lemma price_and_change_resolved (P : provider) (ticker : string)
  (live_prev live_current : pyval) (closes : list float) :
  quote_of P ticker live_prev live_current closes ->
  price_and_change_body P ticker =
    snapshot_of (fst (resolve (last_closes closes) live_prev live_current))
                (snd (resolve (last_closes closes) live_prev live_current)).
Proof.
  intros (s & info & Hs & Hi & Hc & Hp & Hh).
  unfold price_and_change_body. rewrite Hs. cbn [bind]. rewrite Hi. cbn [bind].
  cbv zeta. rewrite Hc. cbn [bind]. rewrite Hp. cbn [bind].
  destruct (is_none live_current || is_none live_prev) eqn:E.
  - destruct (Hh eq_refl) as (hist & Hhist & Hcl).
    rewrite Hhist. cbn [bind].
    rewrite (@history_fallback_resolve _ _ _ _ Hcl). reflexivity.
  - apply orb_false_iff in E. destruct E as [Ec Ep].
    unfold resolve. rewrite !fill_live by assumption. reflexivity.
Qed.


(** The guard makes the handler of the inner [try] dead code: the
    division is attempted only by a non-zero divisor. *)
Lemma percent_change_guarded (d p : float) :
  percent_change d p =
    Ok (if PrimFloat.eqb p 0 then None else Some (PrimFloat.mul (PrimFloat.div d p) 100)).
Proof.
  unfold percent_change, py_truediv. destruct (PrimFloat.eqb p 0); reflexivity.
Qed.

Lemma snapshot_of_floats (p c : float) :
  snapshot_of (PFloat p) (PFloat c) =
    Ok (Snapshot (Some c) (Some p) (Some (PrimFloat.sub c p))
          (if PrimFloat.eqb p 0 then None
           else Some (PrimFloat.mul (PrimFloat.div (PrimFloat.sub c p) p) 100))).
Proof.
  unfold snapshot_of. cbn [is_none py_float bind].
  rewrite percent_change_guarded. reflexivity.
Qed.

Lemma snapshot_of_zero_previous (prev current : pyval) (snap : price_snapshot) (p : float) :
  snapshot_of prev current = Ok snap ->
  previous_close snap = Some p -> PrimFloat.eqb p 0 = true ->
  change_pct snap = None /\
  exists c, current_price snap = Some c /\ change snap = Some (PrimFloat.sub c p).
Proof.
  unfold snapshot_of. intros Hs Hp Hz.
  destruct (is_none current).
  { injection Hs as <-. discriminate Hp. }
  destruct (py_float current) as [c |]; [| discriminate Hs]. cbn [bind] in Hs.
  destruct (is_none prev); cbn [bind] in Hs.
  { injection Hs as <-. discriminate Hp. }
  destruct (py_float prev) as [p' |]; [| discriminate Hs]. cbn [bind] in Hs.
  rewrite percent_change_guarded in Hs. cbn [bind] in Hs.
  injection Hs as <-. cbn in Hp. injection Hp as ->.
  cbn. rewrite Hz. split; [reflexivity |]. now exists c.
Qed.

Lemma get_price_and_change_ok (P : provider) (ticker : string) (snap : price_snapshot) :
  get_price_and_change P ticker = Ok snap ->
  snap = all_null \/ exists prev current, snapshot_of prev current = Ok snap.
Proof.
  unfold get_price_and_change. intros H.
  destruct (price_and_change_body P ticker) as [s |] eqn:Hb; cbn in H.
  - injection H as ->. right.
    unfold price_and_change_body in Hb.
    inv_bind Hb. inv_bind Hb. cbv zeta in Hb. inv_bind Hb. inv_bind Hb. inv_bind Hb.
    eauto.
  - injection H as <-. now left.
Qed.

End Price.

(** The call is its snapshot tail on the resolved prices, with four nulls
    for any exception. *)
Lemma get_price_and_change_resolved (rt : Runtime) (P : provider) (ticker : string)
  (live_prev live_current : pyval) (closes : list float) :
  quote_of P ticker live_prev live_current closes ->
  get_price_and_change P ticker =
    try_except
      (snapshot_of (fst (resolve (last_closes closes) live_prev live_current))
                   (snd (resolve (last_closes closes) live_prev live_current)))
      (fun _ => Ok all_null).
Proof.
  intros Hq. unfold get_price_and_change.
  now rewrite (price_and_change_resolved Hq).
Qed.

(** The live fields of a dictionary are always read; of anything else,
    never. *)
Lemma live_field_dict (d : list (string * pyval)) (k1 k2 : string) :
  exists v, live_field (PDict d) k1 k2 = Ok v.
Proof.
  unfold live_field. rewrite py_get_dict. cbn [bind].
  destruct (py_truthy (dict_get d k1 PNone)); [eauto |].
  rewrite py_get_dict. eauto.
Qed.

Lemma live_field_no_dict (o : pyval) (k1 k2 : string) :
  (forall d, o <> PDict d) -> exists e, live_field o k1 k2 = Raise e.
Proof.
  intros Hno. destruct o as [| | | | | | d]; try (eexists; reflexivity).
  now contradiction (Hno d).
Qed.

(** Every call either fails to make its quote or makes it. *)
Lemma quote_cases (rt : Runtime) (P : provider) (ticker : string) :
  quote_fails P ticker \/
  exists (live_prev live_current : pyval) (closes : list float),
    quote_of P ticker live_prev live_current closes.
Proof.
  unfold quote_fails, quote_of.
  destruct (yf_Ticker P ticker) as [s | e] eqn:Ht; [| left; left; eauto].
  destruct (stock_info s) as [info | e] eqn:Hi.
  2: { left. right. exists s. split; [reflexivity |]. left. eauto. }
  destruct (py_or info (PDict [])) as [| | | | | | d] eqn:Ho;
    try (left; right; exists s; split; [reflexivity |]; right; exists info;
         split; [exact Hi |]; left; rewrite Ho; discriminate).
  destruct (live_field_dict d "regularMarketPrice" "currentPrice") as [live_current Hc].
  destruct (live_field_dict d "regularMarketPreviousClose" "previousClose")
    as [live_prev Hp].
  destruct (is_none live_current || is_none live_prev) eqn:Hnull.
  - destruct (stock_history s "3d") as [hist | e] eqn:Hh.
    + destruct (history_closes hist) as [closes | e] eqn:Hcl.
      * right. exists live_prev, live_current, closes, s, info.
        rewrite Ho. repeat split; try assumption. intros _. eauto.
      * left. right. exists s. split; [reflexivity |]. right. exists info.
        split; [exact Hi |]. right. exists live_prev, live_current.
        rewrite Ho. repeat split; try assumption. right. eauto.
    + left. right. exists s. split; [reflexivity |]. right. exists info.
      split; [exact Hi |]. right. exists live_prev, live_current.
      rewrite Ho. repeat split; try assumption. left. eauto.
  - right. exists live_prev, live_current, [], s, info.
    rewrite Ho. repeat split; try assumption. intros Hn.
    rewrite Hnull in Hn. discriminate Hn.
Qed.

Lemma quote_of_history_only (closes : list float) (ticker : string) :
  @quote_of example_runtime (history_only closes) ticker PNone PNone closes.
Proof.
  unfold quote_of, history_only. cbn [yf_Ticker].
  eexists. eexists. split; [reflexivity |].
  cbn [stock_info stock_history]. split; [reflexivity |].
  split; [reflexivity |]. split; [reflexivity |].
  intros _. eexists. split; [reflexivity |].
  unfold history_closes, closes_frame. cbn [rows].
  destruct closes as [| c cs]; [reflexivity |].
  cbn [map]. unfold frame_column, label_count. cbn.
  rewrite map_map. cbn. now rewrite map_id.
Qed.

(** C2 (as stated, refuted): with no live field and a history of one row
    closing at 10.0 the stated chain has no second-to-last close, so the
    previous price stays unresolved and all four fields should be null;
    the code answers current 10.0, previous 10.0, change 0.0. *)
Lemma chain_as_stated_fails_on_single_row :
  @get_price_and_change example_runtime (history_only [10%float]) "ACME" =
    Ok (Snapshot (Some 10%float) (Some 10%float) (Some 0%float) (Some 0%float)) /\
  ~ @chain_as_stated example_runtime (history_only [10%float]) "ACME".
Proof.
  split; [vm_compute; reflexivity |].
  intros Hchain.
  specialize (Hchain PNone PNone [10%float] (quote_of_history_only _ _)).
  vm_compute in Hchain. discriminate Hchain.
Qed.

(** C2 (amended): current and previous price come from the live quote
    fields; only when one of them is null is the three-day history read,
    and only the null one is filled: from the second-to-last and the last
    close when there are two rows or more, from the single close when
    there is one row, from nothing when there is no row or no history.
    If the current price is still null all four fields are null; if only
    the previous price is null the snapshot carries the current price and
    three nulls; otherwise it carries both prices, their difference, and
    the percentage unless the previous price is zero.  Any exception
    gives four nulls, so the call never raises: the provider refusing the
    ticker, its info or the history, an info that is no dictionary, rows
    whose Close column is missing or repeated, and a price that [float]
    rejects.  Every call is one of these cases. *)
Theorem price_fallback_chain :
  forall (rt : Runtime) (P : provider) (ticker : string),
    raises (get_price_and_change P ticker) = false /\
    (quote_fails P ticker -> get_price_and_change P ticker = Ok all_null) /\
    (quote_fails P ticker \/
     exists (live_prev live_current : pyval) (closes : list float),
       quote_of P ticker live_prev live_current closes) /\
    (forall (live_prev live_current : pyval) (closes : list float),
       quote_of P ticker live_prev live_current closes ->
       let r := resolve (last_closes closes) live_prev live_current in
       get_price_and_change P ticker =
         try_except (snapshot_of (fst r) (snd r)) (fun _ => Ok all_null) /\
       (snd r = PNone -> get_price_and_change P ticker = Ok all_null) /\
       (forall e : exn,
          snapshot_of (fst r) (snd r) = Raise e ->
          get_price_and_change P ticker = Ok all_null) /\
       (forall c : float,
          snd r = PFloat c -> fst r = PNone ->
          get_price_and_change P ticker = Ok (Snapshot (Some c) None None None)) /\
       (forall p c : float,
          snd r = PFloat c -> fst r = PFloat p ->
          get_price_and_change P ticker =
            Ok (Snapshot (Some c) (Some p) (Some (PrimFloat.sub c p))
                  (if PrimFloat.eqb p 0 then None
                   else Some (PrimFloat.mul (PrimFloat.div (PrimFloat.sub c p) p) 100))))).
Proof.
  intros rt P ticker. split; [| split; [| split]].
  - unfold get_price_and_change. apply try_except_total.
  - intros Hfail. unfold get_price_and_change, price_and_change_body.
    destruct Hfail as [[e Ht] | (s & Ht & Hfail)]; rewrite Ht; [reflexivity |].
    cbn [bind].
    destruct Hfail as [[e Hi] | (info & Hi & Hfail)]; rewrite Hi; [reflexivity |].
    cbn [bind]. cbv zeta.
    destruct Hfail as [Hno | (live_prev & live_current & Hc & Hp & Hnull & Hfail)].
    + now destruct (@live_field_no_dict _ "regularMarketPrice" "currentPrice" Hno)
        as [e ->].
    + rewrite Hc. cbn [bind]. rewrite Hp. cbn [bind]. rewrite Hnull.
      destruct Hfail as [[e Hh] | (hist & e & Hh & Hcl)]; rewrite Hh; [reflexivity |].
      cbn [bind].
      now destruct (@history_fallback_fails _ _ _ _ Hcl Hnull) as [e' ->].
  - exact (quote_cases rt P ticker).
  - intros live_prev live_current closes Hq r.
    pose proof (get_price_and_change_resolved Hq) as Hbody. fold r in Hbody.
    split; [exact Hbody |].
    rewrite Hbody. repeat split.
    + intros ->. reflexivity.
    + intros e ->. reflexivity.
    + intros c -> ->. reflexivity.
    + intros p c -> ->. now rewrite snapshot_of_floats.
Qed.

(** The offers of [last_closes], without [rev]. *)
Lemma last_closes_cases (init : list float) (before last only : float) :
  last_closes (init ++ [before; last]) = Some (before, last) /\
  last_closes [only] = Some (only, only) /\
  last_closes [] = None.
Proof.
  repeat split. unfold last_closes. rewrite rev_app_distr. reflexivity.
Qed.

(** Three closes and no live field; a live current price and no row; a
    provider that refuses the ticker. *)
Lemma price_fallback_chain_witness :
  @get_price_and_change example_runtime (history_only [8; 10; 12]%float) "ACME" =
    Ok (Snapshot (Some 12%float) (Some 10%float) (Some 2%float) (Some 20%float)) /\
  @get_price_and_change example_runtime (live_current_only 12%float) "ACME" =
    Ok (Snapshot (Some 12%float) None None None) /\
  @get_price_and_change example_runtime unreachable "ACME" = Ok all_null.
Proof.
  split; [| split].
  - destruct (@price_fallback_chain example_runtime (history_only [8; 10; 12]%float)
                "ACME") as (_ & _ & _ & Hchain).
    destruct (Hchain _ _ _ (quote_of_history_only [8; 10; 12]%float "ACME"))
      as (_ & _ & _ & _ & Hboth).
    exact (Hboth 10%float 12%float eq_refl eq_refl).
  - assert (Hq : @quote_of example_runtime (live_current_only 12%float) "ACME"
                   PNone (PFloat 12%float) []).
    { eexists. eexists. split; [reflexivity |]. split; [reflexivity |].
      split; [reflexivity |]. split; [reflexivity |].
      intros _. eexists. split; reflexivity. }
    destruct (@price_fallback_chain example_runtime (live_current_only 12%float)
                "ACME") as (_ & _ & _ & Hchain).
    destruct (Hchain _ _ _ Hq) as (_ & _ & _ & Hcur & _).
    exact (Hcur 12%float eq_refl eq_refl).
  - destruct (@price_fallback_chain example_runtime unreachable "ACME")
      as (_ & Hfail & _).
    apply Hfail. left. eexists. reflexivity.
Defined.

(** C8: whenever the previous close of the returned snapshot is zero,
    its percentage is null: the division is not attempted.  The current
    price and the change are there all the same. *)
Theorem change_pct_null_on_zero_previous :
  forall (rt : Runtime) (P : provider) (ticker : string)
         (snap : price_snapshot) (p : float),
    get_price_and_change P ticker = Ok snap ->
    previous_close snap = Some p ->
    PrimFloat.eqb p 0 = true ->
    change_pct snap = None /\
    exists c : float,
      current_price snap = Some c /\ change snap = Some (PrimFloat.sub c p).
Proof.
  intros rt P ticker snap p Hs Hp Hz.
  destruct (get_price_and_change_ok _ _ Hs) as [-> | (prev & current & Hsnap)].
  - discriminate Hp.
  - exact (snapshot_of_zero_previous _ _ Hsnap Hp Hz).
Qed.

(** A history closing at 0.0 and then at 5.0. *)
Lemma change_pct_null_on_zero_previous_witness :
  @get_price_and_change example_runtime (history_only [0; 5]%float) "ACME" =
    Ok (Snapshot (Some 5%float) (Some 0%float) (Some 5%float) None) /\
  change_pct (Snapshot (Some 5%float) (Some 0%float) (Some 5%float) None) = None /\
  exists c : float,
    current_price (Snapshot (Some 5%float) (Some 0%float) (Some 5%float) None) = Some c /\
    change (Snapshot (Some 5%float) (Some 0%float) (Some 5%float) None)
      = Some (PrimFloat.sub c 0).
Proof.
  assert (Hrun : @get_price_and_change example_runtime (history_only [0; 5]%float) "ACME" =
                 Ok (Snapshot (Some 5%float) (Some 0%float) (Some 5%float) None))
    by (vm_compute; reflexivity).
  split; [exact Hrun |].
  exact (@change_pct_null_on_zero_previous example_runtime _ _ _ 0%float
           Hrun eq_refl eq_refl).
Defined.

(** C10 (as stated, refuted): a close that is not a number is not zero
    either ([nan != 0] holds), and then the change and the percentage
    are NaN, not 0.0. *)
Lemma single_row_nan_close :
  PrimFloat.eqb nan 0 = false /\
  @get_price_and_change example_runtime (history_only [nan]) "ACME" =
    Ok (Snapshot (Some nan) (Some nan) (Some nan) (Some nan)) /\
  ~ @single_row_as_stated example_runtime (history_only [nan]) "ACME".
Proof.
  split; [reflexivity |]. split; [vm_compute; reflexivity |].
  intros Hclaim.
  destruct (Hclaim nan (quote_of_history_only _ _) eq_refl)
    as (snap & d & pct & Hs & _ & _ & Hd & Hd0 & _).
  vm_compute in Hs. injection Hs as <-.
  cbn in Hd. injection Hd as <-. discriminate Hd0.
Qed.

(** C10 (amended): with no live field and a history of exactly one row,
    both prices are that row's close, whatever it is, and the change is
    their difference; when the close is a finite number the change is
    0.0, and the percentage is zero if the close is not zero and null if
    it is. *)
Theorem single_row_zero_change :
  forall (rt : Runtime) (P : provider) (ticker : string) (c : float),
    quote_of P ticker PNone PNone [c] ->
    get_price_and_change P ticker =
      Ok (Snapshot (Some c) (Some c) (Some (PrimFloat.sub c c))
            (if PrimFloat.eqb c 0 then None
             else Some (PrimFloat.mul (PrimFloat.div (PrimFloat.sub c c) c) 100))) /\
    (is_finite c = true ->
     (PrimFloat.eqb c 0 = false ->
      exists pct : float,
        get_price_and_change P ticker =
          Ok (Snapshot (Some c) (Some c) (Some 0%float) (Some pct)) /\
        PrimFloat.eqb pct 0 = true) /\
     (PrimFloat.eqb c 0 = true ->
      get_price_and_change P ticker =
        Ok (Snapshot (Some c) (Some c) (Some 0%float) None))).
Proof.
  intros rt P ticker c Hq.
  pose proof (get_price_and_change_resolved Hq) as Hboth.
  cbn [resolve last_closes rev app option_map fst snd fill is_none] in Hboth.
  rewrite snapshot_of_floats in Hboth. cbn [try_except] in Hboth.
  split; [exact Hboth |].
  intros Hfin. rewrite (float_sub_diag _ Hfin) in Hboth.
  split; intros Hz; rewrite Hz in Hboth.
  - eexists. split; [exact Hboth |]. now apply float_zero_div.
  - exact Hboth.
Qed.

(** One row closing at 10.0. *)
Lemma single_row_zero_change_witness :
  exists pct : float,
    @get_price_and_change example_runtime (history_only [10%float]) "ACME" =
      Ok (Snapshot (Some 10%float) (Some 10%float) (Some 0%float) (Some pct)) /\
    PrimFloat.eqb pct 0 = true.
Proof.
  destruct (@single_row_zero_change example_runtime _ "ACME" 10%float
              (quote_of_history_only [10%float] "ACME")) as [_ Hfinite].
  destruct (Hfinite eq_refl) as [Hnz _].
  exact (Hnz eq_refl).
Defined.
(** ** The company profile *)

Section Profile.
Context {rt : Runtime}.

(** A profile that is not [None] was read off the provider's info. *)
Lemma get_company_info_ok (P : provider) (ticker : string)
  (profile : list (string * pyval)) :
  get_company_info P ticker = Ok (PDict profile) ->
  exists (s : stock) (info : list (string * pyval)) (cap_text : string),
    yf_Ticker P ticker = Ok s /\
    stock_info s = Ok (PDict info) /\
    py_format_grouped
      (match dict_lookup info "marketCap" with Some x => x | None => PInt 0 end)
      = Ok cap_text /\
    profile =
      [("Company Name",
        match dict_lookup info "longName" with Some x => x | None => PStr "N/A" end);
       ("Sector",
        match dict_lookup info "sector" with Some x => x | None => PStr "N/A" end);
       ("Market Cap", PStr (String.append "$" cap_text));
       ("Business Summary",
        match dict_lookup info "longBusinessSummary" with
        | Some x => x
        | None => PStr "N/A"
        end)].
Proof.
  unfold get_company_info. intros H.
  destruct (yf_Ticker P ticker) as [s |] eqn:Hs; cbn [bind try_except] in H;
    [| discriminate H].
  destruct (stock_info s) as [info |] eqn:Hi; cbn [bind try_except] in H;
    [| discriminate H].
  destruct info as [| | | | | | d]; try discriminate H.
  cbn [py_get bind] in H.
  exists s, d.
  destruct (dict_lookup d "longName") as [name |];
    destruct (dict_lookup d "sector") as [sector |];
    destruct (dict_lookup d "marketCap") as [cap |];
    cbn [bind] in H;
    match type of H with
    | context [py_format_grouped ?v] =>
        destruct (py_format_grouped v) as [cap_text |] eqn:Hf;
        cbn [bind try_except] in H; [| discriminate H]
    end;
    destruct (dict_lookup d "longBusinessSummary") as [summary |];
    cbn [bind try_except] in H; injection H as <-;
    exists cap_text; repeat split; assumption.
Qed.

End Profile.

(** C9 (as stated, refuted): a provider with no data at all gives a
    profile whose market cap reads "$0", not "N/A". *)
Lemma market_cap_default_is_not_na :
  @get_company_info example_runtime (history_only []) "ACME" =
    Ok (PDict [("Company Name", PStr "N/A");
               ("Sector", PStr "N/A");
               ("Market Cap", PStr "$0");
               ("Business Summary", PStr "N/A")]) /\
  ~ @not_available_as_stated example_runtime (history_only []) "ACME".
Proof.
  split; [reflexivity |].
  intros Hclaim.
  specialize (Hclaim _ [] _ eq_refl eq_refl eq_refl "marketCap" "Market Cap").
  cbn in Hclaim.
  assert (Hna : Some (PStr "$0") = Some (PStr "N/A")) by (apply Hclaim; auto).
  discriminate Hna.
Qed.

(** C9 (amended): whenever the profile fetch succeeds, the profile has
    all four keys, and a field absent from the provider's info takes its
    default: "N/A" for the name, the sector and the business summary,
    and "$0", the rendering of the default 0, for the market cap. *)
Theorem profile_defaults :
  forall (rt : Runtime) (P : provider) (ticker : string)
         (profile : list (string * pyval)),
    get_company_info P ticker = Ok (PDict profile) ->
    exists (s : stock) (info : list (string * pyval)),
      yf_Ticker P ticker = Ok s /\
      stock_info s = Ok (PDict info) /\
      (dict_lookup info "longName" = None ->
       dict_lookup profile "Company Name" = Some (PStr "N/A")) /\
      (dict_lookup info "sector" = None ->
       dict_lookup profile "Sector" = Some (PStr "N/A")) /\
      (dict_lookup info "marketCap" = None ->
       dict_lookup profile "Market Cap" = Some (PStr "$0")) /\
      (dict_lookup info "longBusinessSummary" = None ->
       dict_lookup profile "Business Summary" = Some (PStr "N/A")) /\
      (forall field key : string,
         In (field, key) profile_fields ->
         exists v, dict_lookup profile key = Some v).
Proof.
  intros rt P ticker profile H.
  apply get_company_info_ok in H.
  destruct H as (s & info & cap_text & Hs & Hi & Hf & ->).
  exists s, info. split; [exact Hs |]. split; [exact Hi |].
  split; [| split; [| split; [| split]]].
  - intros ->. reflexivity.
  - intros ->. reflexivity.
  - intros Hcap. rewrite Hcap in Hf. injection Hf as <-. reflexivity.
  - intros ->. reflexivity.
  - intros field key Hin. cbn in Hin.
    destruct Hin as [Hin | [Hin | [Hin | [Hin | []]]]];
      injection Hin as _ <-; eexists; reflexivity.
Qed.

(** An info with a sector only. *)
Lemma profile_defaults_witness :
  dict_lookup [("Company Name", PStr "N/A");
               ("Sector", PStr "Technology");
               ("Market Cap", PStr "$0");
               ("Business Summary", PStr "N/A")] "Market Cap" = Some (PStr "$0").
Proof.
  pose (P := Provider
               (fun _ => Ok (Stock (Ok (PDict [("sector", PStr "Technology")]))
                                   (fun _ => Ok None)))
               (fun _ => Ok (PList []))
               (Raise (Exn ExternalError "model not available"))).
  destruct (@profile_defaults example_runtime P "ACME" _ eq_refl)
    as (s & info & Hs & Hi & _ & _ & Hcap & _).
  injection Hs as <-. injection Hi as <-.
  exact (Hcap eq_refl).
Defined.
(** ** The aggregation service *)

Section Service.
Context {rt : Runtime}.

Lemma get_company_info_total (P : provider) (ticker : string) :
  exists profile, get_company_info P ticker = Ok profile.
Proof.
  unfold get_company_info.
  match goal with |- context [try_except ?b _] => destruct b as [v | e] end;
    cbn; eauto.
Qed.

Lemma get_stock_data_total (P : provider) (ticker period : string) :
  get_stock_data P ticker period = Ok None \/
  exists h, get_stock_data P ticker period = Ok (Some h) /\ frame_empty h = false.
Proof.
  unfold get_stock_data.
  destruct (yf_Ticker P ticker) as [s |]; cbn; [| now left].
  destruct (stock_history s period) as [[h |] |]; cbn; try now left.
  destruct (frame_empty h) eqn:E; cbn; [now left |].
  right. now exists h.
Qed.

Lemma get_price_and_change_total (P : provider) (ticker : string) :
  exists snap, get_price_and_change P ticker = Ok snap.
Proof.
  unfold get_price_and_change.
  destruct (price_and_change_body P ticker); cbn; eauto.
Qed.

(** The body of the service: the adapters always answer, and only the
    serialization of a fetched history can raise. *)
Lemma company_data_body_cases (P : provider) (ticker : string) :
  exists (profile : pyval) (snap : price_snapshot),
    get_company_info P ticker = Ok profile /\
    get_price_and_change P ticker = Ok snap /\
    ((get_stock_data P ticker "5y" = Ok None /\
      company_data_body P ticker = Ok (CompanyData profile None None (Some snap))) \/
     (exists h,
        get_stock_data P ticker "5y" = Ok (Some h) /\
        company_data_body P ticker =
          (points <- serialize_history h ;;
           Ok (CompanyData profile (Some (frame_head 5 h)) (Some points) (Some snap))))).
Proof.
  destruct (get_company_info_total P ticker) as [profile Hp].
  destruct (get_price_and_change_total P ticker) as [snap Hs].
  exists profile, snap. split; [exact Hp |]. split; [exact Hs |].
  unfold company_data_body. rewrite Hp. cbn [bind].
  destruct (get_stock_data_total P ticker "5y") as [Hd | (h & Hd & He)];
    rewrite Hd; cbn [bind].
  - left. split; [reflexivity |]. rewrite Hs. reflexivity.
  - right. exists h. split; [reflexivity |]. rewrite He. cbn [negb].
    destruct (serialize_history h); cbn [bind]; [| reflexivity].
    rewrite Hs. reflexivity.
Qed.

(** A zero of either sign is a zero of the specification. *)
Lemma float_zero_spec (x : float) :
  PrimFloat.eqb x 0 = true -> exists s, Prim2SF x = S754_zero s.
Proof.
  intros E. rewrite FloatAxioms.eqb_spec in E.
  destruct (Prim2SF x) as [s | s | | s m e].
  - eauto.
  - destruct s; discriminate E.
  - discriminate E.
  - destruct s; discriminate E.
Qed.

(** What [float(row.get(c, None) or 0.0)] gives on a row of [h]. *)
Lemma float_field_cases (h : frame) (row : Z * (string -> float)) (c : string) :
  (cell <- cell_or (row_get h row c PNone) (PFloat 0) ;; py_float cell) =
    match label_count h c with
    | O => Ok 0%float
    | 1%nat => Ok (served_price (snd row c))
    | _ => Raise series_truth_value
    end.
Proof.
  unfold row_get. destruct (label_count h c) as [| [| n]]; try reflexivity.
  unfold cell_or, py_or, served_price. cbn [py_truthy bind].
  destruct (PrimFloat.eqb (snd row c) 0); reflexivity.
Qed.

(** What [int(row.get('Volume', 0) or 0)] gives on a row of [h]. *)
Lemma volume_field_cases (h : frame) (row : Z * (string -> float)) :
  (cell <- cell_or (row_get h row "Volume" (PInt 0)) (PInt 0) ;; py_int cell) =
    match label_count h "Volume" with
    | O => Ok 0
    | 1%nat => py_int_of_float (snd row "Volume")
    | _ => Raise series_truth_value
    end.
Proof.
  unfold row_get. destruct (label_count h "Volume") as [| [| n]]; try reflexivity.
  unfold cell_or, py_or. cbn [py_truthy bind].
  destruct (PrimFloat.eqb (snd row "Volume") 0) eqn:E; cbn [negb py_int];
    [| reflexivity].
  unfold py_int_of_float. now destruct (@float_zero_spec _ E) as [s ->].
Qed.

(** The five fields of [serialize_row], one after the other. *)
Lemma serialize_row_fields (h : frame) (row : Z * (string -> float)) :
  serialize_row h row =
    (o <- match label_count h "Open" with
          | O => Ok 0%float
          | 1%nat => Ok (served_price (snd row "Open"))
          | _ => Raise series_truth_value
          end ;;
     hi <- match label_count h "High" with
           | O => Ok 0%float
           | 1%nat => Ok (served_price (snd row "High"))
           | _ => Raise series_truth_value
           end ;;
     lo <- match label_count h "Low" with
           | O => Ok 0%float
           | 1%nat => Ok (served_price (snd row "Low"))
           | _ => Raise series_truth_value
           end ;;
     c <- match label_count h "Close" with
          | O => Ok 0%float
          | 1%nat => Ok (served_price (snd row "Close"))
          | _ => Raise series_truth_value
          end ;;
     v <- match label_count h "Volume" with
          | O => Ok 0
          | 1%nat => py_int_of_float (snd row "Volume")
          | _ => Raise series_truth_value
          end ;;
     Ok (HistoryPoint (isoformat (index_zone h) (fst row)) o hi lo c v)).
Proof.
  unfold serialize_row. cbv zeta.
  now rewrite !float_field_cases, volume_field_cases.
Qed.

(** What a point that was served owes to its row: no label is repeated;
    a price is 0.0 for a column that is not there and the cell, with 0.0
    for a zero, for one that is; the volume is 0 or the integer part of
    the cell. *)
Lemma serialize_row_ok (h : frame) (row : Z * (string -> float)) (point : history_point) :
  serialize_row h row = Ok point ->
  date point = isoformat (index_zone h) (fst row) /\
  label_repeated h = false /\
  (forall label field,
     In (label, field) price_columns ->
     (has_column h label = false -> field point = 0%float) /\
     (has_column h label = true -> field point = served_price (snd row label))) /\
  (has_column h "Volume" = false -> volume point = 0) /\
  (has_column h "Volume" = true ->
   py_int_of_float (snd row "Volume") = Ok (volume point)).
Proof.
  rewrite serialize_row_fields. unfold label_repeated, price_columns.
  cbn [existsb].
  destruct (label_count h "Open") as [| [| n1]] eqn:E1; cbn [bind]; try discriminate;
    destruct (label_count h "High") as [| [| n2]] eqn:E2; cbn [bind]; try discriminate;
    destruct (label_count h "Low") as [| [| n3]] eqn:E3; cbn [bind]; try discriminate;
    destruct (label_count h "Close") as [| [| n4]] eqn:E4; cbn [bind]; try discriminate;
    destruct (label_count h "Volume") as [| [| n5]] eqn:E5; cbn [bind]; try discriminate;
    try (destruct (py_int_of_float (snd row "Volume")) as [v |] eqn:Hv;
         cbn [bind]; [| discriminate]);
    intros [= <-]; cbn;
    (split; [reflexivity |]); (split; [reflexivity |]);
    (split;
     [intros label field [[= <- <-] | [[= <- <-] | [[= <- <-] | [[= <- <-] | []]]]];
      split; intros Hc; rewrite has_column_count, ?E1, ?E2, ?E3, ?E4 in Hc;
      try discriminate Hc; reflexivity
     | split; intros Hc; rewrite has_column_count, E5 in Hc;
       try discriminate Hc; reflexivity]).
Qed.

Lemma serialize_row_shape (h : frame) (row : Z * (string -> float)) (point : history_point) :
  index_zone h = None ->
  serialize_row h row = Ok point -> point_of_row h row point.
Proof.
  intros Hz H. destruct (@serialize_row_ok _ _ _ H) as (Hd & _ & Hp & Hv & _).
  rewrite Hz in Hd. unfold point_of_row. split; [exact Hd |].
  repeat split; intros Hc.
  - exact (proj1 (Hp "Open" open (or_introl eq_refl)) Hc).
  - exact (proj1 (Hp "High" high (or_intror (or_introl eq_refl))) Hc).
  - exact (proj1 (Hp "Low" low (or_intror (or_intror (or_introl eq_refl)))) Hc).
  - exact (proj1 (Hp "Close" close
                    (or_intror (or_intror (or_intror (or_introl eq_refl))))) Hc).
  - exact (Hv Hc).
Qed.

Lemma serialize_rows_shape (h : frame) (rs : list (Z * (string -> float)))
  (points : list history_point) :
  index_zone h = None ->
  serialize_rows h rs = Ok points -> Forall2 (point_of_row h) rs points.
Proof.
  intros Hz. revert points. induction rs as [| row rs IH]; intros points H.
  - injection H as <-. constructor.
  - cbn [serialize_rows] in H. inv_bind H. inv_bind H. injection H as <-.
    constructor; [now apply serialize_row_shape | now apply IH].
Qed.

(** The serialized history: the last rows, at most 180 of them. *)
Lemma serialize_history_shape (h : frame) (points : list history_point) :
  serialize_history h = Ok points ->
  Forall2 (point_of_row h) (skipn (List.length (rows h) - 180) (rows h)) points /\
  List.length points = Nat.min 180 (List.length (rows h)).
Proof.
  unfold serialize_history, tz_convert_none. cbn [frame_tail index_zone columns rows].
  destruct (index_zone h); [| discriminate]. cbn [bind rows].
  intros H. apply serialize_rows_shape in H; [| reflexivity].
  split.
  - exact H.
  - apply Forall2_length in H. rewrite <- H, length_skipn. lia.
Qed.

End Service.

(** ** What the serialization serves and when it raises *)

(** The finite numbers, on the specification side. *)
Lemma is_finite_spec (f : float) :
  is_finite f = match Prim2SF f with
                | S754_nan | S754_infinity _ => false
                | _ => true
                end.
Proof.
  destruct (Prim2SF f) as [s | s | | s m e] eqn:E.
  - rewrite <- (SF2Prim_Prim2SF f), E. now destruct s.
  - rewrite <- (SF2Prim_Prim2SF f), E. now destruct s.
  - rewrite <- (SF2Prim_Prim2SF f), E. reflexivity.
  - unfold Prim2SF in E. unfold is_finite.
    destruct (is_nan f); [discriminate E |].
    destruct (is_zero f); [discriminate E |].
    destruct (is_infinity f); [discriminate E | reflexivity].
Qed.

(** [int(f)] raises exactly on NaN and the infinities. *)
Lemma py_int_of_float_raises (f : float) :
  raises (py_int_of_float f) = negb (is_finite f).
Proof.
  rewrite is_finite_spec. unfold py_int_of_float.
  destruct (Prim2SF f); reflexivity.
Qed.

Lemma frame_not_empty (h : frame) :
  frame_empty h = false -> rows h <> [] /\ columns h <> [].
Proof.
  unfold frame_empty. destruct (rows h); [discriminate |].
  destruct (columns h); [discriminate |]. now split.
Qed.

(** The last rows of a history with rows are not empty. *)
Lemma frame_tail_not_empty (n : nat) (h : frame) :
  rows h <> [] -> exists row, In row (rows (frame_tail (S n) h)).
Proof.
  intros Hrows. cbn [frame_tail rows].
  destruct (skipn (List.length (rows h) - S n) (rows h)) as [| row rest] eqn:E.
  - apply (f_equal (@List.length _)) in E. rewrite length_skipn in E.
    cbn [List.length] in E. destruct (rows h); [now contradiction Hrows |].
    cbn [List.length] in E. lia.
  - exists row. now left.
Qed.

Lemma frame_tail_rows (n : nat) (h : frame) (row : Z * (string -> float)) :
  In row (rows (frame_tail n h)) -> In row (rows h).
Proof.
  cbn [frame_tail rows]. intros Hin.
  rewrite <- (firstn_skipn (List.length (rows h) - n) (rows h)).
  apply in_or_app. now right.
Qed.

Section Serialization.
Context {rt : Runtime}.

(** A row is served unless one of the five labels is repeated or its
    volume cannot be read. *)
Lemma serialize_row_raises (h : frame) (row : Z * (string -> float)) :
  raises (serialize_row h row) = label_repeated h || negb (volume_readable h row).
Proof.
  rewrite serialize_row_fields. unfold label_repeated, volume_readable.
  rewrite has_column_count. cbn [existsb].
  destruct (label_count h "Open") as [| [| n1]]; cbn [bind]; try reflexivity;
    destruct (label_count h "High") as [| [| n2]]; cbn [bind]; try reflexivity;
    destruct (label_count h "Low") as [| [| n3]]; cbn [bind]; try reflexivity;
    destruct (label_count h "Close") as [| [| n4]]; cbn [bind];
    try (cbn; rewrite ?orb_true_r; reflexivity);
    destruct (label_count h "Volume") as [| [| n5]]; cbn [bind];
    try (cbn; rewrite ?orb_true_r; reflexivity);
    cbn; rewrite <- py_int_of_float_raises;
    destruct (py_int_of_float (snd row "Volume")); reflexivity.
Qed.

Lemma serialize_rows_raises (h : frame) (rs : list (Z * (string -> float))) :
  raises (serialize_rows h rs) =
    existsb (fun row => label_repeated h || negb (volume_readable h row)) rs.
Proof.
  induction rs as [| row rs IH]; [reflexivity |].
  cbn [serialize_rows existsb].
  rewrite <- (serialize_row_raises h row), <- IH.
  destruct (serialize_row h row) as [point |]; cbn [bind raises orb];
    [| reflexivity].
  destruct (serialize_rows h rs); reflexivity.
Qed.

End Serialization.

(** The serialization of a history raises exactly when the index is
    naive, or there are rows and one of the five labels is repeated, or a
    volume among the last 180 rows is NaN or infinite. *)
Lemma serialize_history_raises_iff :
  forall (rt : Runtime) (h : frame),
    raises (serialize_history h) = true <->
    index_zone h = None \/
    (label_repeated h = true /\ rows h <> []) \/
    exists row, In row (rows (frame_tail 180 h)) /\
                has_column h "Volume" = true /\
                is_finite (snd row "Volume") = false.
Proof.
  intros rt h. unfold serialize_history, tz_convert_none.
  cbn [frame_tail index_zone columns rows].
  destruct (index_zone h) as [z |] eqn:Hz; cbn [bind rows].
  - rewrite serialize_rows_raises, existsb_exists.
    change (label_repeated
              (Frame None (columns h) (skipn (List.length (rows h) - 180) (rows h))))
      with (label_repeated h).
    split.
    + intros (row & Hin & Hrow). right.
      destruct (label_repeated h) eqn:Hrep.
      * left. split; [reflexivity |]. intros Hnil.
        apply (@frame_tail_rows 180 h) in Hin. rewrite Hnil in Hin. exact Hin.
      * right. exists row. split; [exact Hin |].
        cbn [orb] in Hrow. apply negb_true_iff in Hrow.
        unfold volume_readable, has_column in Hrow. cbn [columns] in Hrow.
        apply orb_false_iff in Hrow. destruct Hrow as [Hc Hf].
        apply negb_false_iff in Hc. now split.
    + intros [Hnone | [[Hrep Hrows] | (row & Hin & Hcol & Hfin)]].
      * discriminate Hnone.
      * destruct (@frame_tail_not_empty 179 h Hrows) as [row Hin].
        exists row. split; [exact Hin | now rewrite Hrep].
      * exists row. split; [exact Hin |].
        unfold volume_readable, has_column. cbn [columns].
        unfold has_column in Hcol. rewrite Hcol, Hfin. apply orb_true_r.
  - cbn [raises]. split; [now left | reflexivity].
Qed.

Section ServiceAnswers.
Context {rt : Runtime}.

Lemma volume_is_integer_part (x : float) (v : Z) :
  py_int_of_float x = Ok v -> v = integer_part x.
Proof.
  unfold py_int_of_float, integer_part.
  destruct (Prim2SF x); intros H; try discriminate H; now injection H as <-.
Qed.

Lemma serialize_row_serves (h : frame) (row : Z * (string -> float)) (point : history_point) :
  serialize_row h row = Ok point -> point_serves_row h row point.
Proof.
  intros H. destruct (@serialize_row_ok _ _ _ _ H) as (_ & _ & Hp & _ & Hv).
  unfold point_serves_row. repeat split; intros Hc.
  - exact (proj2 (Hp "Open" open (or_introl eq_refl)) Hc).
  - exact (proj2 (Hp "High" high (or_intror (or_introl eq_refl))) Hc).
  - exact (proj2 (Hp "Low" low (or_intror (or_intror (or_introl eq_refl)))) Hc).
  - exact (proj2 (Hp "Close" close
                    (or_intror (or_intror (or_intror (or_introl eq_refl))))) Hc).
  - apply volume_is_integer_part. exact (Hv Hc).
Qed.

Lemma serialize_rows_serve (h : frame) (rs : list (Z * (string -> float)))
  (points : list history_point) :
  serialize_rows h rs = Ok points -> Forall2 (point_serves_row h) rs points.
Proof.
  revert points. induction rs as [| row rs IH]; intros points H.
  - injection H as <-. constructor.
  - cbn [serialize_rows] in H. inv_bind H. inv_bind H. injection H as <-.
    constructor; [now apply serialize_row_serves | now apply IH].
Qed.

End ServiceAnswers.

(** For a fetched history the error dictionary is the answer exactly
    when its serialization raises. *)
Lemma error_dict_when_serialization_raises (rt : Runtime) (P : provider)
  (ticker : string) (h : frame) :
  get_stock_data P ticker "5y" = Ok (Some h) ->
  rows h <> [] /\
  ((exists message, get_company_data (Some P) ticker = Ok (ErrorDict message)) <->
   raises (serialize_history h) = true).
Proof.
  intros Hd. split.
  - destruct (get_stock_data_total P ticker "5y") as [Hnone | (h' & Hd' & He)];
      rewrite Hd in *; [discriminate Hnone |].
    injection Hd' as <-. now destruct (@frame_not_empty _ He).
  - unfold get_company_data.
    destruct (company_data_body_cases P ticker)
      as (profile & snap & _ & _ & [[Hd' _] | (h' & Hd' & Hb)]);
      rewrite Hd in Hd'; [discriminate Hd' |].
    injection Hd' as <-. rewrite Hb.
    destruct (serialize_history h) as [points | e]; cbn.
    + split; [intros [message Hm]; discriminate Hm | intros Hf; discriminate Hf].
    + split; [reflexivity | intros _; eauto].
Qed.

(** A NaN is no zero and no finite number. *)
Lemma nan_spec (x : float) : is_nan x = true -> Prim2SF x = S754_nan.
Proof. unfold Prim2SF. now intros ->. Qed.

Lemma nan_is_served (x : float) :
  is_nan x = true -> served_price x = x /\ x <> 0%float.
Proof.
  intros Hn. unfold served_price.
  assert (Hz : PrimFloat.eqb x 0 = false)
    by (rewrite FloatAxioms.eqb_spec, (nan_spec _ Hn); reflexivity).
  rewrite Hz. split; [reflexivity |]. intros ->. discriminate Hn.
Qed.

Lemma nan_not_finite (x : float) : is_nan x = true -> is_finite x = false.
Proof. intros Hn. now rewrite is_finite_spec, (nan_spec _ Hn). Qed.

(** C6 (as stated, refuted): when the provider raises on every call the
    service answers the ordinary four-key dictionary with a null profile,
    no history and an all-null price, not [{'error': message}]: the
    adapters have absorbed the failures. *)
Lemma adapter_failure_is_no_error_dict :
  @get_company_data example_runtime (Some unreachable) "ACME" =
    Ok (CompanyData PNone None None (Some all_null)) /\
  ~ @error_dict_as_stated example_runtime unreachable "ACME".
Proof.
  split; [reflexivity |].
  intros [_ Herr].
  destruct (Herr _ eq_refl) as [message Hm].
  discriminate Hm.
Qed.

(** C6 (amended): the service never raises to its caller.  An exception
    that reaches its own [try] block is answered by
    [{'error': str(e)}]; that happens exactly when the serialization of a
    fetched history raises.  A failure inside an adapter is absorbed by
    the adapter: when the provider refuses the ticker the answer is the
    four-key dictionary with a null profile, null history and an all-null
    price. *)
Theorem get_company_data_never_raises :
  forall (rt : Runtime) (data_ingestion : option provider) (ticker : string),
    raises (get_company_data data_ingestion ticker) = false /\
    (forall (P : provider) (e : exn),
       data_ingestion = Some P ->
       company_data_body P ticker = Raise e ->
       get_company_data data_ingestion ticker = Ok (ErrorDict (exn_message e))) /\
    (forall (P : provider) (e : exn),
       data_ingestion = Some P ->
       (company_data_body P ticker = Raise e <->
        exists h, get_stock_data P ticker "5y" = Ok (Some h) /\
                  serialize_history h = Raise e)) /\
    (forall (P : provider) (e : exn),
       data_ingestion = Some P ->
       yf_Ticker P ticker = Raise e ->
       get_company_data data_ingestion ticker =
         Ok (CompanyData PNone None None (Some all_null))).
Proof.
  intros rt data_ingestion ticker. split; [| split; [| split]].
  - destruct data_ingestion as [P |]; [| reflexivity].
    unfold get_company_data. destruct (company_data_body P ticker); reflexivity.
  - intros P e -> Hb. unfold get_company_data. now rewrite Hb.
  - intros P e _.
    destruct (company_data_body_cases P ticker)
      as (profile & snap & _ & _ & [[Hd Hb] | (h & Hd & Hb)]); rewrite Hb.
    + split; [discriminate |].
      intros (h & Hh & _). rewrite Hd in Hh. discriminate Hh.
    + split.
      * intros Hr. exists h. split; [exact Hd |].
        destruct (serialize_history h); cbn [bind] in Hr;
          [discriminate Hr | now injection Hr as ->].
      * intros (h' & Hh & Hser). rewrite Hd in Hh. injection Hh as <-.
        now rewrite Hser.
  - intros P e -> Ht. unfold get_company_data, company_data_body,
      get_company_info, get_stock_data, get_price_and_change, price_and_change_body.
    rewrite Ht. reflexivity.
Qed.

(** A history on a naive index: the conversion raises inside the service
    and the answer is the error dictionary. *)
Lemma get_company_data_never_raises_witness :
  @get_company_data example_runtime
    (Some (with_history (Frame None ["Close"] [(0, fun _ => 10%float)]))) "ACME" =
    Ok (ErrorDict "Cannot convert tz-naive timestamps, use tz_localize to localize") /\
  @get_company_data example_runtime (Some unreachable) "ACME" =
    Ok (CompanyData PNone None None (Some all_null)).
Proof.
  split.
  - destruct (@get_company_data_never_raises example_runtime
                (Some (with_history (Frame None ["Close"] [(0, fun _ => 10%float)])))
                "ACME") as (_ & Herr & _).
    exact (Herr _ (Exn TypeError
                     "Cannot convert tz-naive timestamps, use tz_localize to localize")
             eq_refl eq_refl).
  - destruct (@get_company_data_never_raises example_runtime (Some unreachable) "ACME")
      as (_ & _ & _ & Hdown).
    exact (Hdown _ (Exn ExternalError "connection refused") eq_refl eq_refl).
Defined.

(** C7 (the code at the failing inputs): a value the provider omits is
    a NaN cell, and the defaults of [row.get(c, None) or 0.0] and
    [int(row.get('Volume', 0) or 0)] do not reach it, a NaN being true.
    For a fetched history [h]: a history that is served has at most 180
    points, one for each of the last rows of [h], each dated by the
    rendering of a naive timestamp, with 0.0 and 0 for the columns [h]
    does not have; but a missing price of a column that is there is
    served as NaN, not as 0.0; and one missing volume among the last 180
    rows is answered by the error dictionary, with no history at all. *)
Theorem missing_cells_not_defaulted :
  forall (rt : Runtime) (P : provider) (ticker : string) (h : frame),
    get_stock_data P ticker "5y" = Ok (Some h) ->
    (forall (profile : pyval) (head : option frame) (points : list history_point)
            (price : option price_snapshot),
       get_company_data (Some P) ticker =
         Ok (CompanyData profile head (Some points) price) ->
       (List.length points <= 180)%nat /\
       List.length points = Nat.min 180 (List.length (rows h)) /\
       Forall2 (point_of_row h) (rows (frame_tail 180 h)) points /\
       Forall2 (missing_prices_kept h) (rows (frame_tail 180 h)) points) /\
    (forall row : Z * (string -> float),
       In row (rows (frame_tail 180 h)) ->
       has_column h "Volume" = true ->
       is_nan (snd row "Volume") = true ->
       exists message,
         get_company_data (Some P) ticker = Ok (ErrorDict message)).
Proof.
  intros rt P ticker h Hd. split.
  - intros profile head points price H. unfold get_company_data in H.
    destruct (company_data_body_cases P ticker)
      as (profile' & snap & _ & _ & [[Hd' _] | (h' & Hd' & Hb)]);
      rewrite Hd in Hd'; [discriminate Hd' |].
    injection Hd' as <-. rewrite Hb in H.
    destruct (serialize_history h) as [points' |] eqn:Hser; [| discriminate H].
    cbn in H. injection H as _ _ <- _.
    destruct (serialize_history_shape _ Hser) as [Hrows Hlen].
    split; [rewrite Hlen; lia |]. split; [exact Hlen |]. split; [exact Hrows |].
    unfold serialize_history, tz_convert_none in Hser.
    cbn [frame_tail index_zone columns rows] in Hser.
    destruct (index_zone h); [| discriminate Hser]. cbn [bind rows] in Hser.
    apply serialize_rows_serve in Hser. cbn [frame_tail rows].
    eapply Forall2_impl; [| exact Hser].
    intros row point (Ho & Hh & Hl & Hc & _) label field Hin Hcol Hnan.
    unfold has_column in Hcol, Ho, Hh, Hl, Hc. cbn [columns] in Ho, Hh, Hl, Hc.
    destruct (nan_is_served _ Hnan) as [Hserved Hnz].
    destruct Hin as [[= <- <-] | [[= <- <-] | [[= <- <-] | [[= <- <-] | []]]]];
      [rewrite (Ho Hcol) | rewrite (Hh Hcol) | rewrite (Hl Hcol) | rewrite (Hc Hcol)];
      rewrite Hserved; now split.
  - intros row Hin Hcol Hnan.
    apply (error_dict_when_serialization_raises rt P ticker Hd).
    apply serialize_history_raises_iff. right. right.
    exists row. split; [exact Hin |]. split; [exact Hcol |].
    now apply nan_not_finite.
Qed.

(** A day whose opening price is missing is served with a NaN; a day
    whose volume is missing is answered by the error dictionary. *)
Lemma missing_cells_not_defaulted_witness :
  @get_company_data example_runtime (Some (with_history nan_open_history)) "ACME" =
    Ok (CompanyData
          (PDict [("Company Name", PStr "N/A"); ("Sector", PStr "N/A");
                  ("Market Cap", PStr "$0"); ("Business Summary", PStr "N/A")])
          (Some (frame_head 5 nan_open_history))
          (Some [HistoryPoint "2024-01-02T05:00:00" nan 10 10 10 10])
          (Some (Snapshot (Some 10%float) (Some 10%float) (Some 0%float)
                   (Some 0%float)))) /\
  Forall2 (missing_prices_kept nan_open_history)
    (rows (frame_tail 180 nan_open_history))
    [HistoryPoint "2024-01-02T05:00:00" nan 10 10 10 10] /\
  (exists message,
     @get_company_data example_runtime (Some (with_history nan_volume_history)) "ACME"
       = Ok (ErrorDict message)) /\
  @get_company_data example_runtime (Some (with_history nan_volume_history)) "ACME"
    = Ok (ErrorDict "cannot convert float NaN to integer").
Proof.
  assert (Hrun : @get_company_data example_runtime
                   (Some (with_history nan_open_history)) "ACME" =
                 Ok (CompanyData
                       (PDict [("Company Name", PStr "N/A"); ("Sector", PStr "N/A");
                               ("Market Cap", PStr "$0");
                               ("Business Summary", PStr "N/A")])
                       (Some (frame_head 5 nan_open_history))
                       (Some [HistoryPoint "2024-01-02T05:00:00" nan 10 10 10 10])
                       (Some (Snapshot (Some 10%float) (Some 10%float) (Some 0%float)
                                (Some 0%float)))))
    by (vm_compute; reflexivity).
  split; [exact Hrun |]. split; [| split; [| reflexivity]].
  - destruct (@missing_cells_not_defaulted example_runtime
                (with_history nan_open_history) "ACME" nan_open_history eq_refl)
      as [Hserved _].
    exact (proj2 (proj2 (proj2 (Hserved _ _ _ _ Hrun)))).
  - destruct (@missing_cells_not_defaulted example_runtime
                (with_history nan_volume_history) "ACME" nan_volume_history eq_refl)
      as [_ Hvolume].
    apply (Hvolume (1704171600000000000,
                    fun c => if String.eqb c "Volume" then nan else 10%float)).
    + left. reflexivity.
    + reflexivity.
    + reflexivity.
Defined.


(** ** More on the scorer *)

Lemma dict_set_keys (d : list (string * pyval)) (k : string) (v v0 : pyval) :
  dict_lookup d k = Some v0 -> map fst (dict_set d k v) = map fst d.
Proof.
  induction d as [| [k' v'] d IH]; simpl; [discriminate |].
  destruct (String.eqb k' k) eqn:E; simpl.
  - intros _. apply String.eqb_eq in E. now subst k'.
  - intros H. now rewrite IH.
Qed.

(** What a call of the scorer can return: the default, or the first
    result of the classifier with a canonical label put in place. *)
Lemma analyze_sentiment_cases (text : pyval) (clf : option classifier) (r : pyval) :
  analyze_sentiment text clf = Ok r ->
  r = neutral_default \/
  exists (c : classifier) (results : pyval) (d : list (string * pyval))
         (raw label : pyval),
    clf = Some c /\ py_truthy text = true /\
    c (PList [text]) = Ok results /\
    py_index results 0 = Ok (PDict d) /\
    dict_lookup d "label" = Some raw /\
    py_table_get sentiment_map raw (PStr "Neutral") = Ok label /\
    r = PDict (dict_set d "label" label).
Proof.
  unfold analyze_sentiment. destruct clf as [c |]; [| intros [= <-]; now left].
  destruct (py_truthy text) eqn:Ht; cbn [negb]; [| intros [= <-]; now left].
  destruct (classify text c) as [r0 |] eqn:Hc; cbn [try_except];
    [| intros [= <-]; now left].
  intros [= <-]. right. unfold classify in Hc.
  inv_bind Hc. inv_bind Hc. inv_bind Hc. inv_bind Hc.
  destruct x0 as [| | | | | | d]; try discriminate Hc.
  cbn in Hc. injection Hc as <-.
  cbn in Hx1. destruct (dict_lookup d "label") as [raw |] eqn:Hl; [| discriminate Hx1].
  injection Hx1 as <-.
  exists c, x, d, raw, x2. repeat split; assumption.
Qed.

(** X1: a call of the scorer returns the default or the first result of
    the classifier with nothing but its label changed: the keys and their
    order are the classifier's, the label is a canonical word, and every
    other entry (the score among them) is untouched. *)
Theorem scorer_replaces_only_the_label :
  forall (text : pyval) (clf : option classifier) (r : pyval),
    analyze_sentiment text clf = Ok r ->
    r = neutral_default \/
    exists (c : classifier) (results : pyval) (d d' : list (string * pyval)),
      clf = Some c /\
      c (PList [text]) = Ok results /\
      py_index results 0 = Ok (PDict d) /\
      r = PDict d' /\
      map fst d' = map fst d /\
      (exists label, dict_lookup d' "label" = Some label /\ is_canonical label = true) /\
      (forall k : string, k <> "label" -> dict_lookup d' k = dict_lookup d k).
Proof.
  intros text clf r H.
  destruct (analyze_sentiment_cases _ _ H)
    as [-> | (c & results & d & raw & label & -> & _ & Hc & Hi & Hl & Hm & ->)];
    [now left | right].
  exists c, results, d, (dict_set d "label" label).
  split; [reflexivity |]. split; [exact Hc |]. split; [exact Hi |].
  split; [reflexivity |]. split; [eapply dict_set_keys; exact Hl |].
  split.
  - exists label. split; [apply dict_lookup_set_same |].
    eapply table_get_canonical; exact Hm.
  - intros k Hk. apply dict_lookup_set_other. congruence.
Qed.

(** A classifier that says "positive" with confidence 0.5. *)
Lemma scorer_replaces_only_the_label_witness :
  PDict [("label", PStr "Positive"); ("score", PFloat 0.5)] = neutral_default \/
  exists (c : classifier) (results : pyval) (d d' : list (string * pyval)),
    Some (classifier_returning "positive" 0.5) = Some c /\
    c (PList [PStr "Acme beats estimates"]) = Ok results /\
    py_index results 0 = Ok (PDict d) /\
    PDict [("label", PStr "Positive"); ("score", PFloat 0.5)] = PDict d' /\
    map fst d' = map fst d /\
    (exists label, dict_lookup d' "label" = Some label /\ is_canonical label = true) /\
    (forall k : string, k <> "label" -> dict_lookup d' k = dict_lookup d k).
Proof.
  apply (@scorer_replaces_only_the_label (PStr "Acme beats estimates")
           (Some (classifier_returning "positive" 0.5))).
  reflexivity.
Defined.

(** ** The labels of the two scripts *)

(** The four labels the scorer can attach. *)
Lemma scorer_label_strings (text : pyval) (clf : option classifier) (r : pyval) :
  analyze_sentiment text clf = Ok r ->
  exists (d : list (string * pyval)) (l : string),
    r = PDict d /\ dict_lookup d "label" = Some (PStr l) /\
    In l ["Positive"; "Negative"; "Neutral"; "neutral"].
Proof.
  intros H. destruct (analyze_sentiment_cases _ _ H)
    as [-> | (c & results & d & raw & label & _ & _ & _ & _ & _ & Hm & ->)].
  - exists [("label", PStr "neutral"); ("score", PFloat 0)], "neutral".
    cbn. intuition.
  - exists (dict_set d "label" label).
    assert (Hl : exists l, label = PStr l /\ In l ["Positive"; "Negative"; "Neutral"]).
    { destruct raw as [| b | z | f | s | l | d0]; try discriminate Hm;
        try (injection Hm as <-; exists "Neutral"; cbn; intuition).
      rewrite sentiment_map_exact in Hm. injection Hm as <-.
      exists (exact_label s). split; [reflexivity |]. unfold exact_label.
      destruct (String.eqb s "positive"); [cbn; intuition |].
      destruct (String.eqb s "negative"); cbn; intuition. }
    destruct Hl as (l & -> & Hin). exists l.
    split; [reflexivity |]. split; [apply dict_lookup_set_same |].
    cbn in Hin |- *. intuition.
Qed.

Lemma normalize_label_range (raw : string) :
  In (normalize_label raw) ["positive"; "negative"; "neutral"].
Proof.
  rewrite normalize_label_substring.
  destruct (contains "pos" (lower raw)); [cbn; intuition |].
  destruct (contains "neg" (lower raw)); cbn; intuition.
Qed.

(** X2: [normalize_label] answers with one of the three lower-case
    words, and normalizing a normalized label changes nothing. *)
Theorem normalize_label_idempotent :
  forall raw : string,
    In (normalize_label raw) ["positive"; "negative"; "neutral"] /\
    normalize_label (normalize_label raw) = normalize_label raw.
Proof.
  intros raw. split; [apply normalize_label_range |].
  destruct (normalize_label_range raw) as [<- | [<- | [<- | []]]]; reflexivity.
Qed.

Lemma analyze_sentiment_total (text : pyval) (clf : option classifier) :
  exists r, analyze_sentiment text clf = Ok r.
Proof.
  unfold analyze_sentiment. destruct clf as [c |]; [| eauto].
  destruct (py_truthy text); cbn [negb]; [| eauto].
  destruct (classify text c); cbn; eauto.
Qed.

(** Both scripts, on one headline: the raw label is one of the scorer's
    four, the builder's label and the evaluator's prediction are its
    lower case. *)
Lemma headline_labels (format_score : float -> string) (clf : option classifier)
  (title : string) :
  exists (raw score : string),
    label_headline format_score clf title = Ok (raw, score, lower raw) /\
    In raw ["Positive"; "Negative"; "Neutral"; "neutral"] /\
    predict title clf = Ok (PStr (lower raw)).
Proof.
  destruct (analyze_sentiment_total (PStr title) clf) as [r Hr].
  destruct (scorer_label_strings _ _ Hr) as (d & l & -> & Hl & Hin).
  unfold label_headline, predict. rewrite Hr. cbn [bind].
  assert (Hd : py_or (PDict d) (PDict []) = PDict d)
    by (destruct d; [discriminate Hl | reflexivity]).
  rewrite Hd. cbn [py_get]. rewrite Hl. cbn [bind].
  exists l.
  assert (Hs : exists score, py_get (PDict d) "score" PNone = Ok score)
    by (cbn; destruct (dict_lookup d "score"); eauto).
  destruct Hs as [score Hs]. cbn [py_get] in Hs.
  cbn in Hin. destruct Hin as [<- | [<- | [<- | [<- | []]]]];
    cbn [py_or py_truthy String.eqb negb py_strip py_lower bind];
    rewrite Hs; cbn [bind];
    eexists; (split; [reflexivity | split; [cbn; intuition | reflexivity]]).
Qed.

(** X3: the scoring of a headline by the dataset builder never fails,
    whatever the classifier does; the raw label is one of the scorer's
    four words and the normalized label is its lower case. *)
Theorem dataset_label_is_lowercase_raw :
  forall (format_score : float -> string) (clf : option classifier) (title : string),
    exists raw score : string,
      label_headline format_score clf title = Ok (raw, score, lower raw) /\
      In raw ["Positive"; "Negative"; "Neutral"; "neutral"] /\
      In (lower raw) ["positive"; "negative"; "neutral"].
Proof.
  intros format_score clf title.
  destruct (headline_labels format_score clf title) as (raw & score & H & Hin & _).
  exists raw, score. split; [exact H |]. split; [exact Hin |].
  cbn in Hin. destruct Hin as [<- | [<- | [<- | [<- | []]]]]; cbn; intuition.
Qed.

(** X4: on every text and with every classifier, the prediction of the
    baseline evaluator is the label the dataset builder writes for that
    text: the two scripts normalize the scorer's answers alike. *)
Theorem prediction_matches_dataset_label :
  forall (format_score : float -> string) (clf : option classifier) (text : string),
    exists raw score norm : string,
      label_headline format_score clf text = Ok (raw, score, norm) /\
      predict text clf = Ok (PStr norm).
Proof.
  intros format_score clf text.
  destruct (headline_labels format_score clf text) as (raw & score & H & _ & Hp).
  now exists raw, score, (lower raw).
Qed.

(** ** [strip] once is enough *)

Lemma rstrip_idempotent (s : string) : rstrip (rstrip s) = rstrip s.
Proof.
  induction s as [| c s IH]; [reflexivity |].
  cbn [rstrip]. destruct (is_space c && String.eqb (rstrip s) "") eqn:E;
    [reflexivity |].
  cbn [rstrip]. now rewrite IH, E.
Qed.

Lemma lstrip_rstrip_lstrip (s : string) : lstrip (rstrip (lstrip s)) = rstrip (lstrip s).
Proof.
  induction s as [| c s IH]; [reflexivity |].
  cbn [lstrip]. destruct (is_space c) eqn:Hc; [exact IH |].
  cbn [rstrip]. rewrite Hc. cbn [andb lstrip]. now rewrite Hc.
Qed.

Lemma strip_idempotent (s : string) : strip (strip s) = strip s.
Proof.
  unfold strip. now rewrite lstrip_rstrip_lstrip, rstrip_idempotent.
Qed.

(** ** The loop of the dataset builder *)

Section DatasetLoop.
Variable format_score : float -> string.
Variable clf : option classifier.
Variable min_len : Z.
Variable unique : bool.

Lemma dataset_step_cases (rows : list dataset_row) (seen : list string) (it : pyval)
  (state' : list dataset_row * list string) :
  dataset_step format_score clf min_len unique (rows, seen) it = Ok state' ->
  state' = (rows, seen) \/
  exists r : dataset_row,
    state' = (rows ++ [r], if unique then row_key r :: seen else seen) /\
    kept_row min_len r /\
    (unique = true -> existsb (String.eqb (row_key r)) seen = false).
Proof.
  unfold dataset_step. intros H.
  inv_bind H. inv_bind H.
  destruct (String.eqb x0 "" || (Z.of_nat (String.length x0) <? min_len)) eqn:Hkeep.
  { injection H as <-. now left. }
  destruct (unique && existsb (String.eqb (lower x0)) seen) eqn:Hseen.
  { injection H as <-. now left. }
  right. inv_bind H.
  destruct (headline_labels format_score clf x0) as (raw & score & Hlab & Hin & _).
  rewrite Hlab in Hx1. injection Hx1 as <-.
  inv_bind H. inv_bind H. inv_bind H. injection H as <-.
  eexists (DatasetRow _ _ _ _ _ _ _). split; [reflexivity |].
  apply orb_false_iff in Hkeep. destruct Hkeep as [Hne Hlen].
  split.
  - unfold kept_row. cbn.
    split; [now apply String.eqb_neq |].
    split; [apply Z.ltb_ge in Hlen; exact Hlen |].
    split; [| split; [exact Hin | reflexivity]].
    destruct (py_or x (PStr "")); try discriminate Hx0.
    cbn in Hx0. injection Hx0 as <-. apply strip_idempotent.
  - intros ->. exact Hseen.
Qed.

Lemma dataset_step_invariant (state : list dataset_row * list string) (it : pyval)
  (state' : list dataset_row * list string) :
  loop_invariant min_len unique state ->
  dataset_step format_score clf min_len unique state it = Ok state' ->
  loop_invariant min_len unique state' /\
  (List.length (fst state') <= S (List.length (fst state)))%nat.
Proof.
  destruct state as [rows seen]. intros [Hrows Huniq] H.
  destruct (@dataset_step_cases _ _ _ _ H) as [-> | (r & -> & Hr & Hnew)].
  - split; [split; assumption | cbn; lia].
  - split; [| cbn; rewrite length_app; cbn; lia].
    split; cbn [fst snd].
    + apply Forall_app. split; [exact Hrows | now constructor].
    + intros Hu. destruct (Huniq Hu) as [Hnd Hsub]. specialize (Hnew Hu).
      rewrite Hu. split.
      * rewrite map_app. cbn [map].
        apply NoDup_app; [exact Hnd | repeat constructor; intros [] |].
        intros k Hk [<- | []].
        apply in_map_iff in Hk. destruct Hk as (r0 & Hk & Hin0).
        apply Hsub in Hin0. rewrite Hk in Hin0.
        assert (Hex : existsb (String.eqb (row_key r)) seen = true).
        { apply existsb_exists. exists (row_key r).
          split; [exact Hin0 | apply String.eqb_refl]. }
        congruence.
      * intros r0 Hin0. apply in_app_or in Hin0.
        destruct Hin0 as [Hin0 | [<- | []]]; [right; now apply Hsub | now left].
Qed.

Lemma dataset_loop_invariant (items : list pyval)
  (state state' : list dataset_row * list string) :
  loop_invariant min_len unique state ->
  dataset_loop format_score clf min_len unique state items = Ok state' ->
  loop_invariant min_len unique state' /\
  (List.length (fst state') <= List.length (fst state) + List.length items)%nat.
Proof.
  revert state. induction items as [| it items IH]; intros state Hinv H.
  - injection H as <-. split; [exact Hinv | cbn; lia].
  - cbn [dataset_loop] in H. inv_bind H.
    destruct (@dataset_step_invariant _ _ _ Hinv Hx) as [Hinv' Hlen'].
    destruct (IH _ Hinv' H) as [Hfinal Hlen].
    split; [exact Hfinal | cbn [List.length]; lia].
Qed.

End DatasetLoop.

Lemma dataset_rows_invariant (format_score : float -> string) (clf : option classifier)
  (min_len : Z) (unique : bool) (limit : Z) (items : list pyval)
  (rows : list dataset_row) :
  dataset_rows format_score clf min_len unique limit items = Ok rows ->
  Forall (kept_row min_len) rows /\
  (unique = true -> NoDup (map row_key rows)) /\
  (List.length rows <= List.length (limit_items limit items))%nat.
Proof.
  unfold dataset_rows. intros H. inv_bind H. injection H as <-.
  assert (Hinit : loop_invariant min_len unique (@nil dataset_row, @nil string)).
  { split; [constructor |]. intros _. split; [constructor | intros r []]. }
  destruct (@dataset_loop_invariant _ _ _ _ _ _ _ Hinit Hx) as [[Hrows Huniq] Hlen].
  split; [exact Hrows |]. split; [| exact Hlen].
  intros Hu. now destruct (Huniq Hu).
Qed.

Lemma limit_items_length (limit : Z) (items : list pyval) :
  (List.length (limit_items limit items) <= List.length items)%nat /\
  (0 < limit -> Z.of_nat (List.length (limit_items limit items)) <= limit).
Proof.
  unfold limit_items.
  destruct (negb (limit =? 0) && (0 <? limit)) eqn:E.
  - rewrite length_firstn. split; [lia |]. intros Hl. lia.
  - split; [lia |]. intros Hl.
    apply andb_false_iff in E. destruct E as [E | E].
    + apply negb_false_iff, Z.eqb_eq in E. lia.
    + apply Z.ltb_ge in E. lia.
Qed.

(** X5: with [--unique], no two rows of the dataset have the same
    headline up to case. *)
Theorem dataset_unique_headlines :
  forall (format_score : float -> string) (clf : option classifier)
         (min_len limit : Z) (items : list pyval) (rows : list dataset_row),
    dataset_rows format_score clf min_len true limit items = Ok rows ->
    NoDup (map row_key rows).
Proof.
  intros format_score clf min_len limit items rows H.
  destruct (@dataset_rows_invariant _ _ _ _ _ _ _ H) as (_ & Hnd & _).
  now apply Hnd.
Qed.

(** The run of the builder on the example items, with and without
    [--unique]. *)
Lemma example_dataset (unique : bool) :
  dataset_rows (fun _ => "0.500000") (Some (classifier_returning "positive" 0.5))
    5 unique 300 example_items =
  Ok (if unique then [example_row]
      else [example_row;
            DatasetRow "ACME BEATS ESTIMATES" "positive" "0.500000" "Positive"
              (PStr "") (PStr "") (PStr "https://example.org/a")]).
Proof. destruct unique; vm_compute; reflexivity. Qed.

Lemma dataset_unique_headlines_witness : NoDup (map row_key [example_row]).
Proof.
  exact (@dataset_unique_headlines _ _ _ _ _ _ (example_dataset true)).
Defined.

(** X6: every row of the dataset has a headline that is not empty, has
    at least the minimum length and no white space around it, a raw label
    that is one of the scorer's, and as label its lower case. *)
Theorem dataset_rows_are_kept :
  forall (format_score : float -> string) (clf : option classifier)
         (min_len limit : Z) (unique : bool) (items : list pyval)
         (rows : list dataset_row),
    dataset_rows format_score clf min_len unique limit items = Ok rows ->
    Forall (kept_row min_len) rows.
Proof.
  intros format_score clf min_len limit unique items rows H.
  now destruct (@dataset_rows_invariant _ _ _ _ _ _ _ H) as (Hk & _).
Qed.

Lemma dataset_rows_are_kept_witness : Forall (kept_row 5) [example_row].
Proof.
  exact (@dataset_rows_are_kept _ _ _ _ _ _ _ (example_dataset true)).
Defined.

(** X7: the dataset has at most one row for each fetched item, and at
    most [limit] rows when the limit is positive. *)
Theorem dataset_row_count :
  forall (format_score : float -> string) (clf : option classifier)
         (min_len limit : Z) (unique : bool) (items : list pyval)
         (rows : list dataset_row),
    dataset_rows format_score clf min_len unique limit items = Ok rows ->
    (List.length rows <= List.length items)%nat /\
    (0 < limit -> Z.of_nat (List.length rows) <= limit).
Proof.
  intros format_score clf min_len limit unique items rows H.
  destruct (@dataset_rows_invariant _ _ _ _ _ _ _ H) as (_ & _ & Hlen).
  destruct (limit_items_length limit items) as [Hall Hlim].
  split; [lia |]. intros Hl. specialize (Hlim Hl). lia.
Qed.

Lemma dataset_row_count_witness :
  (List.length [example_row] <= List.length example_items)%nat /\
  (0 < 300 -> Z.of_nat (List.length [example_row]) <= 300).
Proof.
  exact (@dataset_row_count _ _ _ _ _ _ _ (example_dataset true)).
Defined.

(** ** The news adapter *)

(** One iteration on a dictionary: the scorer answers for the title, and
    the item is made unless the answer has no score. *)
Lemma analyze_item_run (c : classifier) (d : list (string * pyval)) :
  exists (sentiment : list (string * pyval)) (label : string),
    analyze_sentiment (dict_get d "title" (PStr "No Title")) (Some c)
      = Ok (PDict sentiment) /\
    dict_lookup sentiment "label" = Some (PStr label) /\
    In label ["Positive"; "Negative"; "Neutral"; "neutral"] /\
    analyze_item c (PDict d) =
      match dict_lookup sentiment "score" with
      | Some score =>
          Ok (PDict [("title", dict_get d "title" (PStr "No Title"));
                     ("link", dict_get d "link" (PStr "#"));
                     ("published", dict_get d "published" (PStr "N/A"));
                     ("sentiment_label", PStr label);
                     ("sentiment_score", score)])
      | None => Raise (Exn KeyError "score")
      end.
Proof.
  destruct (analyze_sentiment_total (dict_get d "title" (PStr "No Title")) (Some c))
    as [r Hr].
  destruct (scorer_label_strings _ _ Hr) as (sentiment & label & -> & Hl & Hin).
  exists sentiment, label. split; [exact Hr |]. split; [exact Hl |].
  split; [exact Hin |].
  unfold analyze_item. rewrite !py_get_dict. cbn [bind]. rewrite Hr. cbn [bind py_item].
  rewrite Hl. cbn [bind]. now destruct (dict_lookup sentiment "score").
Qed.

(** The items of the loop are the news items of their feed items. *)
Lemma analyze_item_iff (c : classifier) (item n : pyval) :
  analyze_item c item = Ok n <-> news_item_of c item n.
Proof.
  split.
  - intros H. destruct item as [| | | | | | d]; try discriminate H.
    destruct (analyze_item_run c d) as (sentiment & label & Hr & Hl & Hin & Hrun).
    rewrite Hrun in H.
    destruct (dict_lookup sentiment "score") as [score |] eqn:Hs; [| discriminate H].
    injection H as <-. exists d, sentiment, label, score. now repeat split.
  - intros (d & sentiment & label & score & -> & Hr & Hl & Hs & _ & ->).
    destruct (analyze_item_run c d) as (sentiment' & label' & Hr' & Hl' & _ & Hrun).
    rewrite Hr in Hr'. injection Hr' as <-.
    rewrite Hl in Hl'. injection Hl' as <-.
    now rewrite Hrun, Hs.
Qed.

(** The loop fails on an item that is no dictionary and on one the
    scorer answers without a score, and on no other. *)
Lemma analyze_item_fails (c : classifier) (item : pyval) :
  (exists e, analyze_item c item = Raise e) <-> item_fails c item.
Proof.
  destruct item as [| | | | | | d];
    try (split; [intros _; exact I | intros _; eexists; reflexivity]).
  destruct (analyze_item_run c d) as (sentiment & label & Hr & Hl & _ & Hrun).
  unfold item_fails. rewrite Hrun. split.
  - intros [e He]. exists (PDict sentiment). split; [exact Hr |].
    cbn [score_of]. now destruct (dict_lookup sentiment "score").
  - intros (r & Hr' & Hs). rewrite Hr in Hr'. injection Hr' as <-.
    cbn [score_of] in Hs. rewrite Hs. eauto.
Qed.

Lemma analyze_item_shape (c : classifier) (item n : pyval) :
  analyze_item c item = Ok n -> news_item_of c item n.
Proof. apply analyze_item_iff. Qed.

Lemma analyze_items_shape (c : classifier) (items news : list pyval) :
  analyze_items c items = Ok news -> Forall2 (news_item_of c) items news.
Proof.
  revert news. induction items as [| item items IH]; intros news H.
  - injection H as <-. constructor.
  - cbn [analyze_items] in H. inv_bind H. inv_bind H. injection H as <-.
    constructor; [eapply analyze_item_shape; eassumption | now apply IH].
Qed.

(** The loop raises exactly when it fails on one of the items. *)
Lemma analyze_items_fail (c : classifier) (items : list pyval) :
  (exists e, analyze_items c items = Raise e) <-> Exists (item_fails c) items.
Proof.
  induction items as [| item items IH]; cbn [analyze_items].
  - split; [intros [e He]; discriminate He | intros H; inversion H].
  - destruct (analyze_item c item) as [n | e] eqn:Hi; cbn [bind].
    + destruct (analyze_items c items) as [news | e]; cbn [bind].
      * split; [intros [e He]; discriminate He |].
        intros H. inversion H as [? ? Hf | ? ? Hrest]; subst.
        -- apply analyze_item_fails in Hf. destruct Hf as [e He].
           rewrite Hi in He. discriminate He.
        -- apply IH in Hrest. destruct Hrest as [e He]. discriminate He.
      * split; [| eauto]. intros _. apply Exists_cons_tl. apply IH. eauto.
    + split; [| eauto]. intros _. apply Exists_cons_hd.
      apply analyze_item_fails. eauto.
Qed.

Lemma get_stock_news_cases (P : provider) (ticker : string) :
  get_stock_news P ticker = Ok [] \/
  exists (c : classifier) (feed : pyval) (items news : list pyval),
    pipeline P = Ok c /\
    get_yf_rss P ticker = Ok feed /\
    py_iter feed = Ok items /\
    analyze_items c items = Ok news /\
    get_stock_news P ticker = Ok news.
Proof.
  unfold get_stock_news, load_sentiment_model.
  destruct (pipeline P) as [c |]; [| now left].
  destruct (get_yf_rss P ticker) as [feed |]; cbn [bind try_except]; [| now left].
  destruct (py_iter feed) as [items |] eqn:Hi; cbn [bind try_except]; [| now left].
  destruct (analyze_items c items) as [news |] eqn:Ha; cbn [try_except]; [| now left].
  right. exists c, feed, items, news. repeat split; try reflexivity; assumption.
Qed.

(** X8: the news adapter never raises.  It answers with no news when
    the model cannot be loaded, when the feed cannot be fetched or is not
    iterable, and when the loop fails on any single item of the feed (one
    that is no dictionary, or one the scorer answers without a score).
    Otherwise it answers with one item per item of the feed, in the
    order of the feed, each with the title, link and publication time of
    its feed item (or their defaults) and with the label and the score of
    the scorer's answer for that title. *)
Theorem get_stock_news_items :
  forall (P : provider) (ticker : string),
    raises (get_stock_news P ticker) = false /\
    (forall e, pipeline P = Raise e -> get_stock_news P ticker = Ok []) /\
    (forall c e,
       pipeline P = Ok c -> get_yf_rss P ticker = Raise e ->
       get_stock_news P ticker = Ok []) /\
    (forall c feed e,
       pipeline P = Ok c -> get_yf_rss P ticker = Ok feed ->
       py_iter feed = Raise e ->
       get_stock_news P ticker = Ok []) /\
    (forall c feed items,
       pipeline P = Ok c -> get_yf_rss P ticker = Ok feed ->
       py_iter feed = Ok items ->
       (Exists (item_fails c) items /\ get_stock_news P ticker = Ok []) \/
       (exists news,
          get_stock_news P ticker = Ok news /\
          Forall2 (news_item_of c) items news)).
Proof.
  intros P ticker. unfold get_stock_news, load_sentiment_model.
  split; [| split; [| split; [| split]]].
  - destruct (pipeline P) as [c |]; [| reflexivity]. apply try_except_total.
  - now intros e ->.
  - now intros c e -> ->.
  - intros c feed e -> -> Hi. cbn [bind]. now rewrite Hi.
  - intros c feed items -> -> Hi. cbn [bind]. rewrite Hi. cbn [bind].
    destruct (analyze_items c items) as [news | e] eqn:Ha; cbn [try_except].
    + right. exists news. split; [reflexivity |].
      now apply analyze_items_shape.
    + left. split; [| reflexivity]. apply analyze_items_fail. eauto.
Qed.

(** ** The simplified news of the service *)

Lemma simplify_item_fixed (c : classifier) (item n : pyval) :
  news_item_of c item n -> simplify_item n = Ok n.
Proof. intros (d & sentiment & label & score & _ & _ & _ & _ & _ & ->). reflexivity. Qed.

Lemma simplify_items_fixed (c : classifier) (items news : list pyval) :
  Forall2 (news_item_of c) items news -> simplify_items news = Ok news.
Proof.
  induction 1 as [| item n items news Hn _ IH]; [reflexivity |].
  cbn [simplify_items]. rewrite (@simplify_item_fixed _ _ _ Hn). cbn [bind].
  now rewrite IH.
Qed.

(** X9: the service hands the adapter's news on as they are, and
    answers with no news when one of the two modules is missing. *)
Theorem analyze_news_is_adapter_news :
  forall (P : provider) (available : bool) (ticker : string),
    analyze_news_for_ticker (Some P) true ticker = get_stock_news P ticker /\
    analyze_news_for_ticker (Some P) false ticker = Ok [] /\
    analyze_news_for_ticker None available ticker = Ok [].
Proof.
  intros P available ticker. split; [| split; reflexivity].
  unfold analyze_news_for_ticker. cbn [negb].
  destruct (get_stock_news_cases P ticker)
    as [H | (c & feed & items & news & _ & _ & _ & Ha & H)]; rewrite H; cbn [bind].
  - reflexivity.
  - now rewrite (@simplify_items_fixed _ _ _ (@analyze_items_shape _ _ _ Ha)).
Qed.


(** ** More on prices *)

Section MorePrices.
Context {rt : Runtime}.

(** Every snapshot the tail builds. *)
Lemma snapshot_of_cases (prev current : pyval) (snap : price_snapshot) :
  snapshot_of prev current = Ok snap ->
  snap = all_null \/
  exists c : float,
    py_float current = Ok c /\ is_none current = false /\
    (snap = Snapshot (Some c) None None None \/
     exists p : float,
       py_float prev = Ok p /\
       snap = Snapshot (Some c) (Some p) (Some (PrimFloat.sub c p))
                (if PrimFloat.eqb p 0 then None
                 else Some (PrimFloat.mul (PrimFloat.div (PrimFloat.sub c p) p) 100))).
Proof.
  unfold snapshot_of. intros H.
  destruct (is_none current) eqn:Hc; [injection H as <-; now left |].
  right. destruct (py_float current) as [c |]; [| discriminate H]. cbn [bind] in H.
  exists c. split; [reflexivity |]. split; [reflexivity |].
  destruct (is_none prev); cbn [bind] in H; [injection H as <-; now left |].
  right. destruct (py_float prev) as [p |]; [| discriminate H]. cbn [bind] in H.
  rewrite percent_change_guarded in H. cbn [bind] in H. injection H as <-.
  now exists p.
Qed.

(** The fallback leaves a live price alone. *)
Lemma history_fallback_keeps (hist : option frame) (prev current prev' current' : pyval) :
  history_fallback hist prev current = Ok (prev', current') ->
  (is_none prev = false -> prev' = prev) /\
  (is_none current = false -> current' = current).
Proof.
  unfold history_fallback, close_unless_set.
  destruct hist as [h |]; [| intros [= <- <-]; now split].
  destruct (2 <=? frame_len h); [| destruct (frame_len h =? 1)];
    try (intros [= <- <-]; now split);
    intros H; inv_bind H; inv_bind H; injection H as <- <-;
    (split; intros Hn;
     match goal with
     | Hx : (if is_none ?v then _ else _) = Ok _ |- _ = ?v =>
         rewrite Hn in Hx; now injection Hx as <-
     end).
Qed.

End MorePrices.

(** X10: the snapshot of [get_price_and_change] is consistent, whatever
    the provider does: without a current price all four fields are null;
    the change is there exactly when the previous close is; the change is
    the difference of the two prices; and the percentage is there exactly
    when the previous close is there and is not zero. *)
Theorem snapshot_is_consistent :
  forall (rt : Runtime) (P : provider) (ticker : string),
    exists snap : price_snapshot,
      get_price_and_change P ticker = Ok snap /\
      (current_price snap = None -> snap = all_null) /\
      (change snap = None <-> previous_close snap = None) /\
      (forall c p : float,
         current_price snap = Some c -> previous_close snap = Some p ->
         change snap = Some (PrimFloat.sub c p)) /\
      (change_pct snap = None <->
       previous_close snap = None \/
       exists p, previous_close snap = Some p /\ PrimFloat.eqb p 0 = true).
Proof.
  intros rt P ticker.
  destruct (get_price_and_change_total P ticker) as [snap Hs].
  exists snap. split; [exact Hs |].
  destruct (get_price_and_change_ok _ _ Hs) as [-> | (prev & current & Hsnap)].
  { cbn. repeat split; intros; try discriminate; auto. }
  destruct (snapshot_of_cases _ _ Hsnap)
    as [-> | (c & _ & _ & [-> | (p & _ & ->)])]; cbn.
  - repeat split; intros; try discriminate; auto.
  - repeat split; intros; try discriminate; auto.
  - repeat split; try discriminate.
    + intros c0 p0 [= <-] [= <-]. reflexivity.
    + destruct (PrimFloat.eqb p 0) eqn:E; [| discriminate].
      intros _. right. now exists p.
    + intros [H | (p0 & [= <-] & Hz)]; [discriminate H |]. now rewrite Hz.
Qed.

Lemma snapshot_is_consistent_witness :
  change_pct (Snapshot (Some 5%float) (Some 0%float) (Some 5%float) None) = None.
Proof.
  destruct (@snapshot_is_consistent example_runtime (history_only [0; 5]%float) "ACME")
    as (snap & Hs & _ & _ & _ & Hpct).
  vm_compute in Hs. injection Hs as <-.
  apply Hpct. right. exists 0%float. split; reflexivity.
Defined.

(** X11: when both live prices are there, the history is not read: two
    tickers with the same info answer the same snapshot whatever their
    histories are, even if reading them would raise. *)
Theorem live_prices_skip_history :
  forall (rt : Runtime) (P P' : provider) (ticker : string) (info : result pyval)
         (history history' : string -> result (option frame))
         (quote live_prev live_current : pyval),
    yf_Ticker P ticker = Ok (Stock info history) ->
    yf_Ticker P' ticker = Ok (Stock info history') ->
    info = Ok quote ->
    live_field (py_or quote (PDict [])) "regularMarketPrice" "currentPrice"
      = Ok live_current ->
    live_field (py_or quote (PDict [])) "regularMarketPreviousClose" "previousClose"
      = Ok live_prev ->
    is_none live_current = false ->
    is_none live_prev = false ->
    get_price_and_change P ticker = get_price_and_change P' ticker /\
    get_price_and_change P ticker =
      try_except (snapshot_of live_prev live_current) (fun _ => Ok all_null).
Proof.
  intros rt P P' ticker info history history' quote live_prev live_current
    Hs Hs' -> Hc Hp Hnc Hnp.
  assert (Hq : forall Q h, yf_Ticker Q ticker = Ok (Stock (Ok quote) h) ->
                 get_price_and_change Q ticker =
                 try_except (snapshot_of live_prev live_current) (fun _ => Ok all_null)).
  { intros Q h HQ.
    assert (Hquote : quote_of Q ticker live_prev live_current []).
    { exists (Stock (Ok quote) h), quote. repeat split; try assumption.
      rewrite Hnc, Hnp. discriminate. }
    rewrite (get_price_and_change_resolved Hquote).
    unfold resolve. now rewrite !fill_live by assumption. }
  rewrite (Hq P history Hs), (Hq P' history' Hs'). now split.
Qed.

(** A live quote; the history of the first provider cannot be read. *)
Lemma live_prices_skip_history_witness :
  @get_price_and_change example_runtime
    (live_quote (fun _ => Raise (Exn ExternalError "timeout"))) "ACME" =
  @get_price_and_change example_runtime (live_quote (fun _ => Ok None)) "ACME".
Proof.
  refine (proj1 (@live_prices_skip_history example_runtime
                   (live_quote (fun _ => Raise (Exn ExternalError "timeout")))
                   (live_quote (fun _ => Ok None)) "ACME" _ _ _ _
                   (PFloat 10) (PFloat 12) eq_refl eq_refl eq_refl eq_refl eq_refl
                   eq_refl eq_refl)).
Defined.

(** ** The current price *)

Section CurrentPrice.
Context {rt : Runtime}.
Variable P : provider.
Variable fast_info_of : stock -> result fast_info.
Variable ticker : string.

Lemma current_price_live (s : stock) (quote live_current : pyval) :
  yf_Ticker P ticker = Ok s ->
  stock_info s = Ok quote ->
  live_field (py_or quote (PDict [])) "regularMarketPrice" "currentPrice"
    = Ok live_current ->
  is_none live_current = false ->
  get_current_price P fast_info_of ticker =
    Ok (match py_float live_current with
        | Ok c => Some c
        | Raise _ => None
        end).
Proof.
  intros Hs Hi Hc Hn. unfold get_current_price, current_price_body.
  rewrite Hs. cbn [bind]. rewrite Hi. cbn [bind]. cbv zeta.
  rewrite Hc. cbn [bind]. rewrite Hn. cbn [bind negb]. rewrite Hn. cbn [negb].
  destruct (py_float live_current); reflexivity.
Qed.

Lemma price_and_change_current (s : stock) (quote live_current : pyval)
  (snap : price_snapshot) (c : float) :
  yf_Ticker P ticker = Ok s ->
  stock_info s = Ok quote ->
  live_field (py_or quote (PDict [])) "regularMarketPrice" "currentPrice"
    = Ok live_current ->
  is_none live_current = false ->
  get_price_and_change P ticker = Ok snap ->
  current_price snap = Some c ->
  py_float live_current = Ok c.
Proof.
  intros Hs Hi Hc Hn Hsnap Hcur. unfold get_price_and_change in Hsnap.
  destruct (price_and_change_body P ticker) as [snap' |] eqn:Hb; cbn in Hsnap;
    injection Hsnap as <-; [| discriminate Hcur].
  unfold price_and_change_body in Hb.
  rewrite Hs in Hb. cbn [bind] in Hb. rewrite Hi in Hb. cbn [bind] in Hb.
  cbv zeta in Hb. rewrite Hc in Hb. cbn [bind] in Hb.
  inv_bind Hb. inv_bind Hb.
  assert (Hkeep : snd x0 = live_current).
  { rewrite Hn in Hx0. cbn [orb] in Hx0.
    destruct (is_none x) eqn:Hp.
    - inv_bind Hx0. destruct x0 as [prev' current'].
      now destruct (history_fallback_keeps _ _ _ Hx0) as [_ Hk]; apply Hk.
    - now injection Hx0 as <-. }
  rewrite Hkeep in Hb.
  destruct (snapshot_of_cases _ _ Hb)
    as [-> | (c' & Hf & _ & [-> | (p & _ & ->)])];
    [discriminate Hcur | |]; cbn in Hcur; now injection Hcur as <-.
Qed.

End CurrentPrice.

(** X12: a live current price decides [get_current_price], whatever the
    fast quote and the history are, and it is the current price that
    [get_price_and_change] reports: the two adapters agree on it. *)
Theorem current_price_agrees :
  forall (rt : Runtime) (P : provider) (fast_info_of : stock -> result fast_info)
         (ticker : string) (s : stock) (quote live_current : pyval),
    yf_Ticker P ticker = Ok s ->
    stock_info s = Ok quote ->
    live_field (py_or quote (PDict [])) "regularMarketPrice" "currentPrice"
      = Ok live_current ->
    is_none live_current = false ->
    get_current_price P fast_info_of ticker =
      Ok (match py_float live_current with
          | Ok c => Some c
          | Raise _ => None
          end) /\
    (forall (snap : price_snapshot) (c : float),
       get_price_and_change P ticker = Ok snap ->
       current_price snap = Some c ->
       get_current_price P fast_info_of ticker = Ok (Some c)).
Proof.
  intros rt P fast_info_of ticker s quote live_current Hs Hi Hc Hn.
  pose proof (@current_price_live rt P fast_info_of ticker s quote live_current
                Hs Hi Hc Hn) as Hlive.
  split; [exact Hlive |].
  intros snap c Hsnap Hcur.
  now rewrite Hlive,
    (@price_and_change_current rt P ticker s quote live_current snap c
       Hs Hi Hc Hn Hsnap Hcur).
Qed.

Lemma current_price_agrees_witness :
  @get_current_price example_runtime (live_quote (fun _ => Ok None))
    (fun _ => Raise (Exn ExternalError "no fast quote")) "ACME" = Ok (Some 12%float).
Proof.
  destruct (@current_price_agrees example_runtime (live_quote (fun _ => Ok None))
              (fun _ => Raise (Exn ExternalError "no fast quote")) "ACME"
              _ _ (PFloat 12) eq_refl eq_refl eq_refl eq_refl) as [_ Hagree].
  apply (Hagree (Snapshot (Some 12%float) (Some 10%float) (Some 2%float)
                   (Some 20%float)) 12%float); reflexivity.
Defined.

Lemma frame_column_nonempty (h : frame) (c : string) (init : list float) (last : float) :
  frame_column h c = Ok (Column (init ++ [last])) -> frame_empty h = false.
Proof.
  destruct (frame_column_cases h c) as [[_ H] | [(Hc & _ & H) | (_ & _ & H)]];
    rewrite H; intros [= Hcol].
  unfold has_column in Hc. unfold frame_empty.
  destruct (rows h); [now destruct init |].
  destruct (columns h); [discriminate Hc | reflexivity].
Qed.

(** X13: without a live current price, [get_current_price] asks the fast
    quote and then the two-day history: a fast price that is not null is
    the answer; without one the answer is the last close of the history,
    and null when there is no history or it is empty; and if reading the
    fast quote raises anything but [AttributeError], the answer is null
    and the history is not asked. *)
Theorem current_price_fallbacks :
  forall (rt : Runtime) (P : provider) (fast_info_of : stock -> result fast_info)
         (ticker : string) (s : stock) (quote : pyval),
    yf_Ticker P ticker = Ok s ->
    stock_info s = Ok quote ->
    live_field (py_or quote (PDict [])) "regularMarketPrice" "currentPrice"
      = Ok PNone ->
    (forall kind message,
       fast_info_of s = Raise (Exn kind message) -> kind <> AttributeError ->
       get_current_price P fast_info_of ticker = Ok None) /\
    (forall (fast : fast_info) (v : pyval),
       getattr_default (fast_info_of s) (FastValue PNone) = Ok fast ->
       fast_truthy fast = true -> fast_last_price fast = Ok v -> is_none v = false ->
       get_current_price P fast_info_of ticker =
         Ok (match py_float v with
             | Ok c => Some c
             | Raise _ => None
             end)) /\
    (forall fast : fast_info,
       getattr_default (fast_info_of s) (FastValue PNone) = Ok fast ->
       fast_truthy fast = false \/ fast_last_price fast = Ok PNone ->
       (forall (h : frame) (init : list float) (last : float),
          stock_history s "2d" = Ok (Some h) ->
          frame_column h "Close" = Ok (Column (init ++ [last])) ->
          get_current_price P fast_info_of ticker = Ok (Some last)) /\
       (forall h : frame,
          stock_history s "2d" = Ok (Some h) -> frame_empty h = true ->
          get_current_price P fast_info_of ticker = Ok None) /\
       (stock_history s "2d" = Ok None ->
        get_current_price P fast_info_of ticker = Ok None)).
Proof.
  intros rt P fast_info_of ticker s quote Hs Hi Hc.
  assert (Hstart : get_current_price P fast_info_of ticker =
            try_except
              (price <-
                 (fast <- getattr_default (fast_info_of s) (FastValue PNone) ;;
                  if fast_truthy fast then fast_last_price fast else Ok PNone) ;;
               if negb (is_none price) then (f <- py_float price ;; Ok (Some f))
               else
                 (hist <- stock_history s "2d" ;;
                  match hist with
                  | Some h =>
                      if negb (frame_empty h) then
                        (column <- frame_column h "Close" ;;
                         x <- float_iloc column (-1) ;;
                         Ok (Some x))
                      else Ok None
                  | None => Ok None
                  end))
              (fun _ => Ok None)).
  { unfold get_current_price, current_price_body.
    rewrite Hs. cbn [bind]. rewrite Hi. cbn [bind]. cbv zeta.
    rewrite Hc. reflexivity. }
  rewrite Hstart. clear Hstart. split; [| split].
  - intros kind message Hf Hk. rewrite Hf.
    destruct kind; try reflexivity. now contradiction Hk.
  - intros fast v Hf Ht Hv Hn. rewrite Hf. cbn [bind]. rewrite Ht, Hv.
    cbn [bind]. rewrite Hn. cbn [negb]. destruct (py_float v); reflexivity.
  - intros fast Hf Hno. rewrite Hf. cbn [bind].
    assert (Hprice : (if fast_truthy fast then fast_last_price fast else Ok PNone)
                     = Ok PNone).
    { destruct Hno as [-> | Hv]; [reflexivity |].
      destruct (fast_truthy fast); [exact Hv | reflexivity]. }
    rewrite Hprice. cbn [bind is_none negb]. split; [| split].
    + intros h init last Hh Hcol. rewrite Hh. cbn [bind].
      rewrite (frame_column_nonempty _ _ _ _ Hcol). cbn [negb].
      rewrite Hcol. cbn [bind]. unfold float_iloc, iloc. now rewrite seq_index_last.
    + intros h Hh He. rewrite Hh. cbn [bind]. now rewrite He.
    + intros Hh. now rewrite Hh.
Qed.

(** No live price and no fast quote; the two-day history closes at 8.0
    and then at 9.5. *)
Lemma current_price_fallbacks_witness :
  @get_current_price example_runtime (history_only [8; 9.5]%float)
    (fun _ => Raise (Exn AttributeError "no attribute 'fast_info'")) "ACME" =
  Ok (Some 9.5%float).
Proof.
  destruct (@current_price_fallbacks example_runtime (history_only [8; 9.5]%float)
              (fun _ => Raise (Exn AttributeError "no attribute 'fast_info'")) "ACME"
              _ _ eq_refl eq_refl eq_refl) as (_ & _ & Hhist).
  destruct (Hhist (FastValue PNone) eq_refl (or_introl eq_refl)) as (Hlast & _ & _).
  apply (Hlast (closes_frame [8; 9.5]%float) [8%float] 9.5%float); reflexivity.
Defined.


(** ** More on the profile *)

(** X14: for an info that is a dictionary, the profile is [None] exactly
    when the market cap cannot be rendered with thousands separators: a
    market cap that is present but null (or a string, or a container)
    costs the whole profile, whatever the other fields are. *)
Theorem profile_lost_on_unformattable_cap :
  forall (rt : Runtime) (P : provider) (ticker : string) (s : stock)
         (info : list (string * pyval)),
    yf_Ticker P ticker = Ok s ->
    stock_info s = Ok (PDict info) ->
    (get_company_info P ticker = Ok PNone <->
     match dict_get info "marketCap" (PInt 0) with
     | PInt _ | PBool _ | PFloat _ => False
     | _ => True
     end) /\
    (dict_lookup info "marketCap" = Some PNone ->
     get_company_info P ticker = Ok PNone).
Proof.
  intros rt P ticker s info Hs Hi.
  assert (Hrun : get_company_info P ticker =
            match py_format_grouped (dict_get info "marketCap" (PInt 0)) with
            | Ok cap_text =>
                Ok (PDict [("Company Name", dict_get info "longName" (PStr "N/A"));
                           ("Sector", dict_get info "sector" (PStr "N/A"));
                           ("Market Cap", PStr (String.append "$" cap_text));
                           ("Business Summary",
                            dict_get info "longBusinessSummary" (PStr "N/A"))])
            | Raise _ => Ok PNone
            end).
  { unfold get_company_info, dict_get. rewrite Hs. cbn [bind]. rewrite Hi.
    cbn [bind py_get].
    destruct (dict_lookup info "longName"); destruct (dict_lookup info "sector");
      destruct (dict_lookup info "marketCap"); cbn [bind];
      match goal with
      | |- context [py_format_grouped ?v] => destruct (py_format_grouped v)
      end; cbn [bind try_except]; try reflexivity;
      destruct (dict_lookup info "longBusinessSummary"); reflexivity. }
  rewrite Hrun. split.
  - destruct (dict_get info "marketCap" (PInt 0)); cbn;
      split; intros H; try discriminate H; try contradiction; auto.
  - intros Hcap. unfold dict_get. rewrite Hcap. reflexivity.
Qed.

Lemma profile_lost_on_unformattable_cap_witness :
  @get_company_info example_runtime
    (Provider (fun _ => Ok (Stock (Ok (PDict [("longName", PStr "Acme Corp");
                                               ("marketCap", PNone)]))
                                  (fun _ => Ok None)))
              (fun _ => Ok (PList []))
              (Raise (Exn ExternalError "model not available")))
    "ACME" = Ok PNone.
Proof.
  refine (proj2 (@profile_lost_on_unformattable_cap example_runtime
                   (Provider (fun _ => Ok (Stock (Ok (PDict [("longName", PStr "Acme Corp");
                                                              ("marketCap", PNone)]))
                                                 (fun _ => Ok None)))
                             (fun _ => Ok (PList []))
                             (Raise (Exn ExternalError "model not available")))
                   "ACME" _ _ eq_refl eq_refl) eq_refl).
Defined.

(** ** When the serialization raises *)

(** X15: for a fetched history, the service answers with the error
    dictionary exactly when the index is naive, or one of the labels
    Open, High, Low, Close, Volume is on several columns, or a volume
    among the last 180 rows is NaN or infinite; the prices themselves
    never cause it. *)
Theorem error_dict_iff :
  forall (rt : Runtime) (P : provider) (ticker : string) (h : frame),
    get_stock_data P ticker "5y" = Ok (Some h) ->
    ((exists message, get_company_data (Some P) ticker = Ok (ErrorDict message)) <->
     index_zone h = None \/
     label_repeated h = true \/
     exists row, In row (rows (frame_tail 180 h)) /\
                 has_column h "Volume" = true /\
                 is_finite (snd row "Volume") = false).
Proof.
  intros rt P ticker h Hd.
  destruct (error_dict_when_serialization_raises rt P ticker Hd) as [Hrows ->].
  rewrite (serialize_history_raises_iff rt h). tauto.
Qed.

(** A day whose volume is missing. *)
Lemma error_dict_iff_witness :
  exists message,
    @get_company_data example_runtime (Some (with_history nan_volume_history))
      "ACME" = Ok (ErrorDict message).
Proof.
  apply (proj2 (@error_dict_iff example_runtime (with_history nan_volume_history)
                  "ACME" nan_volume_history eq_refl)).
  right. right. eexists. split; [left; reflexivity |]. split; reflexivity.
Defined.

(** X16: a served point carries, for every price column its history
    has, the cell as it is (a NaN stays a NaN) except that a zero of
    either sign is served as 0.0, and for the volume the integer part of
    the cell. *)
Theorem serialized_cells :
  forall (rt : Runtime) (h : frame) (points : list history_point),
    serialize_history h = Ok points ->
    Forall2 (point_serves_row h) (rows (frame_tail 180 h)) points.
Proof.
  intros rt h points. unfold serialize_history, tz_convert_none.
  cbn [frame_tail index_zone columns rows].
  destruct (index_zone h); [| discriminate]. cbn [bind rows].
  intros H. exact (@serialize_rows_serve _ _ _ _ H).
Qed.

(** Two days with a Close column and a volume of 101.5. *)
Lemma serialized_cells_witness :
  Forall2 (point_serves_row (daily_history ["Close"; "Volume"] 2))
    (rows (frame_tail 180 (daily_history ["Close"; "Volume"] 2)))
    [HistoryPoint "2024-01-02T05:00:00" 0 0 0 101.5 101;
     HistoryPoint "2024-01-02T05:00:00" 0 0 0 101.5 101].
Proof.
  apply (@serialized_cells example_runtime). vm_compute. reflexivity.
Defined.

(** X17: what [get_company_data] answers for an imported adapter: the
    error dictionary, or the four keys.  In the four keys the profile is
    the adapter's, the price is the adapter's snapshot and never null,
    and history and history_head are null together or there together;
    when they are there, history_head holds the first rows of the fetched
    history, five at most, and the history is not empty. *)
Theorem company_data_answers :
  forall (rt : Runtime) (P : provider) (ticker : string),
    exists (profile : pyval) (snap : price_snapshot),
      get_company_info P ticker = Ok profile /\
      get_price_and_change P ticker = Ok snap /\
      ((exists message, get_company_data (Some P) ticker = Ok (ErrorDict message)) \/
       (get_stock_data P ticker "5y" = Ok None /\
        get_company_data (Some P) ticker =
          Ok (CompanyData profile None None (Some snap))) \/
       (exists (h : frame) (points : list history_point),
          get_stock_data P ticker "5y" = Ok (Some h) /\
          get_company_data (Some P) ticker =
            Ok (CompanyData profile (Some (frame_head 5 h)) (Some points) (Some snap)) /\
          rows (frame_head 5 h) = firstn 5 (rows h) /\
          (List.length (rows (frame_head 5 h)) <= 5)%nat /\
          rows h <> [] /\
          points <> [])).
Proof.
  intros rt P ticker.
  destruct (company_data_body_cases P ticker)
    as (profile & snap & Hp & Hs & [[Hd Hb] | (h & Hd & Hb)]);
    exists profile, snap; (split; [exact Hp |]); (split; [exact Hs |]);
    unfold get_company_data; rewrite Hb.
  - right. left. now split.
  - destruct (serialize_history h) as [points | e] eqn:Hser; cbn [bind try_except].
    + right. right. exists h, points.
      split; [exact Hd |]. split; [reflexivity |]. split; [reflexivity |].
      split; [cbn [frame_head rows]; rewrite length_firstn; lia |].
      destruct (get_stock_data_total P ticker "5y") as [Hnone | (h' & Hd' & He)];
        [rewrite Hd in Hnone; discriminate Hnone |].
      rewrite Hd in Hd'. injection Hd' as <-.
      destruct (@frame_not_empty _ He) as [Hrows _].
      split; [exact Hrows |].
      destruct (@serialize_history_shape rt h points Hser) as [_ Hlen].
      intros ->. cbn in Hlen. destruct (rows h); [now apply Hrows | discriminate Hlen].
    + left. eauto.
Qed.


(** ** The views *)

Section ViewProperties.
Variable str_upper : string -> string.
Context {rt : Runtime}.

Lemma get_company_info_shape (P : provider) (ticker : string) (profile : pyval) :
  get_company_info P ticker = Ok profile ->
  profile = PNone \/ exists d, profile = PDict d /\ d <> [].
Proof.
  unfold get_company_info.
  match goal with |- try_except ?b _ = _ -> _ => destruct b as [v |] eqn:Hb end;
    cbn [try_except]; intros [= <-]; [| now left].
  right. inv_bind Hb. inv_bind Hb. inv_bind Hb. inv_bind Hb. inv_bind Hb.
  inv_bind Hb. inv_bind Hb. injection Hb as <-.
  eexists. split; [reflexivity | discriminate].
Qed.

(** What the service hands to the views. *)
Lemma get_company_data_shape (data_ingestion : option provider) (ticker : string) :
  exists cd : company_data,
    get_company_data data_ingestion ticker = Ok cd /\
    (data_profile cd = PNone \/ exists d, data_profile cd = PDict d /\ d <> []) /\
    (forall points, data_history cd = Some points -> points <> []).
Proof.
  destruct data_ingestion as [P |]; cbn [get_company_data].
  2:{ exists NameNone. split; [reflexivity |]. split; [now left | discriminate]. }
  destruct (company_data_body_cases P ticker)
    as (profile & snap & Hp & _ & [[_ Hb] | (h & Hd & Hb)]); rewrite Hb.
  - eexists. split; [reflexivity |]. cbn.
    split; [exact (get_company_info_shape _ _ Hp) | discriminate].
  - destruct (serialize_history h) as [points | e] eqn:Hser; cbn [bind try_except].
    + eexists. split; [reflexivity |]. cbn.
      split; [exact (get_company_info_shape _ _ Hp) |].
      intros points' [= <-].
      destruct (get_stock_data_total P ticker "5y") as [Hnone | (h' & Hd' & He)];
        [rewrite Hd in Hnone; discriminate Hnone |].
      rewrite Hd in Hd'. injection Hd' as <-.
      destruct (@serialize_history_shape rt h points Hser) as [_ Hlen].
      intros ->. cbn in Hlen. unfold frame_empty in He.
      destruct (rows h); [discriminate He | discriminate Hlen].
    + eexists. split; [reflexivity |]. cbn. split; [now left | discriminate].
Qed.

Lemma analyze_news_total (data_ingestion : option provider) (available : bool)
  (ticker : string) :
  exists news, analyze_news_for_ticker data_ingestion available ticker = Ok news.
Proof.
  unfold analyze_news_for_ticker. destruct data_ingestion as [P |]; [| eauto].
  destruct available; cbn [negb]; [| eauto].
  match goal with |- context [try_except ?b _] => destruct b end; cbn; eauto.
Qed.

(** The view [analyze] answers, with the price fields of the service. *)
Lemma analyze_answers (data_ingestion : option provider) (available : bool)
  (query : option string) :
  exists (cd : company_data) (a : analyze_response),
    get_company_data data_ingestion (request_ticker str_upper query) = Ok cd /\
    analyze str_upper data_ingestion available query = Ok a /\
    analyze_ticker a = request_ticker str_upper query /\
    analyze_news_for_ticker data_ingestion available (request_ticker str_upper query)
      = Ok (analyze_news a) /\
    analyze_history a = data_history cd /\
    company_current_price (analyze_company a) = price_field (data_price cd) current_price /\
    company_previous_close (analyze_company a) = price_field (data_price cd) previous_close /\
    company_change (analyze_company a) = price_field (data_price cd) change /\
    company_change_pct (analyze_company a) = price_field (data_price cd) change_pct /\
    (news_available a = true <-> analyze_news a <> []) /\
    (history_available a = true <-> analyze_history a <> None).
Proof.
  destruct (get_company_data_shape data_ingestion (request_ticker str_upper query))
    as (cd & Hcd & Hprof & Hhist).
  destruct (analyze_news_total data_ingestion available (request_ticker str_upper query))
    as [news Hnews].
  exists cd. unfold analyze. cbv zeta. rewrite Hcd. cbn [bind].
  assert (Hnamed : exists named,
            (if py_truthy (data_profile cd) then
               (name <- py_get (data_profile cd) "Company Name" PNone ;;
                sector <- py_get (data_profile cd) "Sector" PNone ;;
                cap <- py_get (data_profile cd) "Market Cap" PNone ;;
                summary <- py_get (data_profile cd) "Business Summary" PNone ;;
                Ok (name, sector, cap, summary))
             else Ok (PNone, PNone, PNone, PNone)) = Ok named).
  { destruct Hprof as [-> | (d & -> & Hd)]; [cbn; eauto |].
    destruct d as [| kv d]; [now contradiction Hd |]. cbn [py_truthy py_get].
    destruct (dict_lookup (kv :: d) "Company Name");
      destruct (dict_lookup (kv :: d) "Sector");
      destruct (dict_lookup (kv :: d) "Market Cap");
      destruct (dict_lookup (kv :: d) "Business Summary"); cbn [bind]; eauto. }
  destruct Hnamed as [[[[name sector] cap] summary] Hnamed].
  rewrite Hnamed. cbn [bind]. rewrite Hnews. cbn [bind].
  eexists. split; [reflexivity |]. cbn.
  repeat split; try reflexivity; try assumption.
  - destruct news; [discriminate | discriminate].
  - destruct news; [intros H; now contradiction H | reflexivity].
  - destruct (data_history cd) as [[| pt pts] |]; discriminate.
  - destruct (data_history cd) as [[| pt pts] |] eqn:Hh; try reflexivity.
    + intros _. exfalso. now apply (Hhist [] eq_refl).
    + intros H. now contradiction H.
Qed.

End ViewProperties.

(** X18: the two views always answer, for the same ticker, and the four
    price fields of [/price] are the four price fields of the company
    object of [/analyze]. *)
Theorem views_agree_on_price :
  forall (str_upper : string -> string) (rt : Runtime)
         (data_ingestion : option provider) (available : bool)
         (query : option string),
    exists (a : analyze_response) (p : price_response),
      analyze str_upper data_ingestion available query = Ok a /\
      price str_upper data_ingestion query = Ok p /\
      price_ticker p = analyze_ticker a /\
      price_current_price p = company_current_price (analyze_company a) /\
      price_previous_close p = company_previous_close (analyze_company a) /\
      price_change p = company_change (analyze_company a) /\
      price_change_pct p = company_change_pct (analyze_company a).
Proof.
  intros str_upper rt data_ingestion available query.
  destruct (analyze_answers str_upper data_ingestion available query)
    as (cd & a & Hcd & Ha & Ht & _ & _ & Hc & Hp & Hch & Hpct & _).
  exists a. unfold price. cbv zeta. rewrite Hcd. cbn [bind].
  eexists. split; [exact Ha |]. split; [reflexivity |]. cbn.
  now rewrite Ht, Hc, Hp, Hch, Hpct.
Qed.

(** X19: [/analyze] always answers; its news are the service's news and
    its history the service's history; [news_available] says exactly that
    the news are not empty and [history_available] exactly that the
    history is not null. *)
Theorem analyze_flags :
  forall (str_upper : string -> string) (rt : Runtime)
         (data_ingestion : option provider) (available : bool)
         (query : option string),
    exists (cd : company_data) (a : analyze_response),
      analyze str_upper data_ingestion available query = Ok a /\
      get_company_data data_ingestion (request_ticker str_upper query) = Ok cd /\
      analyze_news_for_ticker data_ingestion available (request_ticker str_upper query)
        = Ok (analyze_news a) /\
      analyze_history a = data_history cd /\
      (news_available a = true <-> analyze_news a <> []) /\
      (history_available a = true <-> analyze_history a <> None).
Proof.
  intros str_upper rt data_ingestion available query.
  destruct (analyze_answers str_upper data_ingestion available query)
    as (cd & a & Hcd & Ha & _ & Hn & Hh & _ & _ & _ & _ & Hna & Hha).
  exists cd, a. repeat split; try assumption; try apply Hna; apply Hha.
Qed.

(** X20: when the provider refuses the ticker and there are no news, the
    two views still answer: every company field and every price field is
    null, the news are empty and not available, the history is null and
    not available. *)
Theorem views_degrade :
  forall (str_upper : string -> string) (rt : Runtime) (P : provider)
         (available : bool) (query : option string) (e : exn),
    yf_Ticker P (request_ticker str_upper query) = Raise e ->
    get_stock_news P (request_ticker str_upper query) = Ok [] ->
    analyze str_upper (Some P) available query =
      Ok (AnalyzeResponse (request_ticker str_upper query)
            (CompanyFields PNone PNone PNone PNone None None None None)
            [] false None false) /\
    price str_upper (Some P) query =
      Ok (PriceResponse (request_ticker str_upper query) None None None None).
Proof.
  intros str_upper rt P available query e Ht Hnews.
  assert (Hcd : get_company_data (Some P) (request_ticker str_upper query) =
                Ok (CompanyData PNone None None (Some all_null))).
  { unfold get_company_data, company_data_body, get_company_info, get_stock_data,
      get_price_and_change, price_and_change_body.
    rewrite Ht. reflexivity. }
  unfold analyze, price. cbv zeta. rewrite Hcd. cbn [bind data_profile py_truthy].
  split; [| reflexivity].
  unfold analyze_news_for_ticker. rewrite Hnews.
  destruct available; reflexivity.
Qed.

Lemma views_degrade_witness :
  @analyze (fun t => t) example_runtime (Some unreachable) true (Some "ACME") =
    Ok (AnalyzeResponse "ACME"
          (CompanyFields PNone PNone PNone PNone None None None None)
          [] false None false) /\
  @price (fun t => t) example_runtime (Some unreachable) (Some "ACME") =
    Ok (PriceResponse "ACME" None None None None).
Proof.
  exact (@views_degrade (fun t => t) example_runtime unreachable true (Some "ACME")
           (Exn ExternalError "connection refused") eq_refl eq_refl).
Defined.

(** ** The market cap reads back *)

Lemma ungroup_group (digits : string) :
  no_comma digits = true -> ungroup (group_thousands digits) = digits.
Proof.
  induction digits as [| c rest IH]; [reflexivity |].
  cbn [no_comma group_thousands]. intros H.
  apply andb_true_iff in H. destruct H as [Hc Hrest].
  apply negb_true_iff in Hc. cbn [ungroup]. rewrite Hc.
  destruct (Nat.eqb (String.length rest mod 3) 0 && negb (Nat.eqb (String.length rest) 0))%nat;
    cbn [ungroup Ascii.eqb]; now rewrite ?Ascii.eqb_refl, IH.
Qed.

Lemma group_count (n : nat) :
  ((if Nat.eqb (n mod 3) 0 && negb (Nat.eqb n 0) then 1 else 0) + (n - 1) / 3 = n / 3)%nat.
Proof.
  pose proof (Nat.div_mod_eq n 3) as Hn.
  pose proof (Nat.div_mod_eq (n - 1) 3) as Hp.
  assert (H3 : (3 <> 0)%nat) by lia.
  pose proof (Nat.mod_upper_bound n 3 H3) as Bn.
  pose proof (Nat.mod_upper_bound (n - 1) 3 H3) as Bp.
  destruct (Nat.eqb_spec (n mod 3) 0) as [Em | Em];
    destruct (Nat.eqb_spec n 0) as [Ez | Ez]; cbn [andb negb];
    remember (n / 3)%nat as a; remember ((n - 1) / 3)%nat as b;
    remember (n mod 3)%nat as r; remember ((n - 1) mod 3)%nat as q; lia.
Qed.

Lemma group_length (digits : string) :
  String.length (group_thousands digits) =
    (String.length digits + (String.length digits - 1) / 3)%nat.
Proof.
  induction digits as [| c rest IH]; [reflexivity |].
  cbn [group_thousands String.length].
  replace (S (String.length rest) - 1)%nat with (String.length rest) by lia.
  rewrite <- (group_count (String.length rest)).
  destruct (Nat.eqb (String.length rest mod 3) 0 && negb (Nat.eqb (String.length rest) 0))%nat;
    cbn [String.length]; rewrite IH; lia.
Qed.

Lemma digits_no_comma (d : Decimal.uint) : no_comma (NilEmpty.string_of_uint d) = true.
Proof. induction d; cbn; auto. Qed.

Lemma decimal_no_comma (n : N) : no_comma (NilZero.string_of_uint (N.to_uint n)) = true.
Proof.
  unfold NilZero.string_of_uint.
  destruct (N.to_uint n); try reflexivity; apply digits_no_comma.
Qed.

Lemma decimal_reads_back (n : N) :
  option_map N.of_uint (NilZero.uint_of_string (NilZero.string_of_uint (N.to_uint n)))
    = Some n.
Proof.
  destruct (N.to_uint n) as [| d | d | d | d | d | d | d | d | d | d] eqn:E;
    try (rewrite NilZero.usu by discriminate; cbn [option_map];
         rewrite <- E; now rewrite DecimalN.Unsigned.of_to).
  cbn. f_equal. rewrite <- (DecimalN.Unsigned.of_to n), E. reflexivity.
Qed.

(** The profile of an info that is a dictionary. *)
Lemma get_company_info_run (rt : Runtime) (P : provider) (ticker : string) (s : stock)
  (info : list (string * pyval)) :
  yf_Ticker P ticker = Ok s ->
  stock_info s = Ok (PDict info) ->
  get_company_info P ticker =
    match py_format_grouped (dict_get info "marketCap" (PInt 0)) with
    | Ok cap_text =>
        Ok (PDict [("Company Name", dict_get info "longName" (PStr "N/A"));
                   ("Sector", dict_get info "sector" (PStr "N/A"));
                   ("Market Cap", PStr (String.append "$" cap_text));
                   ("Business Summary",
                    dict_get info "longBusinessSummary" (PStr "N/A"))])
    | Raise _ => Ok PNone
    end.
Proof.
  intros Hs Hi. unfold get_company_info, dict_get. rewrite Hs. cbn [bind].
  rewrite Hi. cbn [bind py_get].
  destruct (dict_lookup info "longName"); destruct (dict_lookup info "sector");
    destruct (dict_lookup info "marketCap"); cbn [bind];
    match goal with
    | |- context [py_format_grouped ?v] => destruct (py_format_grouped v)
    end; cbn [bind try_except]; try reflexivity;
    destruct (dict_lookup info "longBusinessSummary"); reflexivity.
Qed.

(** X21: for a market cap that is a natural number, the profile's
    market cap is "$" and the decimal digits in groups of three: without
    the separators the text reads back as the provider's number, and it
    has one separator for every three digits but the leading ones. *)
Theorem market_cap_reads_back :
  forall (rt : Runtime) (P : provider) (ticker : string) (s : stock)
         (info : list (string * pyval)) (n : N),
    yf_Ticker P ticker = Ok s ->
    stock_info s = Ok (PDict info) ->
    dict_lookup info "marketCap" = Some (PInt (Z.of_N n)) ->
    exists (profile : list (string * pyval)) (text : string),
      get_company_info P ticker = Ok (PDict profile) /\
      dict_lookup profile "Market Cap" = Some (PStr (String "$" text)) /\
      read_grouped text = Some n /\
      String.length text =
        (String.length (ungroup text) + (String.length (ungroup text) - 1) / 3)%nat.
Proof.
  intros rt P ticker s info n Hs Hi Hcap.
  rewrite (@get_company_info_run rt P ticker s info Hs Hi).
  unfold dict_get at 1. rewrite Hcap.
  cbn [py_format_grouped]. unfold format_int_grouped.
  replace (Z.of_N n <? 0) with false by (symmetry; apply Z.ltb_ge; lia).
  rewrite Zabs2N.id. cbn [String.append].
  eexists. eexists. split; [reflexivity |]. split; [reflexivity |].
  unfold read_grouped.
  rewrite (@ungroup_group _ (decimal_no_comma n)).
  split; [apply decimal_reads_back | apply group_length].
Qed.

Lemma market_cap_reads_back_witness :
  exists (profile : list (string * pyval)) (text : string),
    @get_company_info example_runtime
      (Provider (fun _ => Ok (Stock (Ok (PDict [("marketCap", PInt 2800000000000)]))
                                    (fun _ => Ok None)))
                (fun _ => Ok (PList []))
                (Raise (Exn ExternalError "model not available")))
      "ACME" = Ok (PDict profile) /\
    dict_lookup profile "Market Cap" = Some (PStr (String "$" text)) /\
    read_grouped text = Some 2800000000000%N /\
    String.length text =
      (String.length (ungroup text) + (String.length (ungroup text) - 1) / 3)%nat.
Proof.
  exact (@market_cap_reads_back example_runtime
           (Provider (fun _ => Ok (Stock (Ok (PDict [("marketCap", PInt 2800000000000)]))
                                         (fun _ => Ok None)))
                     (fun _ => Ok (PList []))
                     (Raise (Exn ExternalError "model not available")))
           "ACME" _ _ 2800000000000%N eq_refl eq_refl eq_refl).
Defined.


(** ** From the provider's info to the company of [/analyze] *)

(** X22: when the provider's info is a dictionary whose market cap can
    be rendered, the company object of [/analyze] carries the provider's
    name, sector and business summary (or "N/A" where the key is absent)
    and the rendered market cap, unless the service answered with the
    error dictionary: then the profile is lost and the four fields are
    null. *)
Theorem analyze_company_fields :
  forall (str_upper : string -> string) (rt : Runtime) (P : provider)
         (available : bool) (query : option string) (s : stock)
         (info : list (string * pyval)) (cap_text : string),
    yf_Ticker P (request_ticker str_upper query) = Ok s ->
    stock_info s = Ok (PDict info) ->
    py_format_grouped (dict_get info "marketCap" (PInt 0)) = Ok cap_text ->
    exists a : analyze_response,
      analyze str_upper (Some P) available query = Ok a /\
      ((exists message,
          get_company_data (Some P) (request_ticker str_upper query)
            = Ok (ErrorDict message)) /\
       company_name (analyze_company a) = PNone /\
       company_sector (analyze_company a) = PNone /\
       company_market_cap (analyze_company a) = PNone /\
       company_business_summary (analyze_company a) = PNone
       \/
       company_name (analyze_company a) = dict_get info "longName" (PStr "N/A") /\
       company_sector (analyze_company a) = dict_get info "sector" (PStr "N/A") /\
       company_market_cap (analyze_company a) = PStr (String.append "$" cap_text) /\
       company_business_summary (analyze_company a)
         = dict_get info "longBusinessSummary" (PStr "N/A")).
Proof.
  intros str_upper rt P available query s info cap_text Hs Hi Hcap.
  pose proof (@get_company_info_run rt P _ s info Hs Hi) as Hprofile.
  rewrite Hcap in Hprofile.
  destruct (analyze_news_total (Some P) available (request_ticker str_upper query))
    as [news Hnews].
  unfold analyze. cbv zeta.
  destruct (company_data_body_cases P (request_ticker str_upper query))
    as (profile & snap & Hp & _ & [[_ Hb] | (h & _ & Hb)]);
    rewrite Hprofile in Hp; injection Hp as <-;
    unfold get_company_data; rewrite Hb.
  - cbn [try_except bind data_profile py_truthy py_get dict_lookup String.eqb
         Ascii.eqb Bool.eqb].
    rewrite Hnews. cbn [bind]. eexists. split; [reflexivity |].
    right. cbn. repeat split.
  - destruct (serialize_history h) as [points | e]; cbn [bind try_except].
    + cbn [data_profile py_truthy py_get dict_lookup String.eqb Ascii.eqb Bool.eqb bind].
      rewrite Hnews. cbn [bind]. eexists. split; [reflexivity |].
      right. cbn. repeat split.
    + cbn [data_profile py_truthy bind]. rewrite Hnews. cbn [bind].
      eexists. split; [reflexivity |]. left. cbn. repeat split. eauto.
Qed.

(** A provider that knows the name and the market cap only. *)
Lemma analyze_company_fields_witness :
  exists a : analyze_response,
    @analyze (fun t => t) example_runtime (Some named_provider) true (Some "ACME") = Ok a /\
    company_name (analyze_company a) = PStr "Acme Corp" /\
    company_sector (analyze_company a) = PStr "N/A" /\
    company_market_cap (analyze_company a) = PStr "$1,250,000".
Proof.
  destruct (@analyze_company_fields (fun t => t) example_runtime named_provider true
              (Some "ACME") _ _ "1,250,000" eq_refl eq_refl eq_refl)
    as (a & Ha & [([message Hm] & _) | (Hname & Hsector & Hcap & _)]).
  - discriminate Hm.
  - exists a. repeat split; assumption.
Defined.

(** ** The dataset builder, from the feed to the rows *)

(** X23: the whole builder: without a loaded model the dataset is empty
    and nothing raises; and whatever rows it writes are kept rows, without
    duplicates up to case under [--unique], and no more than the news
    the adapter returned. *)
Theorem silver_dataset_from_news :
  forall (format_score : float -> string) (P : provider) (ticker : string)
         (limit min_len : Z) (unique : bool),
    (forall e, pipeline P = Raise e ->
               build_silver_dataset format_score P ticker limit min_len unique = Ok []) /\
    (forall rows : list dataset_row,
       build_silver_dataset format_score P ticker limit min_len unique = Ok rows ->
       Forall (kept_row min_len) rows /\
       (unique = true -> NoDup (map row_key rows)) /\
       exists news : list pyval,
         get_stock_news P ticker = Ok news /\
         (List.length rows <= List.length news)%nat).
Proof.
  intros format_score P ticker limit min_len unique. split.
  - intros e He. unfold build_silver_dataset, get_stock_news, load_sentiment_model.
    rewrite He. cbn [bind]. unfold dataset_rows, limit_items.
    destruct (negb (limit =? 0) && (0 <? limit)); rewrite ?firstn_nil; reflexivity.
  - intros rows H. unfold build_silver_dataset in H. inv_bind H.
    destruct (@dataset_rows_invariant _ _ _ _ _ _ _ H) as (Hkept & Hnd & Hlen).
    split; [exact Hkept |]. split; [exact Hnd |].
    eexists. split; [eassumption |].
    destruct (limit_items_length limit x) as [Hall _]. lia.
Qed.
